(** * Ayurvedic herb traceability prototype: ledger and provenance engine

    A shallow embedding of
    - the backend ledger service ([BlockchainService], services/blockchainService.js),
    - the farmer, lab and processor routes that call it,
    - the frontend simulation service ([BlockchainSimulationService]),
    followed by the properties of the specification that were checked
    against them.

    How the JavaScript is read:
    - numbers are IEEE binary64 values, modelled by the kernel's
      primitive floats: a comparison such as [pesticide > 0.1] is the
      comparison of the source, rounding of the literal included;
    - strings are byte strings, [toLowerCase] and [toUpperCase] act on
      ASCII letters;
    - a property read off an object that lacks it is [None]
      ([undefined]), and a rule that throws is caught where the source
      catches it;
    - the clock, [Math.random], the outcome of [fs.writeFile] and of the
      Joi schemas are inputs of each call; SHA-256, [JSON.stringify] and
      the calendar are parameters ([Host]);
    - of the console output, the lines the smart-contract rules print
      are kept (the seasonal warning is one of them). *)

From Stdlib Require Import List String Ascii Bool Arith ZArith Floats Lia.
Import ListNotations.
Open Scope string_scope.

Set Implicit Arguments.
Set Warnings "-inexact-float".

(* ===================================================================== *)
(** * Part 1. The model                                                  *)
(* ===================================================================== *)

(** ** JavaScript primitives used by the code *)

Module Js.

(** [String.prototype.toLowerCase], on ASCII letters. *)
Definition lower_ascii (c : ascii) : ascii :=
  let n := nat_of_ascii c in
  if (65 <=? n)%nat && (n <=? 90)%nat then ascii_of_nat (n + 32) else c.

Fixpoint toLowerCase (s : string) : string :=
  match s with
  | EmptyString => EmptyString
  | String c t => String (lower_ascii c) (toLowerCase t)
  end.

(** [s.includes(sub)]: [sub] occurs in [s] as a contiguous substring. *)
Fixpoint includes (s sub : string) : bool :=
  String.prefix sub s ||
  match s with
  | EmptyString => false
  | String _ t => includes t sub
  end.

(** [a === b] on property values that may be [undefined] ([None]). *)
Definition strict_eq (a b : option string) : bool :=
  match a, b with
  | Some x, Some y => String.eqb x y
  | None, None => true
  | _, _ => false
  end.

(** Relational operators with a possibly [undefined] left operand:
    [undefined] converts to NaN and every comparison with NaN is false. *)
Definition gt (x : option float) (c : float) : bool :=
  match x with Some v => PrimFloat.ltb c v | None => false end.

Definition lt (x : option float) (c : float) : bool :=
  match x with Some v => PrimFloat.ltb v c | None => false end.

(** Truthiness of a number: [undefined], [0], [-0] and NaN are falsy. *)
Definition truthy (x : option float) : bool :=
  match x with
  | Some v => negb (PrimFloat.eqb v 0%float) && negb (PrimFloat.is_nan v)
  | None => false
  end.

(** [String.prototype.toUpperCase], on ASCII letters. *)
Definition upper_ascii (c : ascii) : ascii :=
  let n := nat_of_ascii c in
  if (97 <=? n)%nat && (n <=? 122)%nat then ascii_of_nat (n - 32) else c.

Fixpoint toUpperCase (s : string) : string :=
  match s with
  | EmptyString => EmptyString
  | String c t => String (upper_ascii c) (toUpperCase t)
  end.

(** [a || b] on strings: the empty string is falsy. *)
Definition or_default (a : option string) (b : string) : string :=
  match a with
  | Some s => if String.eqb s "" then b else s
  | None => b
  end.

(** Template interpolation of a possibly [undefined] string. *)
Definition show (a : option string) : string :=
  match a with Some s => s | None => "undefined" end.

(** What a function call does: return a value or throw. *)
Inductive Completion (A : Type) : Type :=
| Return (a : A)
| Throw (message : string).

Arguments Return {A} a.
Arguments Throw {A} message.

(** [x <= c] and [x >= c] with a possibly [undefined] left operand. *)
Definition le (x : option float) (c : float) : bool :=
  match x with Some v => PrimFloat.leb v c | None => false end.

Definition ge (x : option float) (c : float) : bool :=
  match x with Some v => PrimFloat.leb c v | None => false end.

(** Truthiness of a string: [undefined], [null] and the empty string
    are falsy. *)
Definition truthy_string (a : option string) : bool :=
  match a with Some s => negb (String.eqb s "") | None => false end.

End Js.

(** ** Payloads (types/blockchain.ts and the objects the routes build) *)

Record GPSCoordinates := {
  lat : float;
  lng : float;
  altitude : option float
}.

Record CollectionEvent := {
  ce_id : string;
  species : string;
  gps : GPSCoordinates;
  timestamp : string;
  ce_moisture : float;
  farmerName : string;
  farmerId : string;
  photo : option string;
  ce_notes : option string;
  ce_submittedAt : option string;
  ce_status : option string
}.

(** A warning pushed by [determineTestStatus]; the source renders each
    as a sentence quoting the measured value. *)
Inductive Warning :=
| PesticideExceeds (v : option float)
| HeavyMetalsExceed (v : option float)
| MoistureOutOfRange (v : option float).

Inductive TestStatus := PASSED | PASSED_WITH_WARNINGS | FAILED.

Record QualityTest := {
  qt_id : string;
  qt_batchID : string;
  dna : string;
  pesticide : float;
  qt_moisture : float;
  heavyMetals : option float;
  labName : string;
  labId : string;
  testDate : string;
  qt_notes : option string;
  reportFile : option string;
  verified : bool;
  qt_status : option TestStatus;
  warnings : list Warning;
  qt_submittedAt : option string
}.

Inductive StageStatus := pending | in_progress | completed.

Inductive Stage := drying | grinding | packaging.

Record HistoryEntry := {
  h_step : Stage;
  h_status : StageStatus;
  h_timestamp : string;
  h_notes : string
}.

Record ProcessingStep := {
  ps_id : string;
  ps_batchID : string;
  ps_drying : StageStatus;
  ps_grinding : StageStatus;
  ps_packaging : StageStatus;
  processorName : string;
  processorId : string;
  processDate : string;
  qrCode : option string;
  qrGeneratedAt : option string;
  verificationUrl : option string;
  lastUpdated : option string;
  history : list HistoryEntry
}.

Record GenesisData := {
  g_message : string;
  g_team : string;
  g_created : string
}.

(** The [data] of a transaction.  The services never look at which kind
    of object they were handed: they read properties, which are
    [undefined] on an object that lacks them. *)
Inductive Payload :=
| Collection (c : CollectionEvent)
| Quality (q : QualityTest)
| Processing (p : ProcessingStep)
| Genesis (g : GenesisData).

Definition data_id (d : Payload) : option string :=
  match d with
  | Collection c => Some (ce_id c)
  | Quality q => Some (qt_id q)
  | Processing p => Some (ps_id p)
  | Genesis _ => None
  end.

Definition data_batchID (d : Payload) : option string :=
  match d with
  | Quality q => Some (qt_batchID q)
  | Processing p => Some (ps_batchID p)
  | Collection _ | Genesis _ => None
  end.

Definition data_species (d : Payload) : option string :=
  match d with Collection c => Some (species c) | _ => None end.

Definition data_gps (d : Payload) : option GPSCoordinates :=
  match d with Collection c => Some (gps c) | _ => None end.

Definition data_timestamp (d : Payload) : option string :=
  match d with Collection c => Some (timestamp c) | _ => None end.

Definition data_pesticide (d : Payload) : option float :=
  match d with Quality q => Some (pesticide q) | _ => None end.

Definition data_heavyMetals (d : Payload) : option float :=
  match d with Quality q => heavyMetals q | _ => None end.

Definition data_moisture (d : Payload) : option float :=
  match d with
  | Collection c => Some (ce_moisture c)
  | Quality q => Some (qt_moisture q)
  | _ => None
  end.

Definition data_verified (d : Payload) : option bool :=
  match d with Quality q => Some (verified q) | _ => None end.

Definition data_qrCode (d : Payload) : option string :=
  match d with Processing p => qrCode p | _ => None end.

Definition stage_of (p : ProcessingStep) (st : Stage) : StageStatus :=
  match st with
  | drying => ps_drying p
  | grinding => ps_grinding p
  | packaging => ps_packaging p
  end.

(** [data[stage]] *)
Definition data_stage (d : Payload) (st : Stage) : option StageStatus :=
  match d with Processing p => Some (stage_of p st) | _ => None end.

Definition is_completed (s : option StageStatus) : bool :=
  match s with Some completed => true | _ => false end.

(** The other properties the list and customer routes read. *)
Definition data_farmerName (d : Payload) : option string :=
  match d with Collection c => Some (farmerName c) | _ => None end.

Definition data_farmerId (d : Payload) : option string :=
  match d with Collection c => Some (farmerId c) | _ => None end.

Definition data_photo (d : Payload) : option string :=
  match d with Collection c => photo c | _ => None end.

Definition data_dna (d : Payload) : option string :=
  match d with Quality q => Some (dna q) | _ => None end.

Definition data_labName (d : Payload) : option string :=
  match d with Quality q => Some (labName q) | _ => None end.

Definition data_testDate (d : Payload) : option string :=
  match d with Quality q => Some (testDate q) | _ => None end.

Definition data_reportFile (d : Payload) : option string :=
  match d with Quality q => reportFile q | _ => None end.

Definition data_processorName (d : Payload) : option string :=
  match d with Processing p => Some (processorName p) | _ => None end.

Definition data_processDate (d : Payload) : option string :=
  match d with Processing p => Some (processDate p) | _ => None end.

(** [data.history || []] *)
Definition data_history (d : Payload) : list HistoryEntry :=
  match d with Processing p => history p | _ => [] end.

(** ** What the services take from their host

    The digest, the JSON rendering and the calendar are library code;
    the properties below hold for every choice of them. *)

Class Host := {
  (** [crypto.createHash('sha256').update(s).digest('hex')] *)
  sha256_hex : string -> string;
  (** [JSON.stringify(data)] *)
  JSON_stringify : Payload -> string;
  (** [new Date(ts).getMonth()]: 0..11, or [None] for an invalid date (NaN) *)
  getMonth : string -> option Z;
  (** [process.env.API_BASE_URL] *)
  API_BASE_URL : option string
}.

(** The readings of the clock and of [Math.random] that one call makes. *)
Record Clock := {
  nowIso : string;    (* new Date().toISOString() *)
  nowMs : string;     (* Date.now(), in decimal *)
  random36 : string   (* Math.random().toString(36) after its "0." *)
}.

(** ** The backend ledger service (services/blockchainService.js)

    A transaction holds its [data] object by reference, and the service
    only ever reads properties off it.  The model is therefore written
    once for any way [Obj] of holding a payload object, with [read]
    giving the object's present content: [Obj := Payload] with the
    identity when objects are immutable values, an address into a heap
    when callers keep and mutate the objects they submitted (the
    processor route does, see [Routes]). *)

Module Backend.

Record Transaction (Obj : Type) := {
  id : string;
  type : string;
  data : Obj;
  tx_timestamp : string;
  hash : string;
  previousHash : string;
  endorsements : option (list string)
}.

Record Metadata := {
  chainId : string;
  networkName : string;
  created : string;
  team : string
}.

Record Ledger (Obj : Type) := {
  transactions : list (Transaction Obj);
  blocks : list string;
  metadata : Metadata
}.

(** The service object ([this.ledger]) and the ledger file
    ([None]: no readable file at [ledgerPath]).  The file holds JSON
    text, that is, the payloads' content at the time of writing. *)
Record World (Obj : Type) := {
  memory : Ledger Obj;
  file : option (Ledger Payload)
}.

Record Validation := {
  valid : bool;
  reason : option string
}.

Definition accept : Validation := {| valid := true; reason := None |}.
Definition reject (why : string) : Validation := {| valid := false; reason := Some why |}.

(** The lines the rules print on the console. *)
Inductive Notice :=
| GeoFenceFailed (sp : string)
| GeoFencePassed (sp : string)
| SeasonWarning (sp : string) (month : option Z)
| SeasonPassed (sp : string)
| QualityPassed
| ProcessingPassed (batchID : option string).

Record Receipt := {
  transactionId : string;
  status : string;
  r_hash : string;
  r_timestamp : string
}.

Record Provenance (Obj : Type) := {
  batchID : string;
  farmer : option Obj;
  lab : option Obj;
  processor : option Obj;
  qrCodeUrl : string;
  isVerified : bool;
  p_lastUpdated : string;
  blockchainHash : option string;
  transactionCount : nat
}.

(** What [fs.writeFile] did: the file now holds the ledger, or the call
    failed and left the file as the host says. *)
Inductive WriteOutcome :=
| Written
| WriteError (message : string) (residue : option (Ledger Payload)).

(** The object [getStats] returns. *)
Record Stats := {
  totalTransactions : nat;
  collectionEvents : nat;
  qualityTests : nat;
  processingSteps : nat;
  lastTransaction : option string
}.

Definition ZERO_HASH : string :=
  "0x0000000000000000000000000000000000000000000000000000000000000000".

Definition generateTransactionId (c : Clock) : string :=
  "tx_" ++ nowMs c ++ "_" ++ random36 c.

Definition is_ashwagandha (sp : string) : bool :=
  Js.includes (Js.toLowerCase sp) "ashwagandha".

Definition isValidLocation (g : GPSCoordinates) : bool :=
  PrimFloat.leb 24.0%float (lat g) && PrimFloat.leb (lat g) 30.0%float &&
  PrimFloat.leb 69.0%float (lng g) && PrimFloat.leb (lng g) 78.0%float.

Definition isValidSeason (month : option Z) : bool :=
  match month with
  | Some m => (10 <=? m)%Z || (m <=? 2)%Z
  | None => false
  end.

(** The seasonal block of [validateCollectionEvent]: it only prints. *)
Definition seasonNotices (sp : string) (month : option Z) : list Notice :=
  if is_ashwagandha sp then
    if negb (isValidSeason month) then [SeasonWarning sp month] else [SeasonPassed sp]
  else [].

Definition truthy_opt {A} (o : option A) : bool :=
  match o with Some _ => true | None => false end.

Section Service.

Context `{Host}.
Variable Obj : Type.
Variable read : Obj -> Payload.

(** [this.ledger.transactions.push(tx)] *)
Definition push (l : Ledger Obj) (tx : Transaction Obj) : Ledger Obj :=
  {| transactions := (transactions l ++ [tx])%list;
     blocks := blocks l;
     metadata := metadata l |}.

Definition calculateHash (s : string) : string := sha256_hex s.

Definition getLastTransactionHash (l : Ledger Obj) : string :=
  match transactions l with
  | [] => ZERO_HASH
  | t :: ts => hash (List.last ts t)
  end.

Definition generateQRData (b : string) : string :=
  Js.or_default API_BASE_URL "http://localhost:5000"
    ++ "/api/customer/batch/" ++ b.

(** [JSON.stringify(this.ledger)]: the content of every payload, now. *)
Definition serialize (l : Ledger Obj) : Ledger Payload :=
  {| transactions :=
       List.map (fun tx => {| id := id tx;
                              type := type tx;
                              data := read (data tx);
                              tx_timestamp := tx_timestamp tx;
                              hash := hash tx;
                              previousHash := previousHash tx;
                              endorsements := endorsements tx |})
                (transactions l);
     blocks := blocks l;
     metadata := metadata l |}.

Definition saveLedger (w : World Obj) (io : WriteOutcome) : Js.Completion unit * World Obj :=
  match io with
  | Written =>
      (Js.Return tt, {| memory := memory w; file := Some (serialize (memory w)) |})
  | WriteError m residue =>
      (Js.Throw m, {| memory := memory w; file := residue |})
  end.

(** *** Smart-contract rules *)

(** [harvestDate.getMonth() + 1], NaN for an invalid date. *)
Definition harvestMonth (ts : option string) : option Z :=
  match ts with
  | Some s => option_map (fun m => (m + 1)%Z) (getMonth s)
  | None => None
  end.

Definition validateCollectionEvent (d : Payload)
  : list Notice * Js.Completion Validation :=
  match data_species d with
  | None => ([], Js.Throw "Cannot read properties of undefined (reading 'toLowerCase')")
  | Some sp =>
      let month := harvestMonth (data_timestamp d) in
      if is_ashwagandha sp then
        match data_gps d with
        | None => ([], Js.Throw "Cannot read properties of undefined (reading 'lat')")
        | Some g =>
            if negb (isValidLocation g) then
              ([GeoFenceFailed sp],
               Js.Return (reject "GPS coordinates outside valid cultivation region for Ashwagandha"))
            else
              (GeoFencePassed sp :: seasonNotices sp month, Js.Return accept)
        end
      else (seasonNotices sp month, Js.Return accept)
  end.

Definition validateQualityTest (d : Payload) : list Notice * Js.Completion Validation :=
  if Js.gt (data_pesticide d) 0.1%float then
    ([], Js.Return (reject "Pesticide level exceeds WHO limit (0.1 ppm)"))
  else if Js.truthy (data_heavyMetals d) && Js.gt (data_heavyMetals d) 0.05%float then
    ([], Js.Return (reject "Heavy metals level exceeds WHO limit (0.05 ppm)"))
  else if Js.lt (data_moisture d) 8%float || Js.gt (data_moisture d) 20%float then
    ([], Js.Return (reject "Moisture content outside acceptable range (8-20%)"))
  else ([QualityPassed], Js.Return accept).

(** The test of [validateProcessingStep]'s [find]. *)
Definition isQualityTestOf (b : option string) (tx : Transaction Obj) : bool :=
  String.eqb (type tx) "quality_test" && Js.strict_eq (data_batchID (read (data tx))) b.

Definition validateProcessingStep (l : Ledger Obj) (d : Payload)
  : list Notice * Js.Completion Validation :=
  let b := data_batchID d in
  match List.find (isQualityTestOf b) (transactions l) with
  | None => ([], Js.Return (reject "Cannot process batch without quality verification"))
  | Some _ => ([ProcessingPassed b], Js.Return accept)
  end.

(** [validateTransaction]: dispatch on the type; an exception thrown by
    a rule is caught and reported as a failed validation. *)
Definition validateTransaction (l : Ledger Obj) (tx : Transaction Obj)
  : list Notice * Validation :=
  let '(out, r) :=
    if String.eqb (type tx) "collection" then validateCollectionEvent (read (data tx))
    else if String.eqb (type tx) "quality_test" then validateQualityTest (read (data tx))
    else if String.eqb (type tx) "processing" then validateProcessingStep l (read (data tx))
    else ([], Js.Return accept) in
  match r with
  | Js.Return v => (out, v)
  | Js.Throw m => (out, {| valid := false; reason := Some m |})
  end.

(** *** Submission *)

(** The transaction object [submitTransaction] builds before validating. *)
Definition newTransaction (l : Ledger Obj) (ty : string) (d : Obj)
  (endorse : list string) (c : Clock) : Transaction Obj :=
  let txId := generateTransactionId c in
  {| id := txId;
     type := ty;
     data := d;
     tx_timestamp := nowIso c;
     hash := calculateHash (JSON_stringify (read d) ++ txId);
     previousHash := getLastTransactionHash l;
     endorsements := Some endorse |}.

Definition submitTransaction (w : World Obj) (ty : string) (d : Obj)
  (endorse : list string) (c : Clock) (io : WriteOutcome)
  : Js.Completion Receipt * World Obj :=
  let transaction := newTransaction (memory w) ty d endorse c in
  let validation := snd (validateTransaction (memory w) transaction) in
  if negb (valid validation) then
    (Js.Throw ("Transaction validation failed: " ++ Js.show (reason validation)), w)
  else
    let w1 := {| memory := push (memory w) transaction; file := file w |} in
    match saveLedger w1 io with
    | (Js.Throw m, w2) => (Js.Throw m, w2)
    | (Js.Return _, w2) =>
        (Js.Return {| transactionId := id transaction;
                      status := "COMMITTED";
                      r_hash := hash transaction;
                      r_timestamp := tx_timestamp transaction |},
         w2)
    end.

(** *** Queries *)

(** The filter of [getProvenance]: a collection matches by [data.id],
    every other transaction by [data.batchID]. *)
Definition concerns (b : string) (tx : Transaction Obj) : bool :=
  if String.eqb (type tx) "collection"
  then Js.strict_eq (data_id (read (data tx))) (Some b)
  else Js.strict_eq (data_batchID (read (data tx))) (Some b).

Definition hasType (ty : string) (tx : Transaction Obj) : bool := String.eqb (type tx) ty.

Definition getProvenance (l : Ledger Obj) (b : string) (c : Clock) : option (Provenance Obj) :=
  let txs := List.filter (concerns b) (transactions l) in
  if (List.length txs =? 0)%nat then None
  else
    let collectionTx := List.find (hasType "collection") txs in
    let qualityTx := List.find (hasType "quality_test") txs in
    let processingTx := List.find (hasType "processing") txs in
    Some {| batchID := b;
            farmer := option_map (@data Obj) collectionTx;
            lab := option_map (@data Obj) qualityTx;
            processor := option_map (@data Obj) processingTx;
            qrCodeUrl := generateQRData b;
            isVerified := truthy_opt qualityTx && truthy_opt processingTx;
            p_lastUpdated := nowIso c;
            blockchainHash := option_map (@hash Obj) collectionTx;
            transactionCount := List.length txs |}.

Definition getAllBatches (l : Ledger Obj) : list Obj :=
  List.map (@data Obj) (List.filter (hasType "collection") (transactions l)).

Definition getTransactionsByType (l : Ledger Obj) (ty : string) : list (Transaction Obj) :=
  List.filter (hasType ty) (transactions l).

Definition getStats (l : Ledger Obj) : Stats :=
  {| totalTransactions := List.length (transactions l);
     collectionEvents := List.length (List.filter (hasType "collection") (transactions l));
     qualityTests := List.length (List.filter (hasType "quality_test") (transactions l));
     processingSteps := List.length (List.filter (hasType "processing") (transactions l));
     lastTransaction :=
       match transactions l with
       | [] => None
       | t :: ts => Some (tx_timestamp (List.last ts t))
       end |}.

End Service.

(** *** Start-up, with payloads held by value *)

(** The constructor's ledger. *)
Definition emptyLedger (c : Clock) : Ledger Payload :=
  {| transactions := [];
     blocks := [];
     metadata := {| chainId := "sih25027-traceability";
                    networkName := "ayurveda-trace-network";
                    created := nowIso c;
                    team := "Team Hackon" |} |}.

Definition genesisTransaction `{Host} (c : Clock) : Transaction Payload :=
  {| id := "tx_genesis_000";
     type := "genesis";
     data := Genesis {| g_message := "SIH25027 Traceability Chain Genesis Block";
                        g_team := "Team Hackon";
                        g_created := nowIso c |};
     tx_timestamp := nowIso c;
     hash := calculateHash "genesis_block_sih25027";
     previousHash := ZERO_HASH;
     endorsements := None |}.

Definition createGenesisBlock `{Host} (c : Clock) (l : Ledger Payload) : Ledger Payload :=
  push l (genesisTransaction c).

(** [initialize]: load the ledger file, or start a chain with the genesis
    transaction and write it. *)
Definition initialize `{Host} (c : Clock) (disk : option (Ledger Payload))
  (io : WriteOutcome) : Js.Completion unit * World Payload :=
  match disk with
  | Some l => (Js.Return tt, {| memory := l; file := disk |})
  | None =>
      saveLedger (fun p => p)
        {| memory := createGenesisBlock c (emptyLedger c); file := None |} io
  end.

End Backend.

(** ** The routes that call the service (routes/farmer.js, lab.js, processor.js, customer.js)

    Here payload objects live in a heap and the ledger holds their
    addresses: the processor route mutates the object it got from
    [getProvenance], which is the very object a committed transaction
    holds.  Each route is given the outcome of its Joi schema on the
    request body ([inl details] when the body is refused). *)

Module Routes.

Definition address := nat.

Record State := {
  heap : list Payload;
  service : Backend.World address
}.

(** The content of an object.  Every address in a state was handed out
    by [alloc], so the default is never read. *)
Definition blank : Payload :=
  Genesis {| g_message := ""; g_team := ""; g_created := "" |}.

Definition read (h : list Payload) (a : address) : Payload := List.nth a h blank.

(** A new object. *)
Definition alloc (h : list Payload) (p : Payload) : address * list Payload :=
  (List.length h, (h ++ [p])%list).

(** Assignment to the properties of the object at [a]. *)
Fixpoint store (h : list Payload) (a : address) (p : Payload) : list Payload :=
  match h, a with
  | [], _ => []
  | _ :: t, O => p :: t
  | x :: t, S a' => x :: store t a' p
  end.

Record Response (B : Type) := {
  statusCode : nat;
  success : bool;
  error : option string;
  message : option string;
  details : option string;
  body : option B
}.

Definition refuse {B} (code : nat) (err : string) (msg det : option string) : Response B :=
  {| statusCode := code; success := false; error := Some err;
     message := msg; details := det; body := None |}.

Definition reply {B} (code : nat) (msg : string) (b : B) : Response B :=
  {| statusCode := code; success := true; error := None;
     message := Some msg; details := None; body := Some b |}.

(** Loading a ledger: [JSON.parse] makes one new object per
    transaction, here at the address of the transaction's position. *)
Fixpoint addressed (n : nat) (txs : list (Backend.Transaction Payload))
  : list (Backend.Transaction address) :=
  match txs with
  | [] => []
  | tx :: rest =>
      {| Backend.id := Backend.id tx;
         Backend.type := Backend.type tx;
         Backend.data := n;
         Backend.tx_timestamp := Backend.tx_timestamp tx;
         Backend.hash := Backend.hash tx;
         Backend.previousHash := Backend.previousHash tx;
         Backend.endorsements := Backend.endorsements tx |} :: addressed (S n) rest
  end.

Definition boot (w : Backend.World Payload) : State :=
  {| heap := List.map (@Backend.data Payload) (Backend.transactions (Backend.memory w));
     service :=
       {| Backend.memory :=
            {| Backend.transactions :=
                 addressed 0 (Backend.transactions (Backend.memory w));
               Backend.blocks := Backend.blocks (Backend.memory w);
               Backend.metadata := Backend.metadata (Backend.memory w) |};
          Backend.file := Backend.file w |} |}.

(** *** POST /api/farmer/upload *)

Record CollectionInput := {
  ci_species : string;
  ci_gps : GPSCoordinates;
  ci_timestamp : string;
  ci_moisture : float;
  ci_farmerName : string;
  ci_farmerId : string;
  ci_notes : option string
}.

Record Committed := {
  c_id : string;            (* batchID or testID *)
  c_transactionId : string;
  c_hash : string;
  c_data : address
}.

Definition farmerUpload `{Host} (s : State) (validated : string + CollectionInput)
  (photoFile : option string) (c cs : Clock) (io : Backend.WriteOutcome)
  : Response Committed * State :=
  match validated with
  | inl det => (refuse 400 "Validation failed" None (Some det), s)
  | inr value =>
      let batchID :=
        "BATCH_" ++ String.substring 0 3 (Js.toUpperCase (ci_species value))
                 ++ "_" ++ nowMs c in
      let collectionEvent :=
        Collection {| ce_id := batchID;
                      species := ci_species value;
                      gps := ci_gps value;
                      timestamp := ci_timestamp value;
                      ce_moisture := ci_moisture value;
                      farmerName := ci_farmerName value;
                      farmerId := ci_farmerId value;
                      photo := option_map (fun f => "/uploads/" ++ f) photoFile;
                      ce_notes := Some (Js.or_default (ci_notes value) "");
                      ce_submittedAt := Some (nowIso c);
                      ce_status := Some "submitted" |} in
      let '(a, h1) := alloc (heap s) collectionEvent in
      match Backend.submitTransaction (read h1) (service s) "collection" a [] cs io with
      | (Js.Throw m, w) =>
          (refuse 500 "Failed to submit collection event" (Some m) None,
           {| heap := h1; service := w |})
      | (Js.Return tx, w) =>
          (reply 201 "Collection event recorded on blockchain"
             {| c_id := batchID;
                c_transactionId := Backend.transactionId tx;
                c_hash := Backend.r_hash tx;
                c_data := a |},
           {| heap := h1; service := w |})
      end
  end.

(** *** POST /api/lab/upload *)

Record QualityTestInput := {
  qi_batchID : string;
  qi_dna : string;
  qi_pesticide : float;
  qi_moisture : float;
  qi_heavyMetals : option float;
  qi_labName : string;
  qi_labId : string;
  qi_testDate : option string;
  qi_notes : option string
}.

(** The three properties [determineTestStatus] reads off its argument. *)
Record TestData := {
  td_pesticide : option float;
  td_heavyMetals : option float;
  td_moisture : option float
}.

Definition testData_of_input (v : QualityTestInput) : TestData :=
  {| td_pesticide := Some (qi_pesticide v);
     td_heavyMetals := qi_heavyMetals v;
     td_moisture := Some (qi_moisture v) |}.

(** The same three properties, read off a recorded payload. *)
Definition testData_of_payload (d : Payload) : TestData :=
  {| td_pesticide := data_pesticide d;
     td_heavyMetals := data_heavyMetals d;
     td_moisture := data_moisture d |}.

Record Verdict := {
  passed : bool;
  v_status : TestStatus;
  v_warnings : list Warning
}.

(** The quality standards of [determineTestStatus]. *)
Definition pesticide_max : float := 0.1%float.
Definition heavyMetals_max : float := 0.05%float.
Definition moisture_min : float := 8%float.
Definition moisture_max : float := 20%float.

Definition determineTestStatus (t : TestData) : Verdict :=
  (* the local variables [warnings] and [passed], after each check *)
  let '(w1, p1) :=
    if Js.gt (td_pesticide t) pesticide_max
    then ([PesticideExceeds (td_pesticide t)], false)
    else ([], true) in
  let '(w2, p2) :=
    if Js.gt (td_heavyMetals t) heavyMetals_max
    then ((w1 ++ [HeavyMetalsExceed (td_heavyMetals t)])%list, false)
    else (w1, p1) in
  let '(w3, p3) :=
    if Js.lt (td_moisture t) moisture_min || Js.gt (td_moisture t) moisture_max
    then ((w2 ++ [MoistureOutOfRange (td_moisture t)])%list,
          if Js.lt (td_moisture t) 5%float || Js.gt (td_moisture t) 25%float
          then false else p2)
    else (w2, p2) in
  let st :=
    if p3 && (List.length w3 =? 0)%nat then PASSED
    else if p3 && (0 <? List.length w3)%nat then PASSED_WITH_WARNINGS
    else FAILED in
  {| passed := p3; v_status := st; v_warnings := w3 |}.

(** [value.heavyMetals || 0] *)
Definition heavyMetals_or_zero (x : option float) : float :=
  match x with
  | Some v => if Js.truthy x then v else 0%float
  | None => 0%float
  end.

Record TestCommitted := {
  t_testID : string;
  t_transactionId : string;
  t_hash : string;
  t_status : TestStatus;
  t_passed : bool;
  t_data : address
}.

Definition labUpload `{Host} (s : State) (validated : string + QualityTestInput)
  (reportFile_ : option string) (c cs : Clock) (io : Backend.WriteOutcome)
  : Response TestCommitted * State :=
  match validated with
  | inl det => (refuse 400 "Validation failed" None (Some det), s)
  | inr value =>
      let provenance :=
        Backend.getProvenance (read (heap s)) (Backend.memory (service s))
                              (qi_batchID value) c in
      if match provenance with
         | None => true
         | Some p => negb (Backend.truthy_opt (Backend.farmer p))
         end
      then
        (refuse 404 "Batch not found"
           (Some ("No collection event found for batch " ++ qi_batchID value)) None,
         s)
      else
        let testID := "TEST_" ++ nowMs c ++ "_" ++ random36 c in
        let testStatus := determineTestStatus (testData_of_input value) in
        let qualityTest :=
          Quality {| qt_id := testID;
                     qt_batchID := qi_batchID value;
                     dna := qi_dna value;
                     pesticide := qi_pesticide value;
                     qt_moisture := qi_moisture value;
                     heavyMetals := Some (heavyMetals_or_zero (qi_heavyMetals value));
                     labName := qi_labName value;
                     labId := qi_labId value;
                     testDate := Js.or_default (qi_testDate value) (nowIso c);
                     qt_notes := Some (Js.or_default (qi_notes value) "");
                     reportFile := option_map (fun f => "/uploads/reports/" ++ f) reportFile_;
                     verified := passed testStatus;
                     qt_status := Some (v_status testStatus);
                     warnings := v_warnings testStatus;
                     qt_submittedAt := Some (nowIso c) |} in
        let '(a, h1) := alloc (heap s) qualityTest in
        match Backend.submitTransaction (read h1) (service s) "quality_test" a [] cs io with
        | (Js.Throw m, w) =>
            (refuse 500 "Failed to submit quality test" (Some m) None,
             {| heap := h1; service := w |})
        | (Js.Return tx, w) =>
            (reply 201 "Quality test results recorded on blockchain"
               {| t_testID := testID;
                  t_transactionId := Backend.transactionId tx;
                  t_hash := Backend.r_hash tx;
                  t_status := v_status testStatus;
                  t_passed := passed testStatus;
                  t_data := a |},
             {| heap := h1; service := w |})
        end
  end.

(** *** POST /api/processor/update-status *)

(** The schema admits the statuses 'in-progress' and 'completed'. *)
Inductive NewStatus := to_in_progress | to_completed.

Definition stageStatus (n : NewStatus) : StageStatus :=
  match n with to_in_progress => in_progress | to_completed => completed end.

Record UpdateInput := {
  u_batchID : string;
  u_step : Stage;
  u_status : NewStatus;
  u_processorId : string;
  u_processorName : string;
  u_notes : option string
}.

Definition stageName (st : Stage) : string :=
  match st with
  | drying => "drying"
  | grinding => "grinding"
  | packaging => "packaging"
  end.

Definition statusName (n : NewStatus) : string :=
  match n with to_in_progress => "in-progress" | to_completed => "completed" end.

(** [stepOrder[stepOrder.indexOf(step) - 1]], when the index is positive. *)
Definition previousStep (st : Stage) : option Stage :=
  match st with
  | drying => None
  | grinding => Some drying
  | packaging => Some grinding
  end.

(** [provenance.lab?.verified] as a condition. *)
Definition labVerified (h : list Payload) (p : Backend.Provenance address) : bool :=
  match Backend.lab p with
  | Some a => match data_verified (read h a) with Some b => b | None => false end
  | None => false
  end.

(** The assignments [processingStep[step] = status], [lastUpdated] and
    the push on [history].  Payload objects keep their shape in this
    model: the routes only ever reach processing records here. *)
Definition recordStep (d : Payload) (st : Stage) (n : NewStatus) (now : string)
  (notes : option string) : Payload :=
  match d with
  | Processing p =>
      Processing
        {| ps_id := ps_id p;
           ps_batchID := ps_batchID p;
           ps_drying := match st with drying => stageStatus n | _ => ps_drying p end;
           ps_grinding := match st with grinding => stageStatus n | _ => ps_grinding p end;
           ps_packaging := match st with packaging => stageStatus n | _ => ps_packaging p end;
           processorName := processorName p;
           processorId := processorId p;
           processDate := processDate p;
           qrCode := qrCode p;
           qrGeneratedAt := qrGeneratedAt p;
           verificationUrl := verificationUrl p;
           lastUpdated := Some now;
           history := (history p ++ [{| h_step := st;
                                       h_status := stageStatus n;
                                       h_timestamp := now;
                                       h_notes := Js.or_default notes "" |}])%list |}
  | other => other
  end.

Definition isProcessingComplete (processing : option Payload) : bool :=
  match processing with
  | None => false
  | Some d =>
      is_completed (data_stage d drying) &&
      is_completed (data_stage d grinding) &&
      is_completed (data_stage d packaging)
  end.

Inductive NextStep := next (st : Stage) | complete.

Definition getNextProcessingStep (processing : option Payload) : NextStep :=
  match processing with
  | None => next drying
  | Some d =>
      if negb (is_completed (data_stage d drying)) then next drying
      else if negb (is_completed (data_stage d grinding)) then next grinding
      else if negb (is_completed (data_stage d packaging)) then next packaging
      else complete
  end.

Record Updated := {
  up_transactionId : string;
  up_hash : string;
  up_processing : address;
  up_isComplete : bool
}.

Definition updateStatus `{Host} (s : State) (validated : string + UpdateInput)
  (c cs : Clock) (io : Backend.WriteOutcome) : Response Updated * State :=
  match validated with
  | inl det => (refuse 400 "Validation failed" None (Some det), s)
  | inr value =>
      match Backend.getProvenance (read (heap s)) (Backend.memory (service s))
                                  (u_batchID value) c with
      | None => (refuse 404 "Batch not found" None None, s)
      | Some provenance =>
          if negb (labVerified (heap s) provenance) then
            (refuse 400 "Cannot process batch without quality verification" None None, s)
          else
            (* the current processing object, or a new one *)
            let '(processingStep, h1) :=
              match Backend.processor provenance with
              | Some a => (a, heap s)
              | None =>
                  alloc (heap s)
                    (Processing {| ps_id := "PROC_" ++ nowMs c ++ "_" ++ random36 c;
                                   ps_batchID := u_batchID value;
                                   ps_drying := pending;
                                   ps_grinding := pending;
                                   ps_packaging := pending;
                                   processorName := u_processorName value;
                                   processorId := u_processorId value;
                                   processDate := nowIso c;
                                   qrCode := None;
                                   qrGeneratedAt := None;
                                   verificationUrl := None;
                                   lastUpdated := None;
                                   history := [] |})
              end in
            if match previousStep (u_step value) with
               | Some prev => negb (is_completed (data_stage (read h1 processingStep) prev))
               | None => false
               end
            then
              (refuse 400
                 ("Cannot start " ++ stageName (u_step value) ++ " before completing "
                    ++ match previousStep (u_step value) with
                       | Some prev => stageName prev
                       | None => ""
                       end)
                 None None,
               {| heap := h1; service := service s |})
            else
              let h2 :=
                store h1 processingStep
                  (recordStep (read h1 processingStep) (u_step value) (u_status value)
                              (nowIso c) (u_notes value)) in
              match Backend.submitTransaction (read h2) (service s) "processing"
                                              processingStep [] cs io with
              | (Js.Throw m, w) =>
                  (refuse 500 "Failed to update processing status" (Some m) None,
                   {| heap := h2; service := w |})
              | (Js.Return tx, w) =>
                  (reply 200
                     ("Processing step " ++ stageName (u_step value) ++ " marked as "
                        ++ statusName (u_status value))
                     {| up_transactionId := Backend.transactionId tx;
                        up_hash := Backend.r_hash tx;
                        up_processing := processingStep;
                        up_isComplete := isProcessingComplete (Some (read h2 processingStep)) |},
                   {| heap := h2; service := w |})
              end
      end
  end.

(** *** POST /api/processor/generate-qr *)

Record QRInput := {
  q_batchID : string;
  q_processorId : string
}.

Record QRIssued := {
  qr_batchID : string;
  qr_qrCode : string;
  qr_verificationUrl : string;
  qr_transactionId : string;
  qr_hash : string
}.

(** [{...processor, qrCode, qrGeneratedAt, verificationUrl}]: a new
    object.  The route reaches this point only with a processing record
    (its three stages read 'completed'). *)
Definition withQR (d : Payload) (code now url : string) : Payload :=
  match d with
  | Processing p =>
      Processing
        {| ps_id := ps_id p;
           ps_batchID := ps_batchID p;
           ps_drying := ps_drying p;
           ps_grinding := ps_grinding p;
           ps_packaging := ps_packaging p;
           processorName := processorName p;
           processorId := processorId p;
           processDate := processDate p;
           qrCode := Some code;
           qrGeneratedAt := Some now;
           verificationUrl := Some url;
           lastUpdated := lastUpdated p;
           history := history p |}
  | other => other
  end.

(** [files]: what rendering the image and writing it under uploads/ did. *)
Definition generateQR `{Host} (s : State) (validated : string + QRInput)
  (files : Js.Completion unit) (c cs : Clock) (io : Backend.WriteOutcome)
  : Response QRIssued * State :=
  match validated with
  | inl det => (refuse 400 "Validation failed" None (Some det), s)
  | inr value =>
      match Backend.getProvenance (read (heap s)) (Backend.memory (service s))
                                  (q_batchID value) c with
      | None => (refuse 404 "Batch not found" None None, s)
      | Some provenance =>
          match Backend.processor provenance with
          | None =>
              (* isProcessingComplete(undefined) is false *)
              (refuse 400 "Cannot generate QR code for incomplete processing" None None, s)
          | Some old =>
              if negb (isProcessingComplete (Some (read (heap s) old))) then
                (refuse 400 "Cannot generate QR code for incomplete processing" None None, s)
              else
                let url :=
                  Js.or_default API_BASE_URL "http://localhost:5000"
                    ++ "/api/customer/batch/" ++ q_batchID value in
                match files with
                | Js.Throw m => (refuse 500 "Failed to generate QR code" (Some m) None, s)
                | Js.Return _ =>
                    let code :=
                      "/uploads/qr-codes/" ++ "qr_" ++ q_batchID value ++ "_"
                        ++ nowMs c ++ ".png" in
                    let '(a, h1) :=
                      alloc (heap s) (withQR (read (heap s) old) code (nowIso c) url) in
                    match Backend.submitTransaction (read h1) (service s) "processing"
                                                    a [] cs io with
                    | (Js.Throw m, w) =>
                        (refuse 500 "Failed to generate QR code" (Some m) None,
                         {| heap := h1; service := w |})
                    | (Js.Return tx, w) =>
                        (reply 200 "QR code generated successfully"
                           {| qr_batchID := q_batchID value;
                              qr_qrCode := code;
                              qr_verificationUrl := url;
                              qr_transactionId := Backend.transactionId tx;
                              qr_hash := Backend.r_hash tx |},
                         {| heap := h1; service := w |})
                    end
                end
          end
      end
  end.

(** The processor dashboard's flag [qrGenerated: !!provenance.processor?.qrCode]. *)
Definition qrGenerated (h : list Payload) (p : Backend.Provenance address) : bool :=
  match Backend.processor p with
  | Some a => match data_qrCode (read h a) with
              | Some code => negb (String.eqb code "")
              | None => false
              end
  | None => false
  end.

(** *** GET /api/farmer/batches *)

(** A response without a message. *)
Definition answer {B} (b : B) : Response B :=
  {| statusCode := 200; success := true; error := None;
     message := None; details := None; body := Some b |}.

(** An entry of a list response,
    [{...tx.data, transactionHash: tx.hash, submittedAt: tx.timestamp}]:
    [li_data] is the payload the properties are spread from; the entry's
    [submittedAt] is the transaction's timestamp, whatever the payload's
    own. *)
Record Listed := {
  li_data : Payload;
  li_transactionHash : string;
  li_submittedAt : string
}.

Record Listing := {
  ls_count : nat;
  ls_batches : list Listed
}.

(** [farmerId_]: the query parameter, [None] when it is absent. *)
Definition farmerBatches (s : State) (farmerId_ : option string) : Response Listing :=
  if negb (Js.truthy_string farmerId_) then
    refuse 400 "farmerId query parameter required" None None
  else
    let collectionTxs :=
      Backend.getTransactionsByType (Backend.memory (service s)) "collection" in
    let farmerBatches :=
      List.map (fun tx => {| li_data := read (heap s) (Backend.data tx);
                             li_transactionHash := Backend.hash tx;
                             li_submittedAt := Backend.tx_timestamp tx |})
        (List.filter
           (fun tx => Js.strict_eq (data_farmerId (read (heap s) (Backend.data tx))) farmerId_)
           collectionTxs) in
    answer {| ls_count := List.length farmerBatches; ls_batches := farmerBatches |}.

(** *** GET /api/farmer/batch/:id *)

Record BatchDetails := {
  bd_batch : address;
  bd_hasQualityTest : bool;
  bd_hasProcessing : bool;
  bd_isComplete : bool
}.

Definition farmerBatch `{Host} (s : State) (id_ : string) (c : Clock) : Response BatchDetails :=
  match Backend.getProvenance (read (heap s)) (Backend.memory (service s)) id_ c with
  | None => refuse 404 "Batch not found" None None
  | Some provenance =>
      match Backend.farmer provenance with
      | None => refuse 404 "Batch not found" None None
      | Some a =>
          answer {| bd_batch := a;
                    bd_hasQualityTest := Backend.truthy_opt (Backend.lab provenance);
                    bd_hasProcessing := Backend.truthy_opt (Backend.processor provenance);
                    bd_isComplete := Backend.isVerified provenance |}
      end
  end.

(** *** GET /api/processor/batch/:id/status *)

Record ProcessingStatus := {
  st_batchID : string;
  st_farmer : option address;
  st_qualityTest : option address;
  st_processing : option address;
  st_isQualityVerified : bool;
  st_canStartProcessing : bool;
  st_isComplete : bool;
  st_qrGenerated : bool;
  st_nextStep : NextStep
}.

Definition batchStatus `{Host} (s : State) (id_ : string) (c : Clock)
  : Response ProcessingStatus :=
  match Backend.getProvenance (read (heap s)) (Backend.memory (service s)) id_ c with
  | None => refuse 404 "Batch not found" None None
  | Some provenance =>
      let processing := option_map (read (heap s)) (Backend.processor provenance) in
      answer {| st_batchID := id_;
                st_farmer := Backend.farmer provenance;
                st_qualityTest := Backend.lab provenance;
                st_processing := Backend.processor provenance;
                st_isQualityVerified := labVerified (heap s) provenance;
                st_canStartProcessing := labVerified (heap s) provenance;
                st_isComplete := isProcessingComplete processing;
                st_qrGenerated := qrGenerated (heap s) provenance;
                st_nextStep := getNextProcessingStep processing |}
  end.

(** ** The customer routes (routes/customer.js) *)

Record VerificationScore := {
  score : nat;
  vs_status : string;
  points : list string
}.

Definition calculateVerificationScore (h : list Payload) (p : Backend.Provenance address)
  : VerificationScore :=
  (* the local variables [score] and [points], after each check *)
  let '(s1, p1) :=
    if Backend.truthy_opt (Backend.farmer p)
    then (25, ["Farm origin verified"]) else (0, []) in
  let '(s2, p2) :=
    if labVerified h p
    then (s1 + 35, (p1 ++ ["Quality tests passed"])%list) else (s1, p1) in
  let '(s3, p3) :=
    if match Backend.processor p with
       | Some a =>
           is_completed (data_stage (read h a) drying) &&
           is_completed (data_stage (read h a) grinding) &&
           is_completed (data_stage (read h a) packaging)
       | None => false
       end
    then (s2 + 25, (p2 ++ ["Processing completed"])%list) else (s2, p2) in
  let '(s4, p4) :=
    if qrGenerated h p
    then (s3 + 15, (p3 ++ ["QR verification enabled"])%list) else (s3, p3) in
  let st :=
    if (90 <=? s4)%nat then "Fully Verified"
    else if (70 <=? s4)%nat then "Well Verified"
    else if (50 <=? s4)%nat then "Partially Verified"
    else if (25 <=? s4)%nat then "Basic Verification"
    else "Unverified" in
  {| score := s4; vs_status := st; points := p4 |}.

Definition getRegionName (g : GPSCoordinates) : string :=
  if PrimFloat.leb 24.0%float (lat g) && PrimFloat.leb (lat g) 30.0%float &&
     PrimFloat.leb 69.0%float (lng g) && PrimFloat.leb (lng g) 78.0%float
  then "Rajasthan, India"
  else if PrimFloat.leb 8.0%float (lat g) && PrimFloat.leb (lat g) 13.5%float &&
          PrimFloat.leb 76.0%float (lng g) && PrimFloat.leb (lng g) 80.5%float
  then "Tamil Nadu, India"
  else if PrimFloat.leb 11.5%float (lat g) && PrimFloat.leb (lat g) 18.5%float &&
          PrimFloat.leb 74.0%float (lng g) && PrimFloat.leb (lng g) 78.5%float
  then "Karnataka, India"
  else if PrimFloat.leb 6.0%float (lat g) && PrimFloat.leb (lat g) 37.0%float &&
          PrimFloat.leb 68.0%float (lng g) && PrimFloat.leb (lng g) 97.0%float
  then "India"
  else "Unknown Region".

(** *** GET /api/customer/batch/:id *)

Record FarmView := {
  fv_farmerName : option string;
  fv_coordinates : GPSCoordinates;
  fv_region : string;
  fv_harvestDate : option string;
  fv_species : option string;
  fv_moisture : option float;
  fv_photo : option string
}.

Record Reading := {
  rd_value : option float;
  rd_unit : string;
  rd_status : string;
  rd_limit : option float
}.

Record QualityView := {
  qv_labName : option string;
  qv_testDate : option string;
  qv_dnaVerified : bool;
  qv_pesticideLevel : Reading;
  qv_heavyMetals : Reading;
  qv_moisture : Reading;
  qv_verified : option bool;
  qv_reportFile : option string
}.

Record StepView := {
  sv_status : option StageStatus;
  sv_completed : bool
}.

Record ProcessingView := {
  pv_processorName : option string;
  pv_processDate : option string;
  pv_drying : StepView;
  pv_grinding : StepView;
  pv_packaging : StepView;
  pv_qrCode : option string;
  pv_history : list HistoryEntry
}.

Record ChainView := {
  cv_transactionCount : nat;
  cv_hash : option string;
  cv_lastUpdated : string;
  cv_network : string;
  cv_chainId : string
}.

Record MetadataView := {
  mv_queryTimestamp : string;
  mv_qrVerificationUrl : string;
  mv_isComplete : bool;
  mv_team : string
}.

Record CustomerProvenance := {
  cp_batchID : string;
  cp_verification : VerificationScore;
  cp_farm : option FarmView;
  cp_quality : option QualityView;
  cp_processing : option ProcessingView;
  cp_blockchain : ChainView;
  cp_metadata : MetadataView
}.

Definition farmView (d : Payload) (g : GPSCoordinates) : FarmView :=
  {| fv_farmerName := data_farmerName d;
     fv_coordinates := g;
     fv_region := getRegionName g;
     fv_harvestDate := data_timestamp d;
     fv_species := data_species d;
     fv_moisture := data_moisture d;
     fv_photo := data_photo d |}.

Definition qualityView (d : Payload) : QualityView :=
  {| qv_labName := data_labName d;
     qv_testDate := data_testDate d;
     qv_dnaVerified := Js.truthy_string (data_dna d);
     qv_pesticideLevel :=
       {| rd_value := data_pesticide d;
          rd_unit := "ppm";
          rd_status := if Js.le (data_pesticide d) 0.1%float then "Safe" else "Warning";
          rd_limit := Some 0.1%float |};
     qv_heavyMetals :=
       {| rd_value := Some (heavyMetals_or_zero (data_heavyMetals d));
          rd_unit := "ppm";
          rd_status :=
            if PrimFloat.leb (heavyMetals_or_zero (data_heavyMetals d)) 0.05%float
            then "Safe" else "Warning";
          rd_limit := Some 0.05%float |};
     qv_moisture :=
       {| rd_value := data_moisture d;
          rd_unit := "%";
          rd_status :=
            if Js.ge (data_moisture d) 8%float && Js.le (data_moisture d) 20%float
            then "Optimal" else "Acceptable";
          rd_limit := None |};
     qv_verified := data_verified d;
     qv_reportFile := data_reportFile d |}.

Definition stepView (d : Payload) (st : Stage) : StepView :=
  {| sv_status := data_stage d st; sv_completed := is_completed (data_stage d st) |}.

Definition processingView (d : Payload) : ProcessingView :=
  {| pv_processorName := data_processorName d;
     pv_processDate := data_processDate d;
     pv_drying := stepView d drying;
     pv_grinding := stepView d grinding;
     pv_packaging := stepView d packaging;
     pv_qrCode := data_qrCode d;
     pv_history := data_history d |}.

(** [c] is the clock reading of [getProvenance], [cq] the one of the
    response's [queryTimestamp].  [getRegionName] destructures the
    farmer's [gps]; on an object without one it throws, and the route
    answers 500. *)
Definition customerBatch `{Host} (s : State) (id_ : string) (c cq : Clock)
  : Response CustomerProvenance :=
  match Backend.getProvenance (read (heap s)) (Backend.memory (service s)) id_ c with
  | None =>
      refuse 404 "Batch not found"
        (Some ("No provenance data found for batch " ++ id_)) None
  | Some provenance =>
      let verificationScore := calculateVerificationScore (heap s) provenance in
      match
        match Backend.farmer provenance with
        | None => Js.Return None
        | Some a =>
            match data_gps (read (heap s) a) with
            | Some g => Js.Return (Some (farmView (read (heap s) a) g))
            | None =>
                Js.Throw "Cannot destructure property 'lat' of 'gps' as it is undefined."
            end
        end
      with
      | Js.Throw m => refuse 500 "Failed to retrieve provenance data" (Some m) None
      | Js.Return farm =>
          answer
            {| cp_batchID := id_;
               cp_verification := verificationScore;
               cp_farm := farm;
               cp_quality :=
                 option_map (fun a => qualityView (read (heap s) a)) (Backend.lab provenance);
               cp_processing :=
                 option_map (fun a => processingView (read (heap s) a))
                            (Backend.processor provenance);
               cp_blockchain :=
                 {| cv_transactionCount := Backend.transactionCount provenance;
                    cv_hash := Backend.blockchainHash provenance;
                    cv_lastUpdated := Backend.p_lastUpdated provenance;
                    cv_network := "Hyperledger Fabric Simulation";
                    cv_chainId := "sih25027-traceability" |};
               cp_metadata :=
                 {| mv_queryTimestamp := nowIso cq;
                    mv_qrVerificationUrl := Backend.qrCodeUrl provenance;
                    mv_isComplete := Backend.isVerified provenance;
                    mv_team := "Prototype developed by Team Hackon" |} |}
      end
  end.

(** *** POST /api/customer/verify *)

(** The character class [[A-Z0-9_]]. *)
Definition idChar (ch : ascii) : bool :=
  let n := nat_of_ascii ch in
  ((65 <=? n)%nat && (n <=? 90)%nat) || ((48 <=? n)%nat && (n <=? 57)%nat) || (n =? 95)%nat.

(** [[A-Z0-9_]+$]: the rest of the string is a nonempty run of the class. *)
Fixpoint idWord (s : string) : bool :=
  match s with
  | EmptyString => false
  | String ch EmptyString => idChar ch
  | String ch t => idChar ch && idWord t
  end.

(** A literal at the start of [s]: what follows it. *)
Fixpoint afterPrefix (lit s : string) : option string :=
  match lit, s with
  | EmptyString, _ => Some s
  | String a lit', String b s' => if Ascii.eqb a b then afterPrefix lit' s' else None
  | String _ _, EmptyString => None
  end.

(** [s.match(/\/batch\/([A-Z0-9_]+)$/)]: the capture group of the
    leftmost match, [None] when there is none.  At a position the
    pattern matches exactly when the literal is followed by class
    characters up to the end of the string. *)
Fixpoint matchBatchUrl (s : string) : option string :=
  match
    match afterPrefix "/batch/" s with
    | Some w => if idWord w then Some w else None
    | None => None
    end
  with
  | Some w => Some w
  | None =>
      match s with
      | EmptyString => None
      | String _ t => matchBatchUrl t
      end
  end.


Record VerifyInput := {
  vi_qrData : string;
  vi_customerLocation : option (option float * option float)
}.

Record QRVerified := {
  vr_batchID : string;
  vr_verified : bool;
  vr_redirectUrl : string
}.

Definition verifyQR `{Host} (s : State) (validated : string + VerifyInput) (c : Clock)
  : Response QRVerified :=
  match validated with
  | inl det => refuse 400 "Validation failed" None (Some det)
  | inr value =>
      match matchBatchUrl (vi_qrData value) with
      | None =>
          refuse 400 "Invalid QR code format"
            (Some "QR code does not contain valid batch verification URL") None
      | Some b =>
          match Backend.getProvenance (read (heap s)) (Backend.memory (service s)) b c with
          | None =>
              refuse 404 "Invalid QR code" (Some "Batch not found in blockchain ledger") None
          | Some _ =>
              reply 200 "QR code verified successfully"
                {| vr_batchID := b;
                   vr_verified := true;
                   vr_redirectUrl := "/api/customer/batch/" ++ b |}
          end
      end
  end.

End Routes.

(** ** The frontend simulation service (BlockchainSimulationService) *)

(** The sample records of [initializeSampleData]. *)
Definition sampleCollection : Payload :=
  Collection {| ce_id := "BATCH_ASH_001";
                species := "Ashwagandha";
                gps := {| lat := 26.9124; lng := 75.7873; altitude := None |};
                timestamp := "2025-01-15T08:30:00Z";
                ce_moisture := 12.5;
                farmerName := "Ram Kumar Sharma";
                farmerId := "FARMER_001";
                photo := Some "ashwagandha_harvest.jpg";
                ce_notes := None;
                ce_submittedAt := None;
                ce_status := None |}.

Definition sampleQuality : Payload :=
  Quality {| qt_id := "TEST_001";
             qt_batchID := "BATCH_ASH_001";
             dna := "ATCGATCGATCGATCG...";
             pesticide := 0.03;
             qt_moisture := 12.5;
             heavyMetals := Some 0.01%float;
             labName := "Ayurveda Quality Labs Pvt Ltd";
             labId := "LAB_AQL_001";
             testDate := "2025-01-16T14:00:00Z";
             qt_notes := None;
             reportFile := None;
             verified := true;
             qt_status := None;
             warnings := [];
             qt_submittedAt := None |}.

Definition sampleProcessing : Payload :=
  Processing {| ps_id := "PROC_001";
                ps_batchID := "BATCH_ASH_001";
                ps_drying := completed;
                ps_grinding := completed;
                ps_packaging := in_progress;
                processorName := "Himalaya Wellness Company";
                processorId := "PROC_HWC_001";
                processDate := "2025-01-18T10:00:00Z";
                qrCode := None;
                qrGeneratedAt := None;
                verificationUrl := None;
                lastUpdated := None;
                history := [] |}.

Module Frontend.

Inductive TxType := collection | quality_test | processing | verification.

Definition TxType_eqb (a b : TxType) : bool :=
  match a, b with
  | collection, collection | quality_test, quality_test
  | processing, processing | verification, verification => true
  | _, _ => false
  end.

(** [data] is one of the three payload records; [Genesis] is not a
    value of the TypeScript union and no property below depends on it. *)
Record BlockchainTransaction := {
  id : string;
  type : TxType;
  data : Payload;
  timestamp : string;
  hash : string;
  previousHash : string
}.

Record BlockchainState := {
  transactions : list BlockchainTransaction;
  blocks : list string
}.

Record ProvenanceBundle := {
  batchID : string;
  farmer : Payload;
  lab : option Payload;
  processor : option Payload;
  qrCode : string;
  isVerified : bool;
  lastUpdated : string
}.

(** ToInt32: JavaScript's bitwise operators work on 32-bit two's
    complement integers. *)
Definition toInt32 (z : Z) : Z := ((z + 2147483648) mod 4294967296 - 2147483648)%Z.

Definition hexDigit (d : Z) : ascii :=
  if (d <? 10)%Z then ascii_of_nat (48 + Z.to_nat d) else ascii_of_nat (87 + Z.to_nat d).

(** [n.toString(16)] for an integer [0 <= n < 16^fuel]. *)
Fixpoint toString16 (fuel : nat) (n : Z) (acc : string) : string :=
  match fuel with
  | O => acc
  | S f =>
      if (n <? 16)%Z then String (hexDigit n) acc
      else toString16 f (n / 16)%Z (String (hexDigit (n mod 16)%Z) acc)
  end.

(** The loop of [generateHash] over the characters of [s]. *)
Fixpoint hashLoop (s : string) (h : Z) : Z :=
  match s with
  | EmptyString => h
  | String ch t =>
      let char := Z.of_nat (nat_of_ascii ch) in
      let h1 := (toInt32 (Z.shiftl h 5) - h + char)%Z in
      hashLoop t (toInt32 h1)   (* hash & hash *)
  end.

Definition generateHash (s : string) : string :=
  toString16 9 (Z.abs (hashLoop s 0%Z)) "".

Definition getLastTransactionHash (st : BlockchainState) : string :=
  match transactions st with
  | [] => "0x000"
  | t :: ts => hash (List.last ts t)
  end.

Definition generateQRData (b : string) (c : Clock) : string :=
  "HERB_TRACE_" ++ b ++ "_" ++ nowMs c.

(** [submitTransaction]: the promise always resolves, with the new id. *)
Definition submitTransaction `{Host} (st : BlockchainState) (ty : TxType) (d : Payload)
  (c : Clock) : string * BlockchainState :=
  let transaction :=
    {| id := "tx_" ++ nowMs c ++ "_" ++ random36 c;
       type := ty;
       data := d;
       timestamp := nowIso c;
       hash := generateHash (JSON_stringify d);
       previousHash := getLastTransactionHash st |} in
  (id transaction,
   {| transactions := (transactions st ++ [transaction])%list;
      blocks := blocks st |}).

Definition isCollectionOf (b : string) (tx : BlockchainTransaction) : bool :=
  TxType_eqb (type tx) collection && Js.strict_eq (data_id (data tx)) (Some b).

Definition isQualityTestOf (b : string) (tx : BlockchainTransaction) : bool :=
  TxType_eqb (type tx) quality_test && Js.strict_eq (data_batchID (data tx)) (Some b).

Definition isProcessingOf (b : string) (tx : BlockchainTransaction) : bool :=
  TxType_eqb (type tx) processing && Js.strict_eq (data_batchID (data tx)) (Some b).

Definition getProvenance (st : BlockchainState) (b : string) (c : Clock)
  : option ProvenanceBundle :=
  let collectionTx := List.find (isCollectionOf b) (transactions st) in
  let qualityTx := List.find (isQualityTestOf b) (transactions st) in
  let processingTx := List.find (isProcessingOf b) (transactions st) in
  match collectionTx with
  | None => None
  | Some ctx =>
      Some {| batchID := b;
              farmer := data ctx;
              lab := option_map data qualityTx;
              processor := option_map data processingTx;
              qrCode := generateQRData b c;
              isVerified := Backend.truthy_opt qualityTx && Backend.truthy_opt processingTx;
              lastUpdated := nowIso c |}
  end.

(** [initializeSampleData]: the constructor submits three sample
    transactions into the empty log. *)
Definition initializeSampleData `{Host} (c1 c2 c3 : Clock) : BlockchainState :=
  let st0 := {| transactions := []; blocks := [] |} in
  let st1 := snd (submitTransaction st0 collection sampleCollection c1) in
  let st2 := snd (submitTransaction st1 quality_test sampleQuality c2) in
  snd (submitTransaction st2 processing sampleProcessing c3).

Definition getBatches (st : BlockchainState) : list Payload :=
  List.map data
    (List.filter (fun tx => TxType_eqb (type tx) collection) (transactions st)).

Definition validateGeoFence (g : GPSCoordinates) (sp : string) : bool :=
  if Js.includes (Js.toLowerCase sp) "ashwagandha" then
    PrimFloat.leb 24.0%float (lat g) && PrimFloat.leb (lat g) 30.0%float &&
    PrimFloat.leb 69.0%float (lng g) && PrimFloat.leb (lng g) 78.0%float
  else true.


End Frontend.

(** ** A concrete host and clock, to run the model on examples *)

Definition demoHost : Host :=
  {| sha256_hex := fun s => "sha256(" ++ s ++ ")";
     JSON_stringify := fun d => Js.show (data_id d);
     getMonth := fun _ => Some 5%Z;     (* June *)
     API_BASE_URL := None |}.

Definition demoClock (ms : string) : Clock :=
  {| nowIso := "2025-06-15T08:30:00.000Z"; nowMs := ms; random36 := "k3x9q2m7p" |}.

(** Sample payloads, after the frontend's sample data. *)
Definition collectionAt (batch : string) (la lo : float) : Payload :=
  Collection {| ce_id := batch;
                species := "Ashwagandha";
                gps := {| lat := la; lng := lo; altitude := None |};
                timestamp := "2025-06-15T08:30:00Z";
                ce_moisture := 12.5;
                farmerName := "Ram Kumar Sharma";
                farmerId := "FARMER_001";
                photo := Some "ashwagandha_harvest.jpg";
                ce_notes := None;
                ce_submittedAt := None;
                ce_status := None |}.

Definition qualityTestOf (test batch : string) (pest : float) : Payload :=
  Quality {| qt_id := test;
             qt_batchID := batch;
             dna := "ATCGATCGATCGATCG...";
             pesticide := pest;
             qt_moisture := 12.5;
             heavyMetals := Some 0.01%float;
             labName := "Ayurveda Quality Labs Pvt Ltd";
             labId := "LAB_AQL_001";
             testDate := "2025-01-16T14:00:00Z";
             qt_notes := None;
             reportFile := None;
             verified := true;
             qt_status := None;
             warnings := [];
             qt_submittedAt := None |}.

Definition processingOf (proc batch : string) (d g p : StageStatus) : Payload :=
  Processing {| ps_id := proc;
                ps_batchID := batch;
                ps_drying := d;
                ps_grinding := g;
                ps_packaging := p;
                processorName := "Himalaya Wellness Company";
                processorId := "PROC_HWC_001";
                processDate := "2025-01-18T10:00:00Z";
                qrCode := None;
                qrGeneratedAt := None;
                verificationUrl := None;
                lastUpdated := None;
                history := [] |}.

(** The ledger of a server started without a ledger file. *)
Definition freshWorld : Backend.World Payload :=
  snd (@Backend.initialize demoHost (demoClock "1000") None Backend.Written).

(** [submitTransaction] on the sample host, payloads held by value. *)
Definition demoSubmit (w : Backend.World Payload) (ty : string) (d : Payload) (ms : string)
  : Js.Completion Backend.Receipt * Backend.World Payload :=
  @Backend.submitTransaction demoHost Payload (fun p => p) w ty d [] (demoClock ms)
                             Backend.Written.

(** The routes on the sample host: a farmer's collection, a lab's test
    and a processor's stage update. *)
Definition demoFarmerUpload (s : Routes.State) (la lo : float) (ms : string)
  : Routes.Response Routes.Committed * Routes.State :=
  @Routes.farmerUpload demoHost s
    (inr {| Routes.ci_species := "Ashwagandha";
            Routes.ci_gps := {| lat := la; lng := lo; altitude := None |};
            Routes.ci_timestamp := "2025-06-15T08:30:00Z";
            Routes.ci_moisture := 12.5;
            Routes.ci_farmerName := "Ram Kumar Sharma";
            Routes.ci_farmerId := "FARMER_001";
            Routes.ci_notes := None |})
    None (demoClock ms) (demoClock ms) Backend.Written.

Definition demoLabUpload (s : Routes.State) (batch : string) (pest : float) (ms : string)
  : Routes.Response Routes.TestCommitted * Routes.State :=
  @Routes.labUpload demoHost s
    (inr {| Routes.qi_batchID := batch;
            Routes.qi_dna := "ATCGATCGATCGATCG...";
            Routes.qi_pesticide := pest;
            Routes.qi_moisture := 12.5;
            Routes.qi_heavyMetals := Some 0.01%float;
            Routes.qi_labName := "Ayurveda Quality Labs Pvt Ltd";
            Routes.qi_labId := "LAB_AQL_001";
            Routes.qi_testDate := None;
            Routes.qi_notes := None |})
    None (demoClock ms) (demoClock ms) Backend.Written.

Definition demoUpdate (batch : string) (st : Stage) (n : Routes.NewStatus) : Routes.UpdateInput :=
  {| Routes.u_batchID := batch;
     Routes.u_step := st;
     Routes.u_status := n;
     Routes.u_processorId := "PROC_HWC_001";
     Routes.u_processorName := "Himalaya Wellness Company";
     Routes.u_notes := None |}.

Definition demoUpdateStatus (s : Routes.State) (batch : string) (st : Stage)
  (n : Routes.NewStatus) (ms : string) : Routes.Response Routes.Updated * Routes.State :=
  @Routes.updateStatus demoHost s (inr (demoUpdate batch st n))
    (demoClock ms) (demoClock ms) Backend.Written.

(** A server started without a ledger file, after one collection
    (batch BATCH_ASH_2000) and its quality test. *)
Definition testedState : Routes.State :=
  snd (demoLabUpload
         (snd (demoFarmerUpload (Routes.boot freshWorld) 26.9124 75.7873 "2000"))
         "BATCH_ASH_2000" 0.03 "3000").

(** The same server after the three stages of the batch have been
    completed, and after a QR code has been generated for it. *)
Definition processedState : Routes.State :=
  snd (demoUpdateStatus
         (snd (demoUpdateStatus
                 (snd (demoUpdateStatus testedState "BATCH_ASH_2000" drying
                         Routes.to_completed "4000"))
                 "BATCH_ASH_2000" grinding Routes.to_completed "5000"))
         "BATCH_ASH_2000" packaging Routes.to_completed "6000").

Definition labelledState : Routes.State :=
  snd (@Routes.generateQR demoHost processedState
         (inr {| Routes.q_batchID := "BATCH_ASH_2000";
                 Routes.q_processorId := "PROC_HWC_001" |})
         (Js.Return tt) (demoClock "7000") (demoClock "7000") Backend.Written).

(** Ledger states of a service that holds payloads by value: the states
    [initialize] leaves when there is no ledger file, and every state a
    call of [submitTransaction] leaves from one of them (whatever the
    call's outcome; a sequence of successful calls is a special case). *)
Inductive reachable `{Host} : Backend.World Payload -> Prop :=
| reach_init (c : Clock) (io : Backend.WriteOutcome) :
    reachable (snd (Backend.initialize c None io))
| reach_submit (w : Backend.World Payload) (ty : string) (d : Payload)
    (e : list string) (c : Clock) (io : Backend.WriteOutcome) :
    reachable w ->
    reachable (snd (Backend.submitTransaction (fun p => p) w ty d e c io)).

(** Server states: a server started without a ledger file, then any
    sequence of requests to the four routes, whatever each one's
    outcome. *)
Inductive served `{Host} : Routes.State -> Prop :=
| served_boot (c : Clock) (io : Backend.WriteOutcome) :
    served (Routes.boot (snd (Backend.initialize c None io)))
| served_farmer (s : Routes.State) (v : string + Routes.CollectionInput)
    (photoFile : option string) (c cs : Clock) (io : Backend.WriteOutcome) :
    served s -> served (snd (Routes.farmerUpload s v photoFile c cs io))
| served_lab (s : Routes.State) (v : string + Routes.QualityTestInput)
    (report : option string) (c cs : Clock) (io : Backend.WriteOutcome) :
    served s -> served (snd (Routes.labUpload s v report c cs io))
| served_update (s : Routes.State) (v : string + Routes.UpdateInput)
    (c cs : Clock) (io : Backend.WriteOutcome) :
    served s -> served (snd (Routes.updateStatus s v c cs io))
| served_qr (s : Routes.State) (v : string + Routes.QRInput)
    (files : Js.Completion unit) (c cs : Clock) (io : Backend.WriteOutcome) :
    served s -> served (snd (Routes.generateQR s v files c cs io)).

(** States of the frontend service: the constructor's sample log, then
    any sequence of [submitTransaction] calls. *)
Inductive simulated `{Host} : Frontend.BlockchainState -> Prop :=
| sim_init (c1 c2 c3 : Clock) :
    simulated (Frontend.initializeSampleData c1 c2 c3)
| sim_submit (st : Frontend.BlockchainState) (ty : Frontend.TxType) (d : Payload)
    (c : Clock) :
    simulated st -> simulated (snd (Frontend.submitTransaction st ty d c)).

(** ** Notions the properties are stated with *)

(** Every transaction's payload object has been allocated. *)
Definition allocated (s : Routes.State) : Prop :=
  forall tx,
    In tx (Backend.transactions (Backend.memory (Routes.service s))) ->
    Backend.data tx < List.length (Routes.heap s).

(** Every transaction after the first names the hash of the one before. *)
Definition chained (Obj : Type) (txs : list (Backend.Transaction Obj)) : Prop :=
  forall i a b,
    nth_error txs i = Some a -> nth_error txs (S i) = Some b ->
    Backend.previousHash b = Backend.hash a.

(** A transaction is a collection of batch [b]. *)
Definition collects (Obj : Type) (read : Obj -> Payload) (b : string)
  (tx : Backend.Transaction Obj) : Prop :=
  Backend.type tx = "collection" /\ data_id (read (Backend.data tx)) = Some b.

(** Every recorded quality test is an object the lab route built for a
    test that passed: its [verified] flag is set, its status is PASSED
    and its measurements satisfy the ledger's quality rule. *)
Definition testsPassed (s : Routes.State) : Prop :=
  forall tx,
    In tx (Backend.transactions (Backend.memory (Routes.service s))) ->
    Backend.type tx = "quality_test" ->
    exists q,
      Routes.read (Routes.heap s) (Backend.data tx) = Quality q
      /\ verified q = true
      /\ qt_status q = Some PASSED
      /\ snd (Backend.validateQualityTest (Quality q)) = Js.Return Backend.accept.

(** What a heap [h'] keeps of a heap [h]: its addresses, and the quality
    tests stored there. *)
Definition keeps (h h' : list Payload) : Prop :=
  List.length h <= List.length h'
  /\ forall x q, x < List.length h -> Routes.read h x = Quality q ->
                 Routes.read h' x = Quality q.

(** The cultivation region of Ashwagandha in the code: latitude 24 to
    30, longitude 69 to 78, bounds included. *)
Definition inRajasthanBox (g : GPSCoordinates) : Prop :=
  PrimFloat.leb 24.0%float (lat g) = true /\ PrimFloat.leb (lat g) 30.0%float = true /\
  PrimFloat.leb 69.0%float (lng g) = true /\ PrimFloat.leb (lng g) 78.0%float = true.

(** The frontend log's chain: every transaction after the first names
    the hash of the one before. *)
Definition linked (txs : list Frontend.BlockchainTransaction) : Prop :=
  forall i a b,
    nth_error txs i = Some a -> nth_error txs (S i) = Some b ->
    Frontend.previousHash b = Frontend.hash a.

(** A transaction is a quality test, a processing record of batch [b]. *)
Definition tests (Obj : Type) (read : Obj -> Payload) (b : string)
  (tx : Backend.Transaction Obj) : Prop :=
  Backend.type tx = "quality_test" /\ data_batchID (read (Backend.data tx)) = Some b.

Definition processes (Obj : Type) (read : Obj -> Payload) (b : string)
  (tx : Backend.Transaction Obj) : Prop :=
  Backend.type tx = "processing" /\ data_batchID (read (Backend.data tx)) = Some b.

(** What an object keeps through the routes: a processing record its
    id, its batch and its QR reference, any other object everything. *)
Definition sameRecord (d d' : Payload) : Prop :=
  match d, d' with
  | Processing p, Processing p' =>
      ps_id p' = ps_id p /\ ps_batchID p' = ps_batchID p /\ qrCode p' = qrCode p
  | _, _ => d' = d
  end.

Definition preserves (h h' : list Payload) : Prop :=
  List.length h <= List.length h'
  /\ forall x, x < List.length h -> sameRecord (Routes.read h x) (Routes.read h' x).

(** What the routes leave at a position of the log, given the
    transactions [before] it: the genesis transaction comes first; a
    collection holds a collection event; a quality test holds a test of
    a batch collected before; a processing transaction holds a
    processing record of a batch tested before, and one that carries a
    QR reference comes after another processing transaction of the
    batch. *)
Definition entry_ok (h : list Payload) (before : list (Backend.Transaction Routes.address))
  (tx : Backend.Transaction Routes.address) : Prop :=
  (Backend.type tx = "genesis" /\ before = []
   /\ exists g, Routes.read h (Backend.data tx) = Genesis g)
  \/ (Backend.type tx = "collection"
      /\ exists ce, Routes.read h (Backend.data tx) = Collection ce)
  \/ (Backend.type tx = "quality_test"
      /\ exists q, Routes.read h (Backend.data tx) = Quality q
                   /\ exists t, In t before /\ collects (Routes.read h) (qt_batchID q) t)
  \/ (Backend.type tx = "processing"
      /\ exists p, Routes.read h (Backend.data tx) = Processing p
                   /\ (exists t, In t before /\ tests (Routes.read h) (ps_batchID p) t)
                   /\ (qrCode p <> None ->
                       exists t, In t before /\ processes (Routes.read h) (ps_batchID p) t)).

Definition orderly (s : Routes.State) : Prop :=
  forall before tx after,
    Backend.transactions (Backend.memory (Routes.service s)) = (before ++ tx :: after)%list ->
    entry_ok (Routes.heap s) before tx.

(** Two string functions the proofs about the verify pattern use: the
    text after the first [n] characters, and whether a slash occurs. *)
Fixpoint drop (n : nat) (s : string) : string :=
  match n, s with
  | O, _ => s
  | S n', String _ t => drop n' t
  | S _, EmptyString => EmptyString
  end.

Fixpoint hasSlash (s : string) : bool :=
  match s with
  | EmptyString => false
  | String ch t => Ascii.eqb ch "/" || hasSlash t
  end.

(** Every recorded Ashwagandha collection lies in the cultivation
    region. *)
Definition fenced (s : Routes.State) : Prop :=
  forall tx ce,
    In tx (Backend.transactions (Backend.memory (Routes.service s))) ->
    Backend.type tx = "collection" ->
    Routes.read (Routes.heap s) (Backend.data tx) = Collection ce ->
    Backend.is_ashwagandha (species ce) = true ->
    Backend.isValidLocation (gps ce) = true.

(** Hexadecimal numerals in the digits [0-9a-f], and the number one
    denotes after the digits read so far denote [acc]. *)
Definition isHexDigit (ch : ascii) : bool :=
  let n := nat_of_ascii ch in
  ((48 <=? n)%nat && (n <=? 57)%nat) || ((97 <=? n)%nat && (n <=? 102)%nat).

Fixpoint allHex (s : string) : bool :=
  match s with
  | EmptyString => true
  | String ch t => isHexDigit ch && allHex t
  end.

Definition hexDigitValue (ch : ascii) : Z :=
  let n := Z.of_nat (nat_of_ascii ch) in
  if (n <? 58)%Z then (n - 48)%Z else (n - 87)%Z.

Fixpoint hexValue (s : string) (acc : Z) : Z :=
  match s with
  | EmptyString => acc
  | String ch t => hexValue t (16 * acc + hexDigitValue ch)%Z
  end.

(** The India box of [getRegionName]. *)
Definition inIndiaBox (g : GPSCoordinates) : Prop :=
  PrimFloat.leb 6.0%float (lat g) = true /\ PrimFloat.leb (lat g) 37.0%float = true /\
  PrimFloat.leb 68.0%float (lng g) = true /\ PrimFloat.leb (lng g) 97.0%float = true.

(* ===================================================================== *)
(** * Part 2. Properties                                                 *)
(* ===================================================================== *)

Import Backend.
Local Open Scope list_scope.

(** ** Hash chain *)

Section ChainFacts.

Context `{Host}.
Variable Obj : Type.
Variable read : Obj -> Payload.

Lemma last_app_one (A : Type) (l : list A) (x d : A) : List.last (l ++ [x]) d = x.
Proof.
  induction l as [|y l IH]; simpl; [reflexivity|].
  destruct (l ++ [x]) eqn:E; [destruct l; discriminate|exact IH].
Qed.

Lemma getLastTransactionHash_push (l : Ledger Obj) (tx : Transaction Obj) :
  getLastTransactionHash (push l tx) = hash tx.
Proof.
  unfold getLastTransactionHash, push; simpl.
  destruct (transactions l) as [|t ts]; simpl; [reflexivity|].
  destruct (ts ++ [tx])%list eqn:E.
  - destruct ts; discriminate.
  - rewrite <- E. now rewrite last_app_one.
Qed.

Lemma getLastTransactionHash_last (txs : list (Transaction Obj)) (t : Transaction Obj)
  (b : list string) (m : Metadata) :
  getLastTransactionHash {| transactions := txs ++ [t]; blocks := b; metadata := m |}
  = hash t.
Proof.
  exact (getLastTransactionHash_push {| transactions := txs; blocks := b; metadata := m |} t).
Qed.

Lemma chained_snoc (txs : list (Transaction Obj)) (b : list string) (m : Metadata)
  (tx : Transaction Obj) :
  chained txs ->
  previousHash tx
    = getLastTransactionHash {| transactions := txs; blocks := b; metadata := m |} ->
  chained (txs ++ [tx]).
Proof.
  intros Hc Hp i x y Hx Hy.
  destruct (Nat.lt_ge_cases (S i) (List.length txs)) as [Hlt|Hge].
  - rewrite nth_error_app1 in Hx by lia. rewrite nth_error_app1 in Hy by lia.
    eapply Hc; eauto.
  - assert (Hy' : S i < List.length (txs ++ [tx])) by (apply nth_error_Some; congruence).
    rewrite length_app in Hy'. simpl in Hy'.
    assert (Hlen : S i = List.length txs) by lia.
    rewrite nth_error_app1 in Hx by lia.
    rewrite nth_error_app2 in Hy by lia.
    rewrite Hlen, Nat.sub_diag in Hy. simpl in Hy. injection Hy as <-.
    rewrite Hp.
    destruct (@exists_last _ txs) as [pre [z ->]]; [destruct txs; simpl in *; [lia|discriminate]|].
    rewrite getLastTransactionHash_last.
    rewrite length_app in Hlen. simpl in Hlen.
    rewrite nth_error_app2 in Hx by lia.
    replace (i - List.length pre) with 0 in Hx by lia.
    simpl in Hx. now injection Hx as <-.
Qed.

(** One call of [submitTransaction] keeps the chain, whatever its outcome. *)
Lemma submitTransaction_chained (w : World Obj) (ty : string) (d : Obj)
  (e : list string) (c : Clock) (io : WriteOutcome) :
  chained (transactions (memory w)) ->
  chained (transactions (memory (snd (submitTransaction read w ty d e c io)))).
Proof.
  intros Hc. unfold submitTransaction.
  destruct (negb _); [exact Hc|].
  destruct io; simpl; (apply chained_snoc with (b := blocks (memory w)) (m := metadata (memory w));
    [exact Hc|destruct (memory w); reflexivity]).
Qed.

(** The first transaction of the log is never replaced. *)
Lemma submitTransaction_head (w : World Obj) (ty : string) (d : Obj)
  (e : list string) (c : Clock) (io : WriteOutcome) (g : Transaction Obj)
  (rest : list (Transaction Obj)) :
  transactions (memory w) = g :: rest ->
  exists rest', transactions (memory (snd (submitTransaction read w ty d e c io))) = g :: rest'.
Proof.
  intros Hg. unfold submitTransaction.
  destruct (negb _); [eauto|].
  destruct io; simpl; rewrite Hg; simpl; eauto.
Qed.

End ChainFacts.

(** C1.  In every ledger state reachable from the freshly initialized
    ledger by calls of [submitTransaction], the transaction at each log
    position [i > 0] has as [previousHash] the [hash] of the transaction
    at position [i - 1], and the transaction at position 0 is the genesis
    transaction, whose [previousHash] is the all-zero sentinel. *)
Theorem chain_links_from_genesis `{Host} (w : World Payload) :
  reachable w ->
  (forall i a b,
      0 < i ->
      nth_error (transactions (memory w)) i = Some b ->
      nth_error (transactions (memory w)) (i - 1) = Some a ->
      previousHash b = hash a)
  /\ (exists g,
        nth_error (transactions (memory w)) 0 = Some g
        /\ type g = "genesis"%string
        /\ previousHash g = ZERO_HASH).
Proof.
  intros Hr.
  assert (Hinv : chained (transactions (memory w))
                 /\ exists g rest, transactions (memory w) = g :: rest
                                   /\ type g = "genesis"%string
                                   /\ previousHash g = ZERO_HASH).
  { induction Hr as [c io|w ty d e c io Hr [IHc [g [rest [Hg [Hty Hz]]]]]].
    - split.
      + destruct io; simpl; intros [|[|i]] a b Ha Hb; simpl in *; discriminate.
      + destruct io; simpl; eexists; eexists; repeat split; reflexivity.
    - split.
      + now apply submitTransaction_chained.
      + destruct (submitTransaction_head (fun p => p) w ty d e c io Hg) as [rest' Hg'].
        exists g, rest'. auto. }
  destruct Hinv as [Hc [g [rest [Hg [Hty Hz]]]]]. split.
  - intros i a b Hi Hb Ha. destruct i as [|i]; [lia|].
    simpl in Ha. rewrite Nat.sub_0_r in Ha. exact (Hc i a b Ha Hb).
  - exists g. rewrite Hg. simpl. auto.
Qed.

(** The statement of C1 at a ledger with two submitted transactions. *)
Lemma chain_links_from_genesis_witness :
  let w0 := snd (@initialize demoHost (demoClock "1") None Written) in
  let c1 := Collection {| ce_id := "BATCH_ASH_1"; species := "Ashwagandha";
                          gps := {| lat := 26.9124; lng := 75.7873; altitude := None |};
                          timestamp := "2025-01-15T08:30:00Z"; ce_moisture := 12.5;
                          farmerName := "Ram Kumar Sharma"; farmerId := "FARMER_001";
                          photo := None; ce_notes := None; ce_submittedAt := None;
                          ce_status := None |} in
  let w1 := snd (@submitTransaction demoHost _ (fun p => p) w0 "collection" c1 []
                   (demoClock "2") Written) in
  List.length (transactions (memory w1)) = 2
  /\ (forall i a b,
         0 < i ->
         nth_error (transactions (memory w1)) i = Some b ->
         nth_error (transactions (memory w1)) (i - 1) = Some a ->
         previousHash b = hash a)
  /\ (exists g,
        nth_error (transactions (memory w1)) 0 = Some g
        /\ type g = "genesis"%string
        /\ previousHash g = ZERO_HASH).
Proof.
  intros w0 c1 w1. split; [vm_compute; reflexivity|].
  apply (@chain_links_from_genesis demoHost w1).
  apply (@reach_submit demoHost). apply (@reach_init demoHost).
Defined.

(** ** Submission *)

Section SubmissionFacts.

Context `{Host}.
Variable Obj : Type.
Variable read : Obj -> Payload.

(** What a call does, by the verdict of the rules and the outcome of the write. *)
Lemma submitTransaction_cases (w : World Obj) (ty : string) (d : Obj)
  (e : list string) (c : Clock) (io : WriteOutcome) :
  let tx := newTransaction read (memory w) ty d e c in
  let v := snd (validateTransaction read (memory w) tx) in
  (valid v = false
   /\ submitTransaction read w ty d e c io
      = (Js.Throw ("Transaction validation failed: " ++ Js.show (reason v))%string, w))
  \/ (valid v = true
      /\ io = Written
      /\ submitTransaction read w ty d e c io
         = (Js.Return {| transactionId := id tx; status := "COMMITTED";
                         r_hash := hash tx; r_timestamp := tx_timestamp tx |},
            {| memory := push (memory w) tx;
               file := Some (serialize read (push (memory w) tx)) |}))
  \/ (valid v = true
      /\ exists m residue,
           io = WriteError m residue
           /\ submitTransaction read w ty d e c io
              = (Js.Throw m, {| memory := push (memory w) tx; file := residue |})).
Proof.
  intros tx v. unfold submitTransaction. fold tx. fold v.
  destruct (valid v) eqn:Hv; simpl.
  - right. destruct io as [|m residue]; simpl.
    + left. auto.
    + right. split; [reflexivity|]. exists m, residue. auto.
  - left. auto.
Qed.

(** A refused transaction: the error carries the reason, the state stays. *)
Lemma submitTransaction_invalid (w : World Obj) (ty : string) (d : Obj)
  (e : list string) (c : Clock) (io : WriteOutcome) :
  valid (snd (validateTransaction read (memory w)
                (newTransaction read (memory w) ty d e c))) = false ->
  submitTransaction read w ty d e c io
  = (Js.Throw ("Transaction validation failed: "
               ++ Js.show (reason (snd (validateTransaction read (memory w)
                                          (newTransaction read (memory w) ty d e c)))))%string,
     w).
Proof.
  intros Hv. unfold submitTransaction. rewrite Hv. reflexivity.
Qed.

(** An accepted transaction is pushed, whatever the write does. *)
Lemma submitTransaction_valid (w : World Obj) (ty : string) (d : Obj)
  (e : list string) (c : Clock) (io : WriteOutcome) :
  valid (snd (validateTransaction read (memory w)
                (newTransaction read (memory w) ty d e c))) = true ->
  memory (snd (submitTransaction read w ty d e c io))
  = push (memory w) (newTransaction read (memory w) ty d e c).
Proof.
  intros Hv. unfold submitTransaction. rewrite Hv. destruct io; reflexivity.
Qed.

End SubmissionFacts.

(** C9.  [submitTransaction] is atomic.  When it succeeds, exactly one
    transaction, the one it built, is appended at the end of the log,
    every transaction committed before is where and what it was, and the
    ledger file holds the new log.  When validation fails, it throws an
    error that carries the validator's reason and the state, in memory
    and on file, is the one before the call. *)
Theorem submitTransaction_atomic `{Host} (Obj : Type) (read : Obj -> Payload)
  (w : World Obj) (ty : string) (d : Obj) (e : list string) (c : Clock)
  (io : WriteOutcome) :
  let tx := newTransaction read (memory w) ty d e c in
  let v := snd (validateTransaction read (memory w) tx) in
  (forall r w',
      submitTransaction read w ty d e c io = (Js.Return r, w') ->
      transactions (memory w') = transactions (memory w) ++ [tx]
      /\ List.length (transactions (memory w')) = S (List.length (transactions (memory w)))
      /\ (forall i t, nth_error (transactions (memory w)) i = Some t ->
                      nth_error (transactions (memory w')) i = Some t)
      /\ file w' = Some (serialize read (memory w'))
      /\ valid v = true
      /\ transactionId r = id tx /\ r_hash r = hash tx)
  /\ (valid v = false ->
      submitTransaction read w ty d e c io
      = (Js.Throw ("Transaction validation failed: " ++ Js.show (reason v))%string, w)).
Proof.
  intros tx v.
  destruct (submitTransaction_cases read w ty d e c io)
    as [[Hv Hs]|[[Hv [Hio Hs]]|[Hv [m [residue [Hio Hs]]]]]];
    fold tx in Hs; fold v in Hv, Hs; rewrite Hs; split.
  - intros r w' E. discriminate E.
  - reflexivity.
  - intros r w' E. injection E as <- <-. simpl.
    repeat split; auto.
    + rewrite length_app. simpl. lia.
    + intros i t Hi. rewrite nth_error_app1; [exact Hi|].
      apply nth_error_Some. congruence.
  - intros Hf. unfold v, tx in Hf. rewrite Hv in Hf. discriminate Hf.
  - intros r w' E. discriminate E.
  - intros Hf. unfold v, tx in Hf. rewrite Hv in Hf. discriminate Hf.
Qed.

(** C9 at the fresh ledger: an in-region collection is appended, an
    out-of-region one is refused and leaves the state as it was. *)
Lemma submitTransaction_atomic_witness :
  (exists r w',
      demoSubmit freshWorld "collection" (collectionAt "BATCH_ASH_001" 26.9124 75.7873) "2000"
      = (Js.Return r, w')
      /\ List.length (transactions (memory w')) = 2
      /\ nth_error (transactions (memory w')) 0 = nth_error (transactions (memory freshWorld)) 0
      /\ file w' = Some (serialize (fun p => p) (memory w')))
  /\ demoSubmit freshWorld "collection" (collectionAt "BATCH_ASH_002" 10.0 10.0) "2000"
     = (Js.Throw "Transaction validation failed: GPS coordinates outside valid cultivation region for Ashwagandha",
        freshWorld).
Proof.
  split.
  - eexists. eexists. split; [vm_compute; reflexivity|].
    destruct (proj1 (@submitTransaction_atomic demoHost Payload (fun p => p) freshWorld
                      "collection" (collectionAt "BATCH_ASH_001" 26.9124 75.7873) []
                      (demoClock "2000") Written) _ _ eq_refl)
      as [_ [Hlen [Hpre [Hfile _]]]].
    split; [exact Hlen|]. split; [|exact Hfile].
    apply (Hpre 0). reflexivity.
  - apply (proj2 (@submitTransaction_atomic demoHost Payload (fun p => p) freshWorld
                    "collection" (collectionAt "BATCH_ASH_002" 10.0 10.0) []
                    (demoClock "2000") Written)).
    vm_compute. reflexivity.
Defined.

(** ** Provenance queries *)

Lemma strict_eq_true (a b : option string) : Js.strict_eq a b = true <-> a = b.
Proof.
  destruct a as [x|], b as [y|]; simpl; split; intros E; try discriminate; auto.
  - apply String.eqb_eq in E. now subst.
  - injection E as ->. apply String.eqb_refl.
Qed.

Lemma strict_eq_false (a b : option string) : Js.strict_eq a b = false <-> a <> b.
Proof.
  split.
  - intros E Heq. apply strict_eq_true in Heq. congruence.
  - intros Hne. destruct (Js.strict_eq a b) eqn:E; [|reflexivity].
    apply strict_eq_true in E. contradiction.
Qed.

Lemma filter_nil (A : Type) (f : A -> bool) (l : list A) :
  List.filter f l = [] <-> forall x, In x l -> f x = false.
Proof.
  induction l as [|y l IH]; simpl.
  - split; [intros _ x []|reflexivity].
  - destruct (f y) eqn:E; split.
    + discriminate.
    + intros Hall. specialize (Hall y (or_introl eq_refl)). congruence.
    + intros Hnil x [<-|Hin]; [exact E|]. now apply IH.
    + intros Hall. apply IH. intros x Hin. apply Hall. now right.
Qed.

(** [find] after [filter] is [find] with both tests: the first match in
    the order of the log. *)
Lemma find_filter (A : Type) (f g : A -> bool) (l : list A) :
  List.find f (List.filter g l) = List.find (fun x => g x && f x) l.
Proof.
  induction l as [|y l IH]; simpl; [reflexivity|].
  destruct (g y); simpl; [destruct (f y); auto|exact IH].
Qed.

Lemma find_none_iff (A : Type) (f : A -> bool) (l : list A) :
  List.find f l = None <-> forall x, In x l -> f x = false.
Proof.
  split.
  - intros E x Hin. exact (find_none f l E x Hin).
  - induction l as [|y l IH]; simpl; [reflexivity|]. intros Hall.
    rewrite (Hall y (or_introl eq_refl)). apply IH. intros x Hin. apply Hall. now right.
Qed.

Section ProvenanceFacts.

Context `{Host}.
Variable Obj : Type.
Variable read : Obj -> Payload.

Lemma getProvenance_none (l : Ledger Obj) (b : string) (c : Clock) :
  getProvenance read l b c = None
  <-> forall tx, In tx (transactions l) -> concerns read b tx = false.
Proof.
  unfold getProvenance. rewrite <- filter_nil.
  destruct (List.filter (concerns read b) (transactions l)) as [|t ts]; simpl.
  - split; reflexivity.
  - split; discriminate.
Qed.

(** The fields of the bundle, as first matches in the log. *)
Lemma getProvenance_some (l : Ledger Obj) (b : string) (c : Clock) (p : Provenance Obj) :
  getProvenance read l b c = Some p ->
  farmer p = option_map (@data Obj)
               (List.find (fun tx => concerns read b tx && hasType "collection" tx)
                          (transactions l))
  /\ lab p = option_map (@data Obj)
               (List.find (fun tx => concerns read b tx && hasType "quality_test" tx)
                          (transactions l))
  /\ processor p = option_map (@data Obj)
               (List.find (fun tx => concerns read b tx && hasType "processing" tx)
                          (transactions l))
  /\ transactionCount p = List.length (List.filter (concerns read b) (transactions l)).
Proof.
  unfold getProvenance.
  destruct (List.length (List.filter (concerns read b) (transactions l)) =? 0)%nat;
    [discriminate|].
  intros E. injection E as <-. simpl. rewrite !find_filter. auto.
Qed.

Lemma concerns_collection (b : string) (tx : Transaction Obj) :
  concerns read b tx && hasType "collection" tx = true <-> collects read b tx.
Proof.
  unfold concerns, hasType, collects.
  destruct (String.eqb (type tx) "collection") eqn:E.
  - apply String.eqb_eq in E. rewrite andb_true_r, strict_eq_true. tauto.
  - apply String.eqb_neq in E. rewrite andb_false_r. split; [discriminate|tauto].
Qed.

Lemma farmer_none (l : Ledger Obj) (b : string) (c : Clock) (p : Provenance Obj) :
  getProvenance read l b c = Some p ->
  (farmer p = None <-> forall tx, In tx (transactions l) -> ~ collects read b tx).
Proof.
  intros E. destruct (getProvenance_some l b c E) as [-> _].
  split.
  - intros Hn tx Hin Hc.
    destruct (List.find _ (transactions l)) eqn:F; [discriminate|].
    pose proof (find_none _ _ F tx Hin) as Hf.
    apply concerns_collection in Hc. congruence.
  - intros Hall.
    destruct (List.find _ (transactions l)) eqn:F; [|reflexivity].
    apply find_some in F. destruct F as [Hin Ht].
    apply concerns_collection in Ht. exfalso. exact (Hall _ Hin Ht).
Qed.

End ProvenanceFacts.

Lemma frontend_getProvenance_none (st : Frontend.BlockchainState) (b : string) (c : Clock) :
  Frontend.getProvenance st b c = None
  <-> forall tx, In tx (Frontend.transactions st) ->
                 ~ (Frontend.type tx = Frontend.collection
                    /\ data_id (Frontend.data tx) = Some b).
Proof.
  unfold Frontend.getProvenance.
  destruct (List.find (Frontend.isCollectionOf b) (Frontend.transactions st)) eqn:F.
  - split; [discriminate|]. intros Hall. exfalso.
    apply find_some in F. destruct F as [Hin Ht].
    apply (Hall _ Hin). unfold Frontend.isCollectionOf in Ht.
    apply andb_true_iff in Ht. destruct Ht as [Ht Hid].
    apply strict_eq_true in Hid. split; [|exact Hid].
    destruct (Frontend.type b0); simpl in Ht; congruence.
  - split; [|reflexivity]. intros _ tx Hin [Hty Hid].
    pose proof (find_none _ _ F tx Hin) as Hf.
    unfold Frontend.isCollectionOf in Hf. rewrite Hty in Hf. simpl in Hf.
    apply strict_eq_false in Hf. contradiction.
Qed.

Lemma concerns_false `{Host} (Obj : Type) (read : Obj -> Payload) (b : string)
  (tx : Transaction Obj) :
  concerns read b tx = false
  <-> (type tx = "collection"%string -> data_id (read (data tx)) <> Some b)
      /\ (type tx <> "collection"%string -> data_batchID (read (data tx)) <> Some b).
Proof.
  unfold concerns. destruct (String.eqb (type tx) "collection") eqn:E.
  - apply String.eqb_eq in E. rewrite strict_eq_false. tauto.
  - apply String.eqb_neq in E. rewrite strict_eq_false. tauto.
Qed.

(** C2, as the code has it.  The backend's [getProvenance] returns null
    exactly when no transaction of the ledger concerns the batch: no
    collection with that [data.id] and no transaction of another type
    with that [data.batchID].  When it returns a bundle, the bundle's
    [farmer] is null exactly when the ledger holds no collection of the
    batch.  For a batch ID that appears in no transaction it returns
    null.  The frontend's [getProvenance] returns null exactly when its
    log holds no collection whose [data.id] is the batch ID. *)
Theorem getProvenance_notFound `{Host} (Obj : Type) (read : Obj -> Payload)
  (l : Ledger Obj) (st : Frontend.BlockchainState) (b : string) (c : Clock) :
  (getProvenance read l b c = None
   <-> forall tx, In tx (transactions l) ->
         (type tx = "collection"%string -> data_id (read (data tx)) <> Some b)
         /\ (type tx <> "collection"%string -> data_batchID (read (data tx)) <> Some b))
  /\ (forall p, getProvenance read l b c = Some p ->
        (farmer p = None
         <-> forall tx, In tx (transactions l) ->
               ~ (type tx = "collection"%string /\ data_id (read (data tx)) = Some b)))
  /\ ((forall tx, In tx (transactions l) ->
         data_id (read (data tx)) <> Some b /\ data_batchID (read (data tx)) <> Some b) ->
      getProvenance read l b c = None)
  /\ (Frontend.getProvenance st b c = None
      <-> forall tx, In tx (Frontend.transactions st) ->
            ~ (Frontend.type tx = Frontend.collection
               /\ data_id (Frontend.data tx) = Some b)).
Proof.
  assert (Hnone : getProvenance read l b c = None
                  <-> forall tx, In tx (transactions l) ->
                        (type tx = "collection"%string -> data_id (read (data tx)) <> Some b)
                        /\ (type tx <> "collection"%string
                            -> data_batchID (read (data tx)) <> Some b)).
  { rewrite getProvenance_none. split; intros Hall tx Hin.
    - apply concerns_false. now apply Hall.
    - apply concerns_false. now apply Hall. }
  split; [exact Hnone|]. split; [|split].
  - intros p E. exact (farmer_none read l b c E).
  - intros Hall. apply Hnone. intros tx Hin. destruct (Hall tx Hin). tauto.
  - apply frontend_getProvenance_none.
Qed.

(** A ledger on which C2 fails for the backend: after the genesis
    transaction and one quality test that names batch BATCH_X, the
    ledger holds no collection at all, yet [getProvenance] returns a
    bundle (with a null [farmer]) instead of null. *)
Lemma getProvenance_bundle_without_collection :
  let w := snd (demoSubmit freshWorld "quality_test"
                  (qualityTestOf "TEST_001" "BATCH_X" 0.03) "2000") in
  List.length (transactions (memory w)) = 2
  /\ List.filter (hasType "collection") (transactions (memory w)) = []
  /\ option_map (@farmer Payload)
       (@getProvenance demoHost _ (fun p => p) (memory w) "BATCH_X" (demoClock "3000"))
     = Some None
  /\ option_map (@transactionCount Payload)
       (@getProvenance demoHost _ (fun p => p) (memory w) "BATCH_X" (demoClock "3000"))
     = Some 1.
Proof. vm_compute. repeat split; reflexivity. Qed.

(** C2 in this form, at that ledger and at a frontend log. *)
Lemma getProvenance_notFound_witness :
  let w := snd (demoSubmit freshWorld "quality_test"
                  (qualityTestOf "TEST_001" "BATCH_X" 0.03) "2000") in
  let st := snd (@Frontend.submitTransaction demoHost
                   {| Frontend.transactions := []; Frontend.blocks := [] |}
                   Frontend.quality_test (qualityTestOf "TEST_001" "BATCH_X" 0.03)
                   (demoClock "2000")) in
  @getProvenance demoHost _ (fun p => p) (memory w) "BATCH_Y" (demoClock "3000") = None
  /\ Frontend.getProvenance st "BATCH_X" (demoClock "3000") = None.
Proof.
  intros w st.
  destruct (@getProvenance_notFound demoHost Payload (fun p => p) (memory w) st
              "BATCH_Y" (demoClock "3000")) as [_ [_ [Habsent _]]].
  destruct (@getProvenance_notFound demoHost Payload (fun p => p) (memory w) st
              "BATCH_X" (demoClock "3000")) as [_ [_ [_ Hfront]]].
  split.
  - apply Habsent. intros tx Hin. vm_compute in Hin.
    destruct Hin as [<-|[<-|[]]]; split; vm_compute; discriminate.
  - apply Hfront. intros tx Hin. vm_compute in Hin.
    destruct Hin as [<-|[]]. intros [Hty _]. vm_compute in Hty. discriminate.
Defined.

Lemma find_first_split (A : Type) (f : A -> bool) (l : list A) (x : A) :
  List.find f l = Some x ->
  exists pre post,
    l = pre ++ x :: post /\ f x = true /\ forall t, In t pre -> f t = false.
Proof.
  induction l as [|y l IH]; simpl; [discriminate|].
  destruct (f y) eqn:E.
  - intros [= ->]. exists [], l. repeat split; auto. intros t [].
  - intros F. destruct (IH F) as [pre [post [-> [Hx Hpre]]]].
    exists (y :: pre), post. repeat split; auto.
    intros t [<-|Hin]; auto.
Qed.




(** ** Quality tests *)

(** A number above 0.05 is truthy: it is neither a zero nor NaN. *)
Lemma above_limit_truthy (v : float) :
  PrimFloat.ltb 0.05%float v = true -> Js.truthy (Some v) = true.
Proof.
  unfold Js.truthy, PrimFloat.is_nan.
  rewrite ltb_spec, !eqb_spec.
  replace (Prim2SF 0.05%float) with (S754_finite false 7205759403792794 (-57))
    by (vm_compute; reflexivity).
  replace (Prim2SF 0%float) with (S754_zero false) by (vm_compute; reflexivity).
  destruct (Prim2SF v) as [s|s| |s m e]; simpl; try discriminate.
  - destruct s; [discriminate|reflexivity].
  - intros _. unfold SFeqb, SFcompare.
    destruct s; rewrite Z.compare_refl, Pos.compare_cont_refl; reflexivity.
Qed.

Lemma heavyMetals_check (x : option float) :
  Js.truthy x && Js.gt x 0.05%float = Js.gt x 0.05%float.
Proof.
  destruct x as [v|]; [|reflexivity].
  destruct (Js.gt (Some v) 0.05%float) eqn:E.
  - simpl in E. now rewrite (above_limit_truthy E).
  - apply andb_false_r.
Qed.

(** The ledger rule and the lab's status agree: a payload passes
    [validateQualityTest] exactly when its derived status is PASSED. *)
Lemma validateQualityTest_PASSED (d : Payload) :
  snd (validateQualityTest d) = Js.Return accept
  <-> Routes.v_status (Routes.determineTestStatus (Routes.testData_of_payload d))
      = PASSED.
Proof.
  unfold validateQualityTest, Routes.determineTestStatus, Routes.testData_of_payload.
  simpl. rewrite heavyMetals_check.
  unfold Routes.pesticide_max, Routes.heavyMetals_max, Routes.moisture_min,
    Routes.moisture_max.
  destruct (Js.gt (data_pesticide d) 0.1%float);
    destruct (Js.gt (data_heavyMetals d) 0.05%float);
    destruct (Js.lt (data_moisture d) 8%float || Js.gt (data_moisture d) 20%float);
    destruct (Js.lt (data_moisture d) 5%float || Js.gt (data_moisture d) 25%float);
    simpl; split; intros E; try reflexivity; discriminate E.
Qed.

Lemma validateQualityTest_verdict (d : Payload) :
  valid
    (match snd (validateQualityTest d) with
     | Js.Return v => v
     | Js.Throw m => {| valid := false; reason := Some m |}
     end) = true
  <-> snd (validateQualityTest d) = Js.Return accept.
Proof.
  unfold validateQualityTest.
  destruct (Js.gt (data_pesticide d) 0.1%float); simpl; [split; discriminate|].
  destruct (Js.truthy (data_heavyMetals d) && Js.gt (data_heavyMetals d) 0.05%float);
    simpl; [split; discriminate|].
  destruct (Js.lt (data_moisture d) 8%float || Js.gt (data_moisture d) 20%float);
    simpl; [split; discriminate|].
  split; reflexivity.
Qed.

Section QualityFacts.

Context `{Host}.
Variable Obj : Type.
Variable read : Obj -> Payload.

Lemma validateTransaction_quality_test (l : Ledger Obj) (tx : Transaction Obj) :
  type tx = "quality_test"%string ->
  snd (validateTransaction read l tx)
  = match snd (validateQualityTest (read (data tx))) with
    | Js.Return v => v
    | Js.Throw m => {| valid := false; reason := Some m |}
    end.
Proof.
  intros Hty. unfold validateTransaction. rewrite Hty. simpl.
  destruct (validateQualityTest (read (data tx))) as [out [v|m]]; reflexivity.
Qed.

(** A quality test is committed only if its derived status is PASSED. *)
Lemma committed_quality_test_PASSED (w : World Obj) (d : Obj) (e : list string)
  (c : Clock) (io : WriteOutcome) :
  valid (snd (validateTransaction read (memory w)
                (newTransaction read (memory w) "quality_test" d e c))) = true ->
  Routes.v_status (Routes.determineTestStatus (Routes.testData_of_payload (read d)))
  = PASSED.
Proof.
  rewrite validateTransaction_quality_test by reflexivity. simpl.
  intros Hv. apply validateQualityTest_PASSED. now apply validateQualityTest_verdict.
Qed.

Lemma pesticide_over_limit_refused (w : World Obj) (d : Obj) (e : list string)
  (c : Clock) (io : WriteOutcome) :
  Js.gt (data_pesticide (read d)) 0.1%float = true ->
  submitTransaction read w "quality_test" d e c io
  = (Js.Throw "Transaction validation failed: Pesticide level exceeds WHO limit (0.1 ppm)", w).
Proof.
  intros Hp. rewrite submitTransaction_invalid.
  - rewrite validateTransaction_quality_test by reflexivity. simpl.
    unfold validateQualityTest. rewrite Hp. reflexivity.
  - rewrite validateTransaction_quality_test by reflexivity. simpl.
    unfold validateQualityTest. rewrite Hp. reflexivity.
Qed.

End QualityFacts.

(** ** The heap of the routes *)

Lemma read_new (h : list Payload) (p : Payload) :
  Routes.read (h ++ [p]) (List.length h) = p.
Proof.
  unfold Routes.read. rewrite app_nth2 by lia. now rewrite Nat.sub_diag.
Qed.

Lemma read_old (h : list Payload) (p : Payload) (a : Routes.address) :
  a < List.length h -> Routes.read (h ++ [p]) a = Routes.read h a.
Proof.
  intros Ha. unfold Routes.read. now rewrite app_nth1.
Qed.

Lemma store_length (h : list Payload) (a : Routes.address) (p : Payload) :
  List.length (Routes.store h a p) = List.length h.
Proof.
  revert a. induction h as [|x h IH]; intros [|a]; simpl; auto.
Qed.

Lemma read_store_same (h : list Payload) (a : Routes.address) (p : Payload) :
  a < List.length h -> Routes.read (Routes.store h a p) a = p.
Proof.
  unfold Routes.read. revert a. induction h as [|x h IH]; intros [|a] Ha; simpl in *;
    try lia; auto. apply IH. lia.
Qed.

Lemma read_store_other (h : list Payload) (a a' : Routes.address) (p : Payload) :
  a' <> a -> Routes.read (Routes.store h a p) a' = Routes.read h a'.
Proof.
  unfold Routes.read. revert a a'.
  induction h as [|x h IH]; intros [|a] [|a'] Hne; simpl; auto; try congruence.
Qed.

(** C8, as the code has it.  [determineTestStatus] gives PASSED with no
    warning for pesticide 0.03, heavy metals 0.01, moisture 12.5, and
    FAILED for pesticide 0.2 whatever the other values.  A quality test
    with pesticide 0.2 is not recorded: [submitTransaction] refuses it
    with the reason of the pesticide rule and leaves the ledger as it
    was, and only a test whose derived status is PASSED is ever
    committed. *)
Theorem quality_status_and_recording `{Host} (Obj : Type) (read : Obj -> Payload) :
  Routes.determineTestStatus
    {| Routes.td_pesticide := Some 0.03%float;
       Routes.td_heavyMetals := Some 0.01%float;
       Routes.td_moisture := Some 12.5%float |}
  = {| Routes.passed := true; Routes.v_status := PASSED; Routes.v_warnings := [] |}
  /\ (forall hm m,
        Routes.v_status
          (Routes.determineTestStatus
             {| Routes.td_pesticide := Some 0.2%float;
                Routes.td_heavyMetals := hm;
                Routes.td_moisture := m |}) = FAILED)
  /\ (forall (w : World Obj) d e c io,
        data_pesticide (read d) = Some 0.2%float ->
        submitTransaction read w "quality_test" d e c io
        = (Js.Throw "Transaction validation failed: Pesticide level exceeds WHO limit (0.1 ppm)",
           w))
  /\ (forall (w : World Obj) d e c io r w',
        submitTransaction read w "quality_test" d e c io = (Js.Return r, w') ->
        Routes.v_status (Routes.determineTestStatus (Routes.testData_of_payload (read d)))
        = PASSED).
Proof.
  split; [vm_compute; reflexivity|]. split; [|split].
  - intros hm m. unfold Routes.determineTestStatus. simpl.
    replace (PrimFloat.ltb Routes.pesticide_max 0.2%float) with true
      by (vm_compute; reflexivity).
    destruct (Js.gt hm Routes.heavyMetals_max);
      destruct (Js.lt m Routes.moisture_min || Js.gt m Routes.moisture_max);
      destruct (Js.lt m 5%float || Js.gt m 25%float); reflexivity.
  - intros w d e c io Hp. apply pesticide_over_limit_refused.
    rewrite Hp. vm_compute. reflexivity.
  - intros w d e c io r w' E.
    apply (committed_quality_test_PASSED read w d e c io).
    destruct (submitTransaction_cases read w "quality_test" d e c io)
      as [[Hv Hs]|[[Hv _]|[Hv _]]]; [|exact Hv|exact Hv].
    rewrite Hs in E. discriminate E.
Qed.

(** A ledger on which C8 fails: batch BATCH_ASH_001 is collected, the
    derived status of the test with pesticide 0.2 is FAILED, and
    submitting that test is refused; the ledger stays as it was. *)
Lemma failed_test_not_recorded :
  let w1 := snd (demoSubmit freshWorld "collection"
                   (collectionAt "BATCH_ASH_001" 26.9124 75.7873) "2000") in
  let t := qualityTestOf "TEST_001" "BATCH_ASH_001" 0.2 in
  Routes.v_status (Routes.determineTestStatus (Routes.testData_of_payload t)) = FAILED
  /\ demoSubmit w1 "quality_test" t "3000"
     = (Js.Throw "Transaction validation failed: Pesticide level exceeds WHO limit (0.1 ppm)",
        w1).
Proof. vm_compute. split; reflexivity. Qed.

(** C8 in this form, at that ledger. *)
Lemma quality_status_and_recording_witness :
  let w1 := snd (demoSubmit freshWorld "collection"
                   (collectionAt "BATCH_ASH_001" 26.9124 75.7873) "2000") in
  demoSubmit w1 "quality_test" (qualityTestOf "TEST_001" "BATCH_ASH_001" 0.2) "3000"
  = (Js.Throw "Transaction validation failed: Pesticide level exceeds WHO limit (0.1 ppm)",
     w1)
  /\ Routes.v_status
       (Routes.determineTestStatus
          (Routes.testData_of_payload (qualityTestOf "TEST_002" "BATCH_ASH_001" 0.03)))
     = PASSED.
Proof.
  intros w1.
  destruct (@quality_status_and_recording demoHost Payload (fun p => p))
    as [_ [_ [Hrefused Hpassed]]].
  split.
  - apply Hrefused. reflexivity.
  - eapply (Hpassed w1 (qualityTestOf "TEST_002" "BATCH_ASH_001" 0.03) []
              (demoClock "3000") Written).
    reflexivity.
Defined.

(** ** Collection rules *)

Lemma isValidLocation_box (g : GPSCoordinates) :
  isValidLocation g = true <-> inRajasthanBox g.
Proof.
  unfold isValidLocation, inRajasthanBox. rewrite !andb_true_iff. tauto.
Qed.

Lemma isValidLocation_outside (g : GPSCoordinates) :
  isValidLocation g = false <-> ~ inRajasthanBox g.
Proof.
  rewrite <- isValidLocation_box. destruct (isValidLocation g); split; congruence.
Qed.

Section CollectionFacts.

Context `{Host}.
Variable Obj : Type.
Variable read : Obj -> Payload.

(** What the rules say of an Ashwagandha collection: the verdict is
    the geo-fence's, the season only chooses the line printed. *)
Lemma validateTransaction_ashwagandha (l : Ledger Obj) (tx : Transaction Obj)
  (ce : CollectionEvent) :
  type tx = "collection"%string ->
  read (data tx) = Collection ce ->
  is_ashwagandha (species ce) = true ->
  validateTransaction read l tx
  = if isValidLocation (gps ce)
    then ([GeoFencePassed (species ce);
           if isValidSeason (harvestMonth (Some (timestamp ce)))
           then SeasonPassed (species ce)
           else SeasonWarning (species ce) (harvestMonth (Some (timestamp ce)))],
          accept)
    else ([GeoFenceFailed (species ce)],
          reject "GPS coordinates outside valid cultivation region for Ashwagandha").
Proof.
  intros Hty Hd Ha. unfold validateTransaction. rewrite Hty. simpl.
  unfold validateCollectionEvent. rewrite Hd. simpl. rewrite Ha.
  destruct (isValidLocation (gps ce)); simpl; [|reflexivity].
  unfold seasonNotices. rewrite Ha.
  destruct (isValidSeason _); reflexivity.
Qed.

End CollectionFacts.

(** C7.  For a collection whose species contains "ashwagandha" (in any
    letter case), validation rejects exactly when the GPS position is
    outside latitude 24..30, longitude 69..78: the submission is then
    refused and the ledger unchanged.  Inside the box the collection is
    accepted whatever the harvest month; out of season (March to
    September, or an unreadable date) the only effect is the warning
    line.  (10.0, 10.0) is outside, (26.9124, 75.7873) inside.  The
    frontend's [validateGeoFence] draws the same box. *)
Theorem collection_geofence_fatal_season_advisory `{Host} (Obj : Type)
  (read : Obj -> Payload) :
  (forall (l : Ledger Obj) (tx : Transaction Obj) (ce : CollectionEvent),
      type tx = "collection"%string ->
      read (data tx) = Collection ce ->
      is_ashwagandha (species ce) = true ->
      (valid (snd (validateTransaction read l tx)) = false <-> ~ inRajasthanBox (gps ce))
      /\ (inRajasthanBox (gps ce) ->
          isValidSeason (harvestMonth (Some (timestamp ce))) = false ->
          validateTransaction read l tx
          = ([GeoFencePassed (species ce);
              SeasonWarning (species ce) (harvestMonth (Some (timestamp ce)))],
             accept)))
  /\ (forall (w : World Obj) (d : Obj) (e : list string) (c : Clock) (ce : CollectionEvent),
        read d = Collection ce ->
        is_ashwagandha (species ce) = true ->
        (~ inRajasthanBox (gps ce) ->
         forall io,
           submitTransaction read w "collection" d e c io
           = (Js.Throw "Transaction validation failed: GPS coordinates outside valid cultivation region for Ashwagandha",
              w))
        /\ (inRajasthanBox (gps ce) ->
            exists r w',
              submitTransaction read w "collection" d e c Written = (Js.Return r, w')
              /\ transactions (memory w')
                 = transactions (memory w) ++ [newTransaction read (memory w) "collection" d e c]))
  /\ (forall g sp,
        is_ashwagandha sp = true ->
        (Frontend.validateGeoFence g sp = true <-> inRajasthanBox g))
  /\ is_ashwagandha "Ashwagandha" = true
  /\ ~ inRajasthanBox {| lat := 10.0; lng := 10.0; altitude := None |}
  /\ inRajasthanBox {| lat := 26.9124; lng := 75.7873; altitude := None |}.
Proof.
  split; [|split; [|split; [|split; [|split]]]].
  - intros l tx ce Hty Hd Ha.
    rewrite (validateTransaction_ashwagandha read l tx Hty Hd Ha). split.
    + rewrite <- isValidLocation_outside.
      destruct (isValidLocation (gps ce)); simpl; split; congruence.
    + intros Hin Hseason. apply isValidLocation_box in Hin. rewrite Hin, Hseason.
      reflexivity.
  - intros w d e c ce Hd Ha.
    pose proof (validateTransaction_ashwagandha read (memory w)
                  (newTransaction read (memory w) "collection" d e c)
                  eq_refl Hd Ha) as Hv.
    split.
    + intros Hout io. apply isValidLocation_outside in Hout. rewrite Hout in Hv.
      rewrite submitTransaction_invalid; rewrite Hv; reflexivity.
    + intros Hin. apply isValidLocation_box in Hin. rewrite Hin in Hv.
      destruct (submitTransaction_cases read w "collection" d e c Written)
        as [[Hf _]|[[_ [_ Hs]]|[_ [m [residue [Hio _]]]]]].
      * rewrite Hv in Hf. discriminate Hf.
      * rewrite Hs. eexists. eexists. split; reflexivity.
      * discriminate Hio.
  - intros g sp Ha. unfold Frontend.validateGeoFence.
    unfold is_ashwagandha in Ha. rewrite Ha. apply isValidLocation_box.
  - vm_compute. reflexivity.
  - apply isValidLocation_outside. vm_compute. reflexivity.
  - apply isValidLocation_box. vm_compute. reflexivity.
Qed.

(** C7 at the two positions of the specification, harvested in June. *)
Lemma collection_geofence_fatal_season_advisory_witness :
  demoSubmit freshWorld "collection" (collectionAt "BATCH_ASH_002" 10.0 10.0) "2000"
  = (Js.Throw "Transaction validation failed: GPS coordinates outside valid cultivation region for Ashwagandha",
     freshWorld)
  /\ @validateTransaction demoHost _ (fun p => p) (memory freshWorld)
       (@newTransaction demoHost _ (fun p => p) (memory freshWorld) "collection"
          (collectionAt "BATCH_ASH_001" 26.9124 75.7873) [] (demoClock "2000"))
     = ([GeoFencePassed "Ashwagandha"; SeasonWarning "Ashwagandha" (Some 6%Z)], accept).
Proof.
  destruct (@collection_geofence_fatal_season_advisory demoHost Payload (fun p => p))
    as [Hrule [Hsubmit [_ [Hsp [Hout Hin]]]]].
  split.
  - apply (proj1 (Hsubmit freshWorld (collectionAt "BATCH_ASH_002" 10.0 10.0) []
                    (demoClock "2000") _ eq_refl Hsp) Hout Written).
  - apply (proj2 (Hrule (memory freshWorld)
                    (@newTransaction demoHost _ (fun p => p) (memory freshWorld) "collection"
                       (collectionAt "BATCH_ASH_001" 26.9124 75.7873) [] (demoClock "2000"))
                    _ eq_refl eq_refl Hsp) Hin).
    reflexivity.
Defined.

(** ** The frontend service *)

(** [generateHash] is the 31-multiplier string hash on 32-bit integers,
    printed in hexadecimal without sign. *)
Example generateHash_abc : Frontend.generateHash "abc" = "17862"%string.
Proof. vm_compute. reflexivity. Qed.

Example generateHash_wraps :
  Frontend.hashLoop "Ashwagandha" 0 = (-787337047)%Z
  /\ Frontend.generateHash "Ashwagandha" = "2eedcf57"%string.
Proof. vm_compute. split; reflexivity. Qed.

(** The sample log the constructor builds answers for its batch. *)
Example sample_log_provenance :
  option_map Frontend.isVerified
    (Frontend.getProvenance
       (@Frontend.initializeSampleData demoHost (demoClock "1") (demoClock "2") (demoClock "3"))
       "BATCH_ASH_001" (demoClock "4"))
  = Some true.
Proof. vm_compute. reflexivity. Qed.

(** C10.  The frontend's [submitTransaction] validates nothing: for
    every type and payload it appends one transaction, carrying that
    type and payload and chained to the last hash, and returns the id it
    generated.  A collection that [validateGeoFence] refuses
    (Ashwagandha at (10.0, 10.0)) is appended like any other. *)
Theorem frontend_submit_never_rejects `{Host} (st : Frontend.BlockchainState)
  (ty : Frontend.TxType) (d : Payload) (c : Clock) :
  (exists tx,
      Frontend.submitTransaction st ty d c
      = (Frontend.id tx,
         {| Frontend.transactions := Frontend.transactions st ++ [tx];
            Frontend.blocks := Frontend.blocks st |})
      /\ Frontend.type tx = ty
      /\ Frontend.data tx = d
      /\ Frontend.id tx = ("tx_" ++ nowMs c ++ "_" ++ random36 c)%string
      /\ Frontend.previousHash tx = Frontend.getLastTransactionHash st)
  /\ List.length (Frontend.transactions (snd (Frontend.submitTransaction st ty d c)))
     = S (List.length (Frontend.transactions st))
  /\ Frontend.validateGeoFence {| lat := 10.0; lng := 10.0; altitude := None |} "Ashwagandha"
     = false
  /\ List.map Frontend.data
       (Frontend.transactions
          (snd (Frontend.submitTransaction st Frontend.collection
                  (collectionAt "BATCH_ASH_002" 10.0 10.0) c)))
     = List.map Frontend.data (Frontend.transactions st)
         ++ [collectionAt "BATCH_ASH_002" 10.0 10.0].
Proof.
  split; [|split; [|split]].
  - eexists. split; [reflexivity|]. simpl. auto.
  - simpl. rewrite length_app. simpl. lia.
  - vm_compute. reflexivity.
  - simpl. rewrite map_app. reflexivity.
Qed.

(** ** Processing rules *)

Section ProcessingFacts.

Context `{Host}.
Variable Obj : Type.
Variable read : Obj -> Payload.

Lemma validateTransaction_processing (l : Ledger Obj) (tx : Transaction Obj) :
  type tx = "processing"%string ->
  snd (validateTransaction read l tx)
  = match List.find (isQualityTestOf read (data_batchID (read (data tx)))) (transactions l) with
    | Some _ => accept
    | None => reject "Cannot process batch without quality verification"
    end.
Proof.
  intros Hty. unfold validateTransaction. rewrite Hty. simpl.
  unfold validateProcessingStep.
  destruct (List.find _ (transactions l)); reflexivity.
Qed.

Lemma isQualityTestOf_true (b : option string) (tx : Transaction Obj) :
  isQualityTestOf read b tx = true
  <-> type tx = "quality_test"%string /\ data_batchID (read (data tx)) = b.
Proof.
  unfold isQualityTestOf. rewrite andb_true_iff, String.eqb_eq, strict_eq_true. tauto.
Qed.

(** The processing rule accepts exactly when the ledger holds a quality
    test of the same batch. *)
Lemma processing_accepted_iff (l : Ledger Obj) (tx : Transaction Obj) :
  type tx = "processing"%string ->
  (valid (snd (validateTransaction read l tx)) = true
   <-> exists q, In q (transactions l)
                 /\ type q = "quality_test"%string
                 /\ data_batchID (read (data q)) = data_batchID (read (data tx))).
Proof.
  intros Hty. rewrite (validateTransaction_processing l tx Hty).
  destruct (List.find _ (transactions l)) as [q|] eqn:F; simpl; split.
  - intros _. apply find_some in F. destruct F as [Hin Hq].
    apply isQualityTestOf_true in Hq. exists q. tauto.
  - reflexivity.
  - discriminate.
  - intros [q [Hin Hq]]. pose proof (find_none _ _ F q Hin) as Hf.
    apply isQualityTestOf_true in Hq. congruence.
Qed.

End ProcessingFacts.

(** Every quality test in a reachable ledger passed the quality rule
    when it was submitted. *)
Lemma reachable_quality_tests_valid `{Host} (w : World Payload) :
  reachable w ->
  forall tx, In tx (transactions (memory w)) ->
             type tx = "quality_test"%string ->
             snd (validateQualityTest (data tx)) = Js.Return accept.
Proof.
  intros Hr. induction Hr as [c io|w ty d e c io Hr IH].
  - destruct io; simpl; intros tx [<-|[]] Hty; discriminate Hty.
  - intros tx Hin Hty.
    destruct (valid (snd (validateTransaction (fun p => p) (memory w)
                            (newTransaction (fun p => p) (memory w) ty d e c)))) eqn:Hv.
    + rewrite (submitTransaction_valid (fun p => p) w ty d e c io Hv) in Hin.
      simpl in Hin. apply in_app_or in Hin. destruct Hin as [Hin|[<-|[]]].
      * now apply IH.
      * simpl in Hty. subst ty.
        rewrite validateTransaction_quality_test in Hv by reflexivity.
        now apply validateQualityTest_verdict.
    + rewrite (submitTransaction_invalid (fun p => p) w ty d e c io Hv) in Hin.
      now apply IH.
Qed.

Lemma PASSED_passed (t : Routes.TestData) :
  Routes.v_status (Routes.determineTestStatus t) = PASSED ->
  Routes.passed (Routes.determineTestStatus t) = true.
Proof.
  unfold Routes.determineTestStatus.
  destruct (Js.gt (Routes.td_pesticide t) Routes.pesticide_max);
    destruct (Js.gt (Routes.td_heavyMetals t) Routes.heavyMetals_max);
    destruct (Js.lt (Routes.td_moisture t) Routes.moisture_min
              || Js.gt (Routes.td_moisture t) Routes.moisture_max);
    destruct (Js.lt (Routes.td_moisture t) 5%float || Js.gt (Routes.td_moisture t) 25%float);
    simpl; intros E; try reflexivity; discriminate E.
Qed.

(** ** The processor route *)

Section UpdateStatusFacts.

Context `{Host}.

Lemma updateStatus_unverified (s : Routes.State) (value : Routes.UpdateInput)
  (c cs : Clock) (io : WriteOutcome) (p : Provenance Routes.address) :
  getProvenance (Routes.read (Routes.heap s)) (memory (Routes.service s))
                (Routes.u_batchID value) c = Some p ->
  Routes.labVerified (Routes.heap s) p = false ->
  Routes.updateStatus s (inr value) c cs io
  = (Routes.refuse 400 "Cannot process batch without quality verification" None None, s).
Proof.
  intros Hp Hl. unfold Routes.updateStatus. rewrite Hp, Hl. reflexivity.
Qed.

Lemma updateStatus_unknown_batch (s : Routes.State) (value : Routes.UpdateInput)
  (c cs : Clock) (io : WriteOutcome) :
  getProvenance (Routes.read (Routes.heap s)) (memory (Routes.service s))
                (Routes.u_batchID value) c = None ->
  Routes.updateStatus s (inr value) c cs io
  = (Routes.refuse 404 "Batch not found" None None, s).
Proof.
  intros Hp. unfold Routes.updateStatus. rewrite Hp. reflexivity.
Qed.

(** An update is answered with success only after the stage check. *)
Lemma updateStatus_success_guard (s : Routes.State) (value : Routes.UpdateInput)
  (c cs : Clock) (io : WriteOutcome) :
  Routes.success (fst (Routes.updateStatus s (inr value) c cs io)) = true ->
  exists p,
    getProvenance (Routes.read (Routes.heap s)) (memory (Routes.service s))
                  (Routes.u_batchID value) c = Some p
    /\ Routes.labVerified (Routes.heap s) p = true
    /\ forall prev,
         Routes.previousStep (Routes.u_step value) = Some prev ->
         exists a,
           processor p = Some a
           /\ data_stage (Routes.read (Routes.heap s) a) prev = Some completed.
Proof.
  unfold Routes.updateStatus.
  destruct (getProvenance _ _ _ c) as [p|]; [|discriminate].
  destruct (Routes.labVerified (Routes.heap s) p) eqn:Hl; simpl; [|discriminate].
  intros Hs. exists p. split; [reflexivity|]. split; [exact Hl|].
  intros prev Hprev. rewrite Hprev in Hs.
  destruct (processor p) as [a|]; simpl in Hs.
  - exists a. split; [reflexivity|].
    destruct (data_stage (Routes.read (Routes.heap s) a) prev) as [[]|];
      simpl in Hs; try discriminate Hs. reflexivity.
  - exfalso. rewrite read_new in Hs. destruct prev; simpl in Hs; discriminate Hs.
Qed.

(** The answer when the stage before is not completed. *)
Lemma updateStatus_out_of_order (s : Routes.State) (value : Routes.UpdateInput)
  (c cs : Clock) (io : WriteOutcome) (p : Provenance Routes.address) (prev : Stage) :
  getProvenance (Routes.read (Routes.heap s)) (memory (Routes.service s))
                (Routes.u_batchID value) c = Some p ->
  Routes.labVerified (Routes.heap s) p = true ->
  Routes.previousStep (Routes.u_step value) = Some prev ->
  match processor p with
  | Some a => data_stage (Routes.read (Routes.heap s) a) prev
  | None => Some pending
  end <> Some completed ->
  fst (Routes.updateStatus s (inr value) c cs io)
  = Routes.refuse 400
      ("Cannot start " ++ Routes.stageName (Routes.u_step value)
         ++ " before completing " ++ Routes.stageName prev)%string None None
  /\ Routes.service (snd (Routes.updateStatus s (inr value) c cs io)) = Routes.service s.
Proof.
  intros Hp Hl Hprev Hnot. unfold Routes.updateStatus. rewrite Hp, Hl, Hprev. simpl.
  destruct (processor p) as [a|]; simpl.
  - destruct (data_stage (Routes.read (Routes.heap s) a) prev) as [[]|]; simpl;
      try (split; reflexivity). congruence.
  - rewrite read_new. destruct prev; simpl; split; reflexivity.
Qed.

End UpdateStatusFacts.

Lemma data_batchID_recordStep (d : Payload) (st : Stage) (n : Routes.NewStatus)
  (now : string) (notes : option string) :
  data_batchID (Routes.recordStep d st n now notes) = data_batchID d.
Proof. destruct d; reflexivity. Qed.

(** Recording a step on the object at [a] changes no object's batch. *)
Lemma batchID_after_recordStep (h : list Payload) (a x : Routes.address) (st : Stage)
  (n : Routes.NewStatus) (now : string) (notes : option string) :
  a < List.length h ->
  data_batchID
    (Routes.read (Routes.store h a (Routes.recordStep (Routes.read h a) st n now notes)) x)
  = data_batchID (Routes.read h x).
Proof.
  intros Ha. destruct (Nat.eq_dec x a) as [->|Hne].
  - rewrite read_store_same by exact Ha. apply data_batchID_recordStep.
  - now rewrite read_store_other.
Qed.

Lemma find_ext_in (A : Type) (f g : A -> bool) (l : list A) :
  (forall x, In x l -> f x = g x) -> List.find f l = List.find g l.
Proof.
  induction l as [|y l IH]; simpl; intros Hfg; [reflexivity|].
  rewrite (Hfg y (or_introl eq_refl)). destruct (g y); [reflexivity|].
  apply IH. intros x Hin. apply Hfg. now right.
Qed.

Section UpdateStatusAccepts.

Context `{Host}.

(** A bundle with a lab has a quality test of the batch in the ledger. *)
Lemma lab_in_ledger (Obj : Type) (read : Obj -> Payload) (l : Ledger Obj) (b : string)
  (c : Clock) (p : Provenance Obj) (a : Obj) :
  getProvenance read l b c = Some p ->
  lab p = Some a ->
  exists q, In q (transactions l)
            /\ type q = "quality_test"%string
            /\ data q = a
            /\ data_batchID (read (data q)) = Some b.
Proof.
  intros Hp Hl. destruct (getProvenance_some read l b c Hp) as [_ [Hlab _]].
  rewrite Hl in Hlab.
  destruct (List.find _ (transactions l)) as [q|] eqn:F; [|discriminate].
  apply find_some in F. destruct F as [Hin Hq].
  apply andb_true_iff in Hq. destruct Hq as [Hc Hty].
  unfold hasType in Hty. apply String.eqb_eq in Hty.
  unfold concerns in Hc. rewrite Hty in Hc. simpl in Hc. apply strict_eq_true in Hc.
  exists q. simpl in Hlab. injection Hlab as ->. auto.
Qed.

(** The processing object of a bundle belongs to the batch. *)
Lemma processor_in_ledger (Obj : Type) (read : Obj -> Payload) (l : Ledger Obj)
  (b : string) (c : Clock) (p : Provenance Obj) (a : Obj) :
  getProvenance read l b c = Some p ->
  processor p = Some a ->
  exists t, In t (transactions l)
            /\ type t = "processing"%string
            /\ data t = a
            /\ data_batchID (read (data t)) = Some b.
Proof.
  intros Hp Hl. destruct (getProvenance_some read l b c Hp) as [_ [_ [Hproc _]]].
  rewrite Hl in Hproc.
  destruct (List.find _ (transactions l)) as [q|] eqn:F; [|discriminate].
  apply find_some in F. destruct F as [Hin Hq].
  apply andb_true_iff in Hq. destruct Hq as [Hc Hty].
  unfold hasType in Hty. apply String.eqb_eq in Hty.
  unfold concerns in Hc. rewrite Hty in Hc. simpl in Hc. apply strict_eq_true in Hc.
  exists q. simpl in Hproc. injection Hproc as ->. auto.
Qed.

(** An update that passes the checks is committed when the write succeeds:
    the object is updated in place and one processing transaction that
    holds it is appended. *)
Lemma updateStatus_in_order (s : Routes.State) (value : Routes.UpdateInput)
  (c cs : Clock) (p : Provenance Routes.address) :
  allocated s ->
  getProvenance (Routes.read (Routes.heap s)) (memory (Routes.service s))
                (Routes.u_batchID value) c = Some p ->
  Routes.labVerified (Routes.heap s) p = true ->
  (forall prev,
      Routes.previousStep (Routes.u_step value) = Some prev ->
      exists a, processor p = Some a
                /\ data_stage (Routes.read (Routes.heap s) a) prev = Some completed) ->
  exists r a tx,
    fst (Routes.updateStatus s (inr value) c cs Written)
    = Routes.reply 200
        ("Processing step " ++ Routes.stageName (Routes.u_step value) ++ " marked as "
           ++ Routes.statusName (Routes.u_status value))%string r
    /\ Routes.up_processing r = a
    /\ transactions (memory (Routes.service (snd (Routes.updateStatus s (inr value) c cs Written))))
       = transactions (memory (Routes.service s)) ++ [tx]
    /\ type tx = "processing"%string
    /\ data tx = a
    /\ (forall now,
          data_stage
            (Routes.read (Routes.heap (snd (Routes.updateStatus s (inr value) c cs Written))) a)
            (Routes.u_step value) = Some now ->
          now = Routes.stageStatus (Routes.u_status value)).
Proof.
  intros Hwf Hp Hl Hprevs_ok.
  (* the quality test behind the verified lab *)
  assert (Hq : exists q, In q (transactions (memory (Routes.service s)))
                         /\ type q = "quality_test"%string
                         /\ data_batchID (Routes.read (Routes.heap s) (data q))
                            = Some (Routes.u_batchID value)).
  { unfold Routes.labVerified in Hl. destruct (lab p) as [aq|] eqn:El; [|discriminate].
    destruct (lab_in_ledger _ _ _ c Hp El) as [q [Hin [Hty [_ Hb]]]]. eauto. }
  destruct Hq as [q [Hqin [Hqty Hqb]]].
  unfold Routes.updateStatus. rewrite Hp, Hl. simpl.
  (* the object worked on, its heap, and what they satisfy *)
  set (fresh := Processing _).
  assert (Hobj : exists a h1,
             match processor p with
             | Some a0 => (a0, Routes.heap s)
             | None => Routes.alloc (Routes.heap s) fresh
             end = (a, h1)
             /\ a < List.length h1
             /\ data_batchID (Routes.read h1 a) = Some (Routes.u_batchID value)
             /\ (forall x, x < List.length (Routes.heap s) ->
                           Routes.read h1 x = Routes.read (Routes.heap s) x)
             /\ (forall prev, Routes.previousStep (Routes.u_step value) = Some prev ->
                              data_stage (Routes.read h1 a) prev = Some completed)).
  { destruct (processor p) as [a0|] eqn:Ea.
    - destruct (processor_in_ledger _ _ _ c Hp Ea) as [t [Hin [_ [Hd Hb]]]].
      exists a0, (Routes.heap s). split; [reflexivity|]. split; [|split; [|split]].
      + rewrite <- Hd. now apply Hwf.
      + now rewrite <- Hd.
      + reflexivity.
      + intros prev Hprev. destruct (Hprevs_ok prev Hprev) as [a' [Ha' Hst]]. congruence.
    - exists (List.length (Routes.heap s)), (Routes.heap s ++ [fresh]).
      split; [reflexivity|]. split; [|split; [|split]].
      + rewrite length_app. simpl. lia.
      + now rewrite read_new.
      + intros x Hx. now apply read_old.
      + intros prev Hprev. destruct (Hprevs_ok prev Hprev) as [a' [Ha' _]]. discriminate Ha'. }
  destruct Hobj as [a [h1 [-> [Ha [Hb [Hold Hprevs]]]]]].
  (* the stage check lets the update through *)
  assert (Hgo : match Routes.previousStep (Routes.u_step value) with
                | Some prev => negb (is_completed (data_stage (Routes.read h1 a) prev))
                | None => false
                end = false).
  { destruct (Routes.previousStep (Routes.u_step value)) as [prev|] eqn:Eprev; [|reflexivity].
    now rewrite (Hprevs prev eq_refl). }
  rewrite Hgo.
  set (h2 := Routes.store h1 a _).
  (* the ledger rule still finds the quality test *)
  assert (Hv : valid (snd (validateTransaction (Routes.read h2) (memory (Routes.service s))
                             (newTransaction (Routes.read h2) (memory (Routes.service s))
                                "processing" a [] cs))) = true).
  { apply processing_accepted_iff; [reflexivity|]. exists q. split; [exact Hqin|].
    split; [exact Hqty|]. simpl. unfold h2.
    rewrite !batchID_after_recordStep by exact Ha.
    rewrite Hb, Hold by (now apply Hwf). exact Hqb. }
  destruct (submitTransaction_cases (Routes.read h2) (Routes.service s) "processing" a [] cs
              Written) as [[Hf _]|[[_ [_ Hs]]|[_ [m [residue [Hio _]]]]]].
  - rewrite Hv in Hf. discriminate Hf.
  - rewrite Hs. simpl. eexists. exists a. eexists. split; [reflexivity|]. simpl.
    split; [reflexivity|]. split; [reflexivity|]. split; [reflexivity|].
    split; [reflexivity|]. unfold h2. rewrite read_store_same by exact Ha.
    intros now. destruct (Routes.read h1 a); simpl; try discriminate.
    destruct (Routes.u_step value); simpl; congruence.
  - discriminate Hio.
Qed.

End UpdateStatusAccepts.

(** ** The lab route *)

Lemma labUpload_unknown_batch `{Host} (s : Routes.State) (value : Routes.QualityTestInput)
  (report : option string) (c cs : Clock) (io : WriteOutcome) :
  (forall tx, In tx (transactions (memory (Routes.service s))) ->
              ~ collects (Routes.read (Routes.heap s)) (Routes.qi_batchID value) tx) ->
  Routes.labUpload s (inr value) report c cs io
  = (Routes.refuse 404 "Batch not found"
       (Some ("No collection event found for batch " ++ Routes.qi_batchID value)%string)
       None,
     s).
Proof.
  intros Hnone. unfold Routes.labUpload.
  destruct (getProvenance _ _ _ c) as [p|] eqn:Hp; [|reflexivity].
  apply (farmer_none _ _ _ c Hp) in Hnone. rewrite Hnone. reflexivity.
Qed.

(** C4, as the code has it.  The check that the batch exists is made by
    the lab route, before anything is submitted: for a request whose
    batchID matches no collection transaction of the ledger it answers
    404 "Batch not found" and the state is the one before.  The service
    itself does not consult the ledger for a quality test: a quality_test
    payload is accepted exactly when its measurements pass the limits
    (derived status PASSED), whatever batch it names. *)
Theorem quality_test_batch_check `{Host} :
  (forall (s : Routes.State) (value : Routes.QualityTestInput) (report : option string)
          (c cs : Clock) (io : WriteOutcome),
      (forall tx, In tx (transactions (memory (Routes.service s))) ->
                  ~ (type tx = "collection"%string
                     /\ data_id (Routes.read (Routes.heap s) (data tx))
                        = Some (Routes.qi_batchID value))) ->
      Routes.labUpload s (inr value) report c cs io
      = (Routes.refuse 404 "Batch not found"
           (Some ("No collection event found for batch " ++ Routes.qi_batchID value)%string)
           None,
         s))
  /\ (forall (Obj : Type) (read : Obj -> Payload) (w : World Obj) (d : Obj)
             (e : list string) (c : Clock),
        valid (snd (validateTransaction read (memory w)
                      (newTransaction read (memory w) "quality_test" d e c))) = true
        <-> Routes.v_status
              (Routes.determineTestStatus (Routes.testData_of_payload (read d)))
            = PASSED).
Proof.
  split.
  - intros s value report c cs io Hnone. now apply labUpload_unknown_batch.
  - intros Obj read w d e c.
    rewrite validateTransaction_quality_test by reflexivity. simpl.
    rewrite validateQualityTest_verdict. apply validateQualityTest_PASSED.
Qed.

(** A ledger on which C4 fails: the fresh ledger holds no collection,
    yet a quality test for batch BATCH_X with measurements in range is
    committed and the log grows from one entry to two. *)
Lemma quality_test_for_unknown_batch_committed :
  List.filter (hasType "collection") (transactions (memory freshWorld)) = []
  /\ List.length (transactions (memory freshWorld)) = 1
  /\ fst (demoSubmit freshWorld "quality_test" (qualityTestOf "TEST_001" "BATCH_X" 0.03) "2000")
     = Js.Return {| transactionId := "tx_2000_k3x9q2m7p";
                    status := "COMMITTED";
                    r_hash := "sha256(TEST_001tx_2000_k3x9q2m7p)";
                    r_timestamp := "2025-06-15T08:30:00.000Z" |}
  /\ List.length
       (transactions
          (memory (snd (demoSubmit freshWorld "quality_test"
                          (qualityTestOf "TEST_001" "BATCH_X" 0.03) "2000")))) = 2.
Proof. vm_compute. repeat split; reflexivity. Qed.

(** C4 in this form, on a server started without a ledger file: the lab
    route refuses a test for BATCH_X. *)
Lemma quality_test_batch_check_witness :
  demoLabUpload (Routes.boot freshWorld) "BATCH_X" 0.03 "2000"
  = (Routes.refuse 404 "Batch not found"
       (Some "No collection event found for batch BATCH_X") None,
     Routes.boot freshWorld).
Proof.
  apply (proj1 (@quality_test_batch_check demoHost)).
  intros tx Hin [Hty _]. vm_compute in Hin. destruct Hin as [<-|[]].
  vm_compute in Hty. discriminate Hty.
Defined.

(** C6, as the code has it.  The order of the stages is kept by the
    processor route, not by the ledger service.  The route lets a stage
    move to in-progress or completed only after the stage before it, in
    the order drying, grinding, packaging, reads completed in the
    batch's processing object; drying has no stage before it.  An update
    of a later stage while the stage before is not completed (or while
    the batch has no processing object yet) is answered 400 with "Cannot
    start <stage> before completing <stage before>" and the ledger is
    unchanged; so a grinding update before drying is completed is
    refused, citing drying.  An update that passes the checks is
    committed.  The service accepts a processing payload exactly when
    the ledger holds a quality test of the batch: the stage statuses in
    the payload play no part. *)
Theorem stage_order_enforced `{Host} (s : Routes.State) (value : Routes.UpdateInput)
  (c cs : Clock) (io : WriteOutcome) :
  (Routes.success (fst (Routes.updateStatus s (inr value) c cs io)) = true ->
   forall prev,
     Routes.previousStep (Routes.u_step value) = Some prev ->
     exists p a,
       getProvenance (Routes.read (Routes.heap s)) (memory (Routes.service s))
                     (Routes.u_batchID value) c = Some p
       /\ processor p = Some a
       /\ data_stage (Routes.read (Routes.heap s) a) prev = Some completed)
  /\ (forall p prev,
        getProvenance (Routes.read (Routes.heap s)) (memory (Routes.service s))
                      (Routes.u_batchID value) c = Some p ->
        Routes.labVerified (Routes.heap s) p = true ->
        Routes.previousStep (Routes.u_step value) = Some prev ->
        match processor p with
        | Some a => data_stage (Routes.read (Routes.heap s) a) prev
        | None => Some pending
        end <> Some completed ->
        fst (Routes.updateStatus s (inr value) c cs io)
        = Routes.refuse 400
            ("Cannot start " ++ Routes.stageName (Routes.u_step value)
               ++ " before completing " ++ Routes.stageName prev)%string None None
        /\ Routes.service (snd (Routes.updateStatus s (inr value) c cs io))
           = Routes.service s)
  /\ (Routes.previousStep drying = None
      /\ Routes.previousStep grinding = Some drying
      /\ Routes.previousStep packaging = Some grinding)
  /\ (forall p,
        allocated s ->
        getProvenance (Routes.read (Routes.heap s)) (memory (Routes.service s))
                      (Routes.u_batchID value) c = Some p ->
        Routes.labVerified (Routes.heap s) p = true ->
        (forall prev,
            Routes.previousStep (Routes.u_step value) = Some prev ->
            exists a, processor p = Some a
                      /\ data_stage (Routes.read (Routes.heap s) a) prev = Some completed) ->
        Routes.success (fst (Routes.updateStatus s (inr value) c cs Written)) = true
        /\ List.length
             (transactions
                (memory (Routes.service (snd (Routes.updateStatus s (inr value) c cs Written)))))
           = S (List.length (transactions (memory (Routes.service s)))))
  /\ (forall (Obj : Type) (read : Obj -> Payload) (l : Ledger Obj) (tx : Transaction Obj),
        type tx = "processing"%string ->
        (valid (snd (validateTransaction read l tx)) = true
         <-> exists q, In q (transactions l)
                       /\ type q = "quality_test"%string
                       /\ data_batchID (read (data q)) = data_batchID (read (data tx)))).
Proof.
  split; [|split; [|split; [|split]]].
  - intros Hs prev Hprev.
    destruct (updateStatus_success_guard s value c cs io Hs) as [p [Hp [_ Hprevs_ok]]].
    destruct (Hprevs_ok prev Hprev) as [a [Ha Hst]]. exists p, a. auto.
  - intros p prev Hp Hl Hprev Hnot.
    exact (updateStatus_out_of_order s value c cs io Hp Hl Hprev Hnot).
  - repeat split; reflexivity.
  - intros p Hwf Hp Hl Hprevs_ok.
    destruct (updateStatus_in_order value c cs Hwf Hp Hl Hprevs_ok)
      as [r [a [tx [Hr [_ [Htx _]]]]]].
    rewrite Hr, Htx. split; [reflexivity|]. rewrite length_app. simpl. lia.
  - intros Obj read l tx Hty. now apply processing_accepted_iff.
Qed.

(** A ledger on which C6 fails for the service: batch BATCH_ASH_001 is
    collected and tested, no processing is recorded, and a processing
    payload that sets grinding to completed while drying is pending is
    committed; the log grows from three entries to four. *)
Lemma grinding_before_drying_committed :
  let w1 := snd (demoSubmit freshWorld "collection"
                   (collectionAt "BATCH_ASH_001" 26.9124 75.7873) "2000") in
  let w2 := snd (demoSubmit w1 "quality_test"
                   (qualityTestOf "TEST_001" "BATCH_ASH_001" 0.03) "3000") in
  let update := processingOf "PROC_001" "BATCH_ASH_001" pending completed pending in
  List.length (transactions (memory w2)) = 3
  /\ fst (demoSubmit w2 "processing" update "4000")
     = Js.Return {| transactionId := "tx_4000_k3x9q2m7p";
                    status := "COMMITTED";
                    r_hash := "sha256(PROC_001tx_4000_k3x9q2m7p)";
                    r_timestamp := "2025-06-15T08:30:00.000Z" |}
  /\ List.map (@data Payload) (transactions (memory (snd (demoSubmit w2 "processing" update "4000"))))
     = List.map (@data Payload) (transactions (memory w2)) ++ [update].
Proof. vm_compute. repeat split; reflexivity. Qed.

(** C6 in this form, on a collected and tested batch with no processing
    yet: the route refuses a grinding update citing drying, and commits
    a drying update. *)
Lemma stage_order_enforced_witness :
  (fst (demoUpdateStatus testedState "BATCH_ASH_2000" grinding Routes.to_completed "4000")
   = Routes.refuse 400 "Cannot start grinding before completing drying" None None
   /\ Routes.service
        (snd (demoUpdateStatus testedState "BATCH_ASH_2000" grinding Routes.to_completed "4000"))
      = Routes.service testedState)
  /\ (Routes.success
        (fst (demoUpdateStatus testedState "BATCH_ASH_2000" drying Routes.to_completed "4000"))
      = true
      /\ List.length
           (transactions
              (memory
                 (Routes.service
                    (snd (demoUpdateStatus testedState "BATCH_ASH_2000" drying
                            Routes.to_completed "4000")))))
         = S (List.length (transactions (memory (Routes.service testedState))))).
Proof.
  split.
  - refine (proj1 (proj2 (@stage_order_enforced demoHost testedState
                            (demoUpdate "BATCH_ASH_2000" grinding Routes.to_completed)
                            (demoClock "4000") (demoClock "4000") Written))
                  _ drying _ _ _ _).
    + reflexivity.
    + reflexivity.
    + reflexivity.
    + vm_compute. discriminate.
  - eapply (proj1 (proj2 (proj2 (proj2 (@stage_order_enforced demoHost testedState
                                          (demoUpdate "BATCH_ASH_2000" drying Routes.to_completed)
                                          (demoClock "4000") (demoClock "4000") Written))))).
    + intros tx Hin. vm_compute in Hin.
      destruct Hin as [<-|[<-|[<-|[]]]]; vm_compute; lia.
    + reflexivity.
    + reflexivity.
    + intros prev Hprev. discriminate Hprev.
Defined.

(** ** Server states *)

Section ServedFacts.

Context `{Host}.

Lemma keeps_refl (h : list Payload) : keeps h h.
Proof. split; auto. Qed.

Lemma keeps_alloc (h : list Payload) (p : Payload) : keeps h (h ++ [p]).
Proof.
  split.
  - rewrite length_app. simpl. lia.
  - intros x q Hx Hq. now rewrite read_old.
Qed.

Lemma keeps_recordStep (h : list Payload) (a : Routes.address) (st : Stage)
  (n : Routes.NewStatus) (now : string) (notes : option string) :
  keeps h (Routes.store h a (Routes.recordStep (Routes.read h a) st n now notes)).
Proof.
  split.
  - now rewrite store_length.
  - intros x q Hx Hq. destruct (Nat.eq_dec x a) as [->|Hne].
    + rewrite read_store_same by exact Hx. now rewrite Hq.
    + now rewrite read_store_other.
Qed.

Lemma keeps_trans (h1 h2 h3 : list Payload) : keeps h1 h2 -> keeps h2 h3 -> keeps h1 h3.
Proof.
  intros [L12 K12] [L23 K23]. split; [lia|].
  intros x q Hx Hq. apply K23; [lia|]. now apply K12.
Qed.

(** The invariant survives a change of heap that keeps the old one. *)
Lemma invariant_heap (s : Routes.State) (h' : list Payload) :
  allocated s -> testsPassed s -> keeps (Routes.heap s) h' ->
  allocated {| Routes.heap := h'; Routes.service := Routes.service s |}
  /\ testsPassed {| Routes.heap := h'; Routes.service := Routes.service s |}.
Proof.
  intros Hwf Htp [Hlen Hkeep]. split.
  - intros tx Hin. simpl in *. specialize (Hwf tx Hin). lia.
  - intros tx Hin Hty. simpl in *.
    destruct (Htp tx Hin Hty) as [q [Hq Hrest]].
    exists q. split; [|exact Hrest]. apply Hkeep; [now apply Hwf|exact Hq].
Qed.

(** ... and a submission of an object of the new heap, provided a
    quality test that passes the rule is one with its flag set and its
    status PASSED. *)
Lemma invariant_submit (s : Routes.State) (h' : list Payload) (ty : string)
  (a : Routes.address) (e : list string) (c : Clock) (io : WriteOutcome) :
  allocated s -> testsPassed s -> keeps (Routes.heap s) h' ->
  a < List.length h' ->
  (ty = "quality_test"%string ->
   snd (validateQualityTest (Routes.read h' a)) = Js.Return accept ->
   exists q, Routes.read h' a = Quality q /\ verified q = true /\ qt_status q = Some PASSED) ->
  allocated {| Routes.heap := h';
               Routes.service :=
                 snd (submitTransaction (Routes.read h') (Routes.service s) ty a e c io) |}
  /\ testsPassed {| Routes.heap := h';
                    Routes.service :=
                      snd (submitTransaction (Routes.read h') (Routes.service s) ty a e c io) |}.
Proof.
  intros Hwf Htp Hk Ha Hq.
  destruct (invariant_heap Hwf Htp Hk) as [Hwf' Htp'].
  destruct (valid (snd (validateTransaction (Routes.read h') (memory (Routes.service s))
                          (newTransaction (Routes.read h') (memory (Routes.service s))
                             ty a e c)))) eqn:Hv.
  - pose proof (submitTransaction_valid (Routes.read h') (Routes.service s) ty a e c io Hv)
      as Hm.
    split.
    + intros tx Hin. simpl in *. rewrite Hm in Hin. simpl in Hin.
      apply in_app_or in Hin. destruct Hin as [Hin|[<-|[]]]; [now apply Hwf'|exact Ha].
    + intros tx Hin Hty. simpl in *. rewrite Hm in Hin. simpl in Hin.
      apply in_app_or in Hin. destruct Hin as [Hin|[<-|[]]]; [now apply Htp'|].
      simpl in Hty. subst ty.
      rewrite validateTransaction_quality_test in Hv by reflexivity.
      simpl in Hv. apply validateQualityTest_verdict in Hv.
      destruct (Hq eq_refl Hv) as [q [Hrq [Hver Hst]]].
      exists q. simpl. split; [exact Hrq|]. split; [exact Hver|]. split; [exact Hst|].
      now rewrite <- Hrq.
  - rewrite (submitTransaction_invalid (Routes.read h') (Routes.service s) ty a e c io Hv).
    simpl. split; assumption.
Qed.

(** [value.heavyMetals || 0] compares with the limit as the value does. *)
Lemma gt_heavyMetals_or_zero (x : option float) :
  Js.gt (Some (Routes.heavyMetals_or_zero x)) 0.05%float = Js.gt x 0.05%float.
Proof.
  destruct x as [v|]; [|vm_compute; reflexivity].
  unfold Routes.heavyMetals_or_zero.
  destruct (Js.truthy (Some v)) eqn:T; [reflexivity|].
  simpl. destruct (PrimFloat.ltb 0.05%float v) eqn:E.
  - rewrite (above_limit_truthy E) in T. discriminate T.
  - vm_compute. reflexivity.
Qed.

(** The status depends on the measurements through the four tests only. *)
Lemma determineTestStatus_tests (t t' : Routes.TestData) :
  Js.gt (Routes.td_pesticide t) Routes.pesticide_max
  = Js.gt (Routes.td_pesticide t') Routes.pesticide_max ->
  Js.gt (Routes.td_heavyMetals t) Routes.heavyMetals_max
  = Js.gt (Routes.td_heavyMetals t') Routes.heavyMetals_max ->
  Routes.td_moisture t = Routes.td_moisture t' ->
  Routes.v_status (Routes.determineTestStatus t)
  = Routes.v_status (Routes.determineTestStatus t')
  /\ Routes.passed (Routes.determineTestStatus t)
     = Routes.passed (Routes.determineTestStatus t').
Proof.
  intros Ep Eh Em. unfold Routes.determineTestStatus. rewrite Ep, Eh, Em.
  destruct (Js.gt (Routes.td_pesticide t') Routes.pesticide_max);
    destruct (Js.gt (Routes.td_heavyMetals t') Routes.heavyMetals_max);
    destruct (Js.lt (Routes.td_moisture t') Routes.moisture_min
              || Js.gt (Routes.td_moisture t') Routes.moisture_max);
    destruct (Js.lt (Routes.td_moisture t') 5%float
              || Js.gt (Routes.td_moisture t') 25%float);
    split; reflexivity.
Qed.

(** The status the lab route computes from the request is the status of
    the payload it builds. *)
Lemma labUpload_status (value : Routes.QualityTestInput) (q : QualityTest) :
  pesticide q = Routes.qi_pesticide value ->
  qt_moisture q = Routes.qi_moisture value ->
  heavyMetals q = Some (Routes.heavyMetals_or_zero (Routes.qi_heavyMetals value)) ->
  Routes.v_status (Routes.determineTestStatus (Routes.testData_of_payload (Quality q)))
  = Routes.v_status (Routes.determineTestStatus (Routes.testData_of_input value))
  /\ Routes.passed (Routes.determineTestStatus (Routes.testData_of_payload (Quality q)))
     = Routes.passed (Routes.determineTestStatus (Routes.testData_of_input value)).
Proof.
  intros Hp Hm Hh. apply determineTestStatus_tests.
  - simpl. now rewrite Hp.
  - unfold Routes.testData_of_payload, Routes.testData_of_input,
      Routes.td_heavyMetals, data_heavyMetals.
    rewrite Hh. apply gt_heavyMetals_or_zero.
  - simpl. now rewrite Hm.
Qed.

(** The state each route leaves. *)
Lemma farmerUpload_state (s : Routes.State) (value : Routes.CollectionInput)
  (photoFile : option string) (c cs : Clock) (io : WriteOutcome) :
  exists ce,
    snd (Routes.farmerUpload s (inr value) photoFile c cs io)
    = {| Routes.heap := Routes.heap s ++ [Collection ce];
         Routes.service :=
           snd (submitTransaction (Routes.read (Routes.heap s ++ [Collection ce]))
                  (Routes.service s) "collection" (List.length (Routes.heap s)) [] cs io) |}.
Proof.
  cbv beta zeta iota delta [Routes.farmerUpload Routes.alloc].
  match goal with
  | |- context [(Routes.heap s ++ [Collection ?x])%list] => exists x
  end.
  destruct (submitTransaction _ _ _ _ _ cs io) as [[tx|m] w']; reflexivity.
Qed.

Lemma labUpload_state (s : Routes.State) (value : Routes.QualityTestInput)
  (report : option string) (c cs : Clock) (io : WriteOutcome) :
  snd (Routes.labUpload s (inr value) report c cs io) = s
  \/ exists q,
       pesticide q = Routes.qi_pesticide value
       /\ qt_moisture q = Routes.qi_moisture value
       /\ heavyMetals q = Some (Routes.heavyMetals_or_zero (Routes.qi_heavyMetals value))
       /\ verified q
          = Routes.passed (Routes.determineTestStatus (Routes.testData_of_input value))
       /\ qt_status q
          = Some (Routes.v_status (Routes.determineTestStatus (Routes.testData_of_input value)))
       /\ snd (Routes.labUpload s (inr value) report c cs io)
          = {| Routes.heap := Routes.heap s ++ [Quality q];
               Routes.service :=
                 snd (submitTransaction (Routes.read (Routes.heap s ++ [Quality q]))
                        (Routes.service s) "quality_test" (List.length (Routes.heap s))
                        [] cs io) |}.
Proof.
  unfold Routes.labUpload.
  destruct (match getProvenance _ _ _ c with None => true | Some p => _ end);
    [left; reflexivity|right].
  cbv beta zeta iota delta [Routes.alloc].
  match goal with
  | |- context [(Routes.heap s ++ [Quality ?x])%list] => exists x
  end.
  repeat (split; [reflexivity|]).
  destruct (submitTransaction _ _ _ _ _ cs io) as [[tx|m] w']; reflexivity.
Qed.

Lemma updateStatus_state (s : Routes.State) (value : Routes.UpdateInput)
  (c cs : Clock) (io : WriteOutcome) :
  allocated s ->
  exists h',
    keeps (Routes.heap s) h'
    /\ (snd (Routes.updateStatus s (inr value) c cs io)
        = {| Routes.heap := h'; Routes.service := Routes.service s |}
        \/ exists a,
             a < List.length h'
             /\ snd (Routes.updateStatus s (inr value) c cs io)
                = {| Routes.heap := h';
                     Routes.service :=
                       snd (submitTransaction (Routes.read h') (Routes.service s)
                              "processing" a [] cs io) |}).
Proof.
  intros Hwf. unfold Routes.updateStatus.
  destruct (getProvenance _ _ _ c) as [p|] eqn:Hp;
    [|exists (Routes.heap s); split; [apply keeps_refl|left; now destruct s]].
  destruct (Routes.labVerified (Routes.heap s) p); simpl;
    [|exists (Routes.heap s); split; [apply keeps_refl|left; now destruct s]].
  set (fresh := Processing _).
  assert (Hobj : exists a h1,
             match processor p with
             | Some a0 => (a0, Routes.heap s)
             | None => Routes.alloc (Routes.heap s) fresh
             end = (a, h1)
             /\ a < List.length h1 /\ keeps (Routes.heap s) h1).
  { destruct (processor p) as [a0|] eqn:Ea.
    - destruct (processor_in_ledger _ _ _ c Hp Ea) as [t [Hin [_ [Hd _]]]].
      exists a0, (Routes.heap s). split; [reflexivity|]. split; [|apply keeps_refl].
      rewrite <- Hd. now apply Hwf.
    - exists (List.length (Routes.heap s)), (Routes.heap s ++ [fresh]).
      split; [reflexivity|]. split; [|apply keeps_alloc].
      rewrite length_app. simpl. lia. }
  destruct Hobj as [a [h1 [-> [Ha Hk]]]].
  destruct (match Routes.previousStep (Routes.u_step value) with
            | Some prev => _
            | None => false
            end).
  - exists h1. split; [exact Hk|]. left. reflexivity.
  - match goal with
    | |- context [Routes.store h1 a ?d] => exists (Routes.store h1 a d)
    end.
    split; [eapply keeps_trans; [exact Hk|apply keeps_recordStep]|].
    right. exists a. split; [now rewrite store_length|].
    destruct (submitTransaction _ _ _ _ _ cs io) as [[tx|m] w']; reflexivity.
Qed.

Lemma generateQR_state (s : Routes.State) (value : Routes.QRInput)
  (files : Js.Completion unit) (c cs : Clock) (io : WriteOutcome) :
  snd (Routes.generateQR s (inr value) files c cs io) = s
  \/ exists d,
       snd (Routes.generateQR s (inr value) files c cs io)
       = {| Routes.heap := Routes.heap s ++ [d];
            Routes.service :=
              snd (submitTransaction (Routes.read (Routes.heap s ++ [d]))
                     (Routes.service s) "processing" (List.length (Routes.heap s))
                     [] cs io) |}.
Proof.
  unfold Routes.generateQR.
  destruct (getProvenance _ _ _ c) as [p|]; [|left; reflexivity].
  destruct (processor p) as [old|]; [|left; reflexivity].
  destruct (negb _); [left; reflexivity|].
  destruct files as [[]|m]; [|left; reflexivity].
  right. cbv beta zeta iota delta [Routes.alloc].
  match goal with
  | |- context [(Routes.heap s ++ [?x])%list] => exists x
  end.
  destruct (submitTransaction _ _ _ _ _ cs io) as [[tx|m] w']; reflexivity.
Qed.

(** In every server state each payload object is allocated and each
    recorded quality test has passed. *)
Lemma served_invariant (s : Routes.State) :
  served s -> allocated s /\ testsPassed s.
Proof.
  intros Hs. induction Hs as [c io|s v photoFile c cs io Hs [Hwf Htp]
                              |s v report c cs io Hs [Hwf Htp]
                              |s v c cs io Hs [Hwf Htp]
                              |s v files c cs io Hs [Hwf Htp]].
  - split.
    + intros tx Hin. destruct io; simpl in *; destruct Hin as [<-|[]]; simpl; lia.
    + intros tx Hin Hty. destruct io; simpl in *; destruct Hin as [<-|[]];
        discriminate Hty.
  - destruct v as [det|value]; [auto|].
    destruct (farmerUpload_state s value photoFile c cs io) as [ce ->].
    apply invariant_submit; auto using keeps_alloc.
    + rewrite length_app. simpl. lia.
    + discriminate.
  - destruct v as [det|value]; [auto|].
    destruct (labUpload_state s value report c cs io)
      as [->|[q [Hp [Hm [Hh [Hver [Hst ->]]]]]]]; [auto|].
    apply invariant_submit; auto using keeps_alloc.
    + rewrite length_app. simpl. lia.
    + intros _ Hv. rewrite read_new in *. exists q. split; [reflexivity|].
      apply validateQualityTest_PASSED in Hv.
      destruct (labUpload_status value q Hp Hm Hh) as [Es Ep].
      rewrite Hver, Hst, <- Ep, <- Es, Hv. split; [|reflexivity].
      apply PASSED_passed. exact Hv.
  - destruct v as [det|value]; [auto|].
    destruct (updateStatus_state value c cs io Hwf) as [h' [Hk [->|[a [Ha ->]]]]].
    + now apply invariant_heap.
    + apply invariant_submit; auto. discriminate.
  - destruct v as [det|value]; [auto|].
    destruct (generateQR_state s value files c cs io) as [->|[d ->]]; [auto|].
    apply invariant_submit; auto using keeps_alloc.
    + rewrite length_app. simpl. lia.
    + discriminate.
Qed.

End ServedFacts.

(** C5.  In a ledger reachable from the freshly initialized one, a
    processing transaction is committed only if the ledger already holds
    a quality test of the same batch whose derived status is passed; if
    the ledger holds no quality test of that batch the submission is
    refused, with the state unchanged.  The processor route refuses a
    stage update when the bundle's lab is missing or not verified; in a
    server state, a stage update that succeeds has behind it a recorded
    quality test of the batch whose [verified] flag is set and whose
    status, as stored and as derived from its measurements, is passed. *)
Theorem processing_requires_passed_test `{Host} :
  (forall (w : World Payload) (d : Payload) (e : list string) (c : Clock)
          (io : WriteOutcome) (r : Receipt) (w' : World Payload),
      reachable w ->
      submitTransaction (fun p => p) w "processing" d e c io = (Js.Return r, w') ->
      exists q,
        In q (transactions (memory w))
        /\ type q = "quality_test"%string
        /\ data_batchID (data q) = data_batchID d
        /\ Routes.passed (Routes.determineTestStatus (Routes.testData_of_payload (data q)))
           = true)
  /\ (forall (Obj : Type) (read : Obj -> Payload) (w : World Obj) (d : Obj)
             (e : list string) (c : Clock) (io : WriteOutcome),
        (forall q, In q (transactions (memory w)) ->
                   type q = "quality_test"%string ->
                   data_batchID (read (data q)) <> data_batchID (read d)) ->
        submitTransaction read w "processing" d e c io
        = (Js.Throw "Transaction validation failed: Cannot process batch without quality verification",
           w))
  /\ (forall (s : Routes.State) (value : Routes.UpdateInput) (c cs : Clock)
             (io : WriteOutcome) (p : Provenance Routes.address),
        getProvenance (Routes.read (Routes.heap s)) (memory (Routes.service s))
                      (Routes.u_batchID value) c = Some p ->
        Routes.labVerified (Routes.heap s) p = false ->
        Routes.updateStatus s (inr value) c cs io
        = (Routes.refuse 400 "Cannot process batch without quality verification" None None,
           s))
  /\ (forall (s : Routes.State) (value : Routes.UpdateInput) (c cs : Clock)
             (io : WriteOutcome),
        served s ->
        Routes.success (fst (Routes.updateStatus s (inr value) c cs io)) = true ->
        exists tx q,
          In tx (transactions (memory (Routes.service s)))
          /\ type tx = "quality_test"%string
          /\ Routes.read (Routes.heap s) (data tx) = Quality q
          /\ qt_batchID q = Routes.u_batchID value
          /\ verified q = true
          /\ qt_status q = Some PASSED
          /\ Routes.passed
               (Routes.determineTestStatus (Routes.testData_of_payload (Quality q)))
             = true).
Proof.
  split; [|split; [|split]].
  - intros w d e c io r w' Hr E.
    assert (Hv : valid (snd (validateTransaction (fun p => p) (memory w)
                               (newTransaction (fun p => p) (memory w) "processing" d e c)))
                 = true).
    { destruct (submitTransaction_cases (fun p => p) w "processing" d e c io)
        as [[_ Hs]|[[Hv _]|[Hv _]]]; [|exact Hv|exact Hv].
      rewrite Hs in E. discriminate E. }
    apply processing_accepted_iff in Hv; [|reflexivity].
    destruct Hv as [q [Hin [Hty Hb]]]. exists q. repeat split; auto.
    apply PASSED_passed. apply validateQualityTest_PASSED.
    exact (reachable_quality_tests_valid Hr q Hin Hty).
  - intros Obj read w d e c io Hnone.
    assert (Hv : valid (snd (validateTransaction read (memory w)
                               (newTransaction read (memory w) "processing" d e c)))
                 = false).
    { destruct (valid _) eqn:Hv; [|reflexivity].
      apply processing_accepted_iff in Hv; [|reflexivity].
      destruct Hv as [q [Hin [Hty Hb]]]. exfalso. exact (Hnone q Hin Hty Hb). }
    rewrite submitTransaction_invalid by exact Hv.
    rewrite validateTransaction_processing in * by reflexivity.
    destruct (List.find _ (transactions (memory w))); [discriminate Hv|reflexivity].
  - intros s value c cs io p Hp Hl. exact (updateStatus_unverified s value c cs io Hp Hl).
  - intros s value c cs io Hserved Hok.
    destruct (served_invariant Hserved) as [_ Htp].
    destruct (updateStatus_success_guard s value c cs io Hok) as [p [Hp [Hl _]]].
    unfold Routes.labVerified in Hl. destruct (lab p) as [a|] eqn:El; [|discriminate Hl].
    destruct (lab_in_ledger _ _ _ c Hp El) as [tx [Hin [Hty [_ Hb]]]].
    destruct (Htp tx Hin Hty) as [q [Hq [Hver [Hst Hrule]]]].
    exists tx, q. rewrite Hq in Hb. simpl in Hb. injection Hb as Hb.
    repeat split; auto.
    apply PASSED_passed. now apply validateQualityTest_PASSED.
Qed.

(** C5 on a reachable ledger: with the batch collected and tested,
    processing is committed and the test behind it has passed; on the
    fresh ledger it is refused. *)
Lemma processing_requires_passed_test_witness :
  let w1 := snd (demoSubmit freshWorld "collection"
                   (collectionAt "BATCH_ASH_001" 26.9124 75.7873) "2000") in
  let w2 := snd (demoSubmit w1 "quality_test"
                   (qualityTestOf "TEST_001" "BATCH_ASH_001" 0.03) "3000") in
  let p1 := processingOf "PROC_001" "BATCH_ASH_001" completed pending pending in
  (exists q,
      In q (transactions (memory w2))
      /\ type q = "quality_test"%string
      /\ data_batchID (data q) = data_batchID p1
      /\ Routes.passed (Routes.determineTestStatus (Routes.testData_of_payload (data q)))
         = true)
  /\ demoSubmit freshWorld "processing" p1 "2000"
     = (Js.Throw "Transaction validation failed: Cannot process batch without quality verification",
        freshWorld)
  /\ (exists tx q,
        In tx (transactions (memory (Routes.service testedState)))
        /\ type tx = "quality_test"%string
        /\ Routes.read (Routes.heap testedState) (data tx) = Quality q
        /\ qt_batchID q = "BATCH_ASH_2000"%string
        /\ verified q = true
        /\ qt_status q = Some PASSED
        /\ Routes.passed
             (Routes.determineTestStatus (Routes.testData_of_payload (Quality q)))
           = true).
Proof.
  intros w1 w2 p1.
  destruct (@processing_requires_passed_test demoHost) as [Honly [Hnone [_ Hserved]]].
  split; [|split].
  - eapply (Honly w2 p1 [] (demoClock "4000") Written).
    + unfold w2, w1, demoSubmit, freshWorld.
      apply (@reach_submit demoHost). apply (@reach_submit demoHost).
      apply (@reach_init demoHost).
    + reflexivity.
  - apply (Hnone Payload (fun p => p) freshWorld p1 [] (demoClock "2000") Written).
    intros q Hin Hty. vm_compute in Hin. destruct Hin as [<-|[]].
    vm_compute in Hty. discriminate Hty.
  - apply (Hserved testedState (demoUpdate "BATCH_ASH_2000" drying Routes.to_completed)
             (demoClock "4000") (demoClock "4000") Written).
    + unfold testedState, demoLabUpload, demoFarmerUpload, freshWorld.
      apply (@served_lab demoHost). apply (@served_farmer demoHost).
      apply (@served_boot demoHost).
    + vm_compute. reflexivity.
Defined.


(** ** Stage updates work on the committed object *)

Section InPlace.

Context `{Host}.


End InPlace.



(** ** The bundle shows the first record, for good *)

Lemma find_app_some (A : Type) (f : A -> bool) (l l' : list A) (x : A) :
  List.find f l = Some x -> List.find f (l ++ l') = Some x.
Proof.
  induction l as [|y l IH]; simpl; [discriminate|].
  destruct (f y); [auto|exact IH].
Qed.

(** X2.  Once the bundle of a batch shows a quality test or a processing
    record, no transaction appended later changes which one it shows:
    an updated record, such as the copy with the QR reference that
    generate-qr appends, never reaches the bundle. *)
Theorem getProvenance_first_record_stays `{Host} (Obj : Type) (read : Obj -> Payload)
  (l : Ledger Obj) (b : string) (c c' : Clock) (tx : Transaction Obj)
  (p : Provenance Obj) :
  getProvenance read l b c = Some p ->
  exists p',
    getProvenance read (push l tx) b c' = Some p'
    /\ (forall a, lab p = Some a -> lab p' = Some a)
    /\ (forall a, processor p = Some a -> processor p' = Some a).
Proof.
  intros Hp.
  destruct (getProvenance read (push l tx) b c') as [p'|] eqn:Hp'.
  - exists p'. split; [reflexivity|].
    destruct (getProvenance_some read l b c Hp) as [_ [Hl [Hr _]]].
    destruct (getProvenance_some read (push l tx) b c' Hp') as [_ [Hl' [Hr' _]]].
    simpl in Hl', Hr'. split; intros a Ha.
    + rewrite Hl in Ha. rewrite Hl'.
      destruct (List.find _ (transactions l)) as [q|] eqn:F; [|simpl in Ha; discriminate Ha].
      now rewrite (find_app_some _ _ [tx] F).
    + rewrite Hr in Ha. rewrite Hr'. clear Hl Hl'.
      destruct (List.find _ (transactions l)) as [q|] eqn:F; [|simpl in Ha; discriminate Ha].
      now rewrite (find_app_some _ _ [tx] F).
  - exfalso. rewrite getProvenance_none in Hp'.
    assert (Hn : getProvenance read l b c = None).
    { apply getProvenance_none. intros t Hin. apply Hp'. simpl.
      apply in_or_app. now left. }
    congruence.
Qed.

(** On the tested and fully processed batch, generate-qr succeeds and
    appends a processing record with the QR reference (object 4); the
    bundle still shows the first processing object (3), without it, and
    the dashboard's [qrGenerated] flag stays false. *)
Lemma getProvenance_first_record_stays_witness :
  let s1 := snd (demoUpdateStatus testedState "BATCH_ASH_2000" drying Routes.to_completed "4000") in
  let s2 := snd (demoUpdateStatus s1 "BATCH_ASH_2000" grinding Routes.to_completed "5000") in
  let s3 := snd (demoUpdateStatus s2 "BATCH_ASH_2000" packaging Routes.to_completed "6000") in
  let qr := @Routes.generateQR demoHost s3
              (inr {| Routes.q_batchID := "BATCH_ASH_2000";
                      Routes.q_processorId := "PROC_HWC_001" |})
              (Js.Return tt) (demoClock "7000") (demoClock "7000") Written in
  Routes.success (fst qr) = true
  /\ List.map (@data Routes.address) (transactions (memory (Routes.service (snd qr))))
     = [0; 1; 2; 3; 3; 3; 4]
  /\ data_qrCode (Routes.read (Routes.heap (snd qr)) 4)
     = Some "/uploads/qr-codes/qr_BATCH_ASH_2000_7000.png"%string
  /\ (exists p',
        @getProvenance demoHost _ (Routes.read (Routes.heap (snd qr)))
          (memory (Routes.service (snd qr))) "BATCH_ASH_2000" (demoClock "8000") = Some p'
        /\ processor p' = Some 3
        /\ Routes.qrGenerated (Routes.heap (snd qr)) p' = false).
Proof.
  intros s1 s2 s3 qr.
  split; [vm_compute; reflexivity|]. split; [vm_compute; reflexivity|].
  split; [vm_compute; reflexivity|].
  assert (Hstate : exists tx,
             memory (Routes.service (snd qr)) = push (memory (Routes.service s3)) tx).
  { eexists. vm_compute. reflexivity. }
  destruct Hstate as [tx Hm].
  assert (Hp : exists p,
             @getProvenance demoHost _ (Routes.read (Routes.heap (snd qr)))
               (memory (Routes.service s3)) "BATCH_ASH_2000" (demoClock "6500") = Some p
             /\ processor p = Some 3).
  { eexists. split; vm_compute; reflexivity. }
  destruct Hp as [p [Hp Hproc]].
  destruct (@getProvenance_first_record_stays demoHost _
              (Routes.read (Routes.heap (snd qr))) (memory (Routes.service s3))
              "BATCH_ASH_2000" (demoClock "6500") (demoClock "8000") tx p Hp)
    as [p' [Hp' [_ Hkeep]]].
  exists p'. rewrite Hm. split; [exact Hp'|].
  pose proof (Hkeep 3 Hproc) as H3. split; [exact H3|].
  unfold Routes.qrGenerated. rewrite H3. vm_compute. reflexivity.
Defined.

(** * Further properties of the code *)

(** ** Persistence *)


(** X3.  A failed ledger write does not undo the commit.  When
    validation passes and [fs.writeFile] fails, [submitTransaction]
    throws the write error, yet the transaction it pushed stays in the
    in-memory ledger, while the file is as the failed write left it; the
    next successful submission chains onto that transaction and writes
    both to the file. *)
Theorem failed_write_keeps_transaction `{Host} (Obj : Type) (read : Obj -> Payload)
  (w : World Obj) (ty : string) (d : Obj) (e : list string) (c : Clock)
  (m : string) (residue : option (Ledger Payload)) :
  valid (snd (validateTransaction read (memory w)
                (newTransaction read (memory w) ty d e c))) = true ->
  let tx := newTransaction read (memory w) ty d e c in
  let w1 := {| memory := push (memory w) tx; file := residue |} in
  submitTransaction read w ty d e c (WriteError m residue) = (Js.Throw m, w1)
  /\ forall ty' d' e' c' r w2,
       submitTransaction read w1 ty' d' e' c' Written = (Js.Return r, w2) ->
       exists tx',
         transactions (memory w2) = transactions (memory w) ++ [tx; tx']
         /\ previousHash tx' = hash tx
         /\ file w2 = Some (serialize read (memory w2)).
Proof.
  intros Hv tx w1. split.
  - destruct (submitTransaction_cases read w ty d e c (WriteError m residue))
      as [[Hf _]|[[_ [Hio _]]|[_ [m' [res' [Hio Hs]]]]]].
    + fold tx in Hv. unfold tx in Hv. congruence.
    + discriminate Hio.
    + injection Hio as <- <-. exact Hs.
  - intros ty' d' e' c' r w2 Hs.
    destruct (submitTransaction_cases read w1 ty' d' e' c' Written)
      as [[_ Hf]|[[_ [_ Hok]]|[_ [m' [res' [Hio _]]]]]].
    + rewrite Hf in Hs. discriminate Hs.
    + rewrite Hok in Hs. injection Hs as _ <-.
      exists (newTransaction read (memory w1) ty' d' e' c'). simpl.
      split; [now rewrite <- app_assoc|]. split; [|reflexivity].
      apply getLastTransactionHash_last.
    + discriminate Hio.
Qed.

(** A collection whose write fails with ENOSPC: the caller gets the
    error, the file still holds the genesis transaction alone, and the
    quality test submitted next follows the collection in the log. *)
Lemma failed_write_keeps_transaction_witness :
  let d := collectionAt "BATCH_ASH_001" 26.9124 75.7873 in
  let tx := @newTransaction demoHost _ (fun p => p) (memory freshWorld) "collection" d []
              (demoClock "2000") in
  let w1 := {| memory := push (memory freshWorld) tx; file := file freshWorld |} in
  @submitTransaction demoHost _ (fun p => p) freshWorld "collection" d [] (demoClock "2000")
    (WriteError "ENOSPC: no space left on device" (file freshWorld))
  = (Js.Throw "ENOSPC: no space left on device", w1)
  /\ option_map (fun l => List.length (transactions l)) (file w1) = Some 1
  /\ exists tx',
       transactions
         (memory (snd (demoSubmit w1 "quality_test"
                         (qualityTestOf "TEST_001" "BATCH_ASH_001" 0.03) "3000")))
       = transactions (memory freshWorld) ++ [tx; tx']
       /\ previousHash tx' = hash tx.
Proof.
  intros d tx w1.
  destruct (@failed_write_keeps_transaction demoHost Payload (fun p => p) freshWorld
              "collection" d [] (demoClock "2000") "ENOSPC: no space left on device"
              (file freshWorld)) as [H1 H2].
  - vm_compute. reflexivity.
  - split; [exact H1|]. split; [vm_compute; reflexivity|].
    destruct (H2 "quality_test" (qualityTestOf "TEST_001" "BATCH_ASH_001" 0.03) []
                 (demoClock "3000")
                 (match fst (demoSubmit w1 "quality_test"
                               (qualityTestOf "TEST_001" "BATCH_ASH_001" 0.03) "3000") with
                  | Js.Return r => r
                  | Js.Throw _ => {| transactionId := ""; status := ""; r_hash := "";
                                     r_timestamp := "" |}
                  end)
                 (snd (demoSubmit w1 "quality_test"
                         (qualityTestOf "TEST_001" "BATCH_ASH_001" 0.03) "3000")))
      as [tx' [E1 [E2 _]]].
    + vm_compute. reflexivity.
    + exists tx'. split; [exact E1|exact E2].
Defined.



(** ** Statistics *)

Lemma filter_snoc (A : Type) (f : A -> bool) (l : list A) (x : A) :
  List.filter f (l ++ [x]) = List.filter f l ++ (if f x then [x] else []).
Proof. rewrite filter_app. reflexivity. Qed.

Lemma filter_step (A : Type) (f : A -> bool) (x : A) (l : list A) :
  List.filter f (x :: l) = if f x then x :: List.filter f l else List.filter f l.
Proof. reflexivity. Qed.

Lemma count_types (Obj : Type) (txs : list (Transaction Obj)) :
  List.length (List.filter (hasType "collection") txs)
  + List.length (List.filter (hasType "quality_test") txs)
  + List.length (List.filter (hasType "processing") txs)
  + List.length (List.filter (fun tx => negb (hasType "collection" tx)
                                        && negb (hasType "quality_test" tx)
                                        && negb (hasType "processing" tx)) txs)
  = List.length txs.
Proof.
  induction txs as [|tx txs IH]; [reflexivity|].
  rewrite !filter_step.
  destruct (hasType "collection" tx) eqn:E1, (hasType "quality_test" tx) eqn:E2,
           (hasType "processing" tx) eqn:E3;
    cbn [negb andb List.length]; try lia;
    unfold hasType in E1, E2, E3;
    repeat match goal with
           | E : String.eqb _ _ = true |- _ => apply String.eqb_eq in E
           end;
    congruence.
Qed.

Lemma last_cons_default (A : Type) (l : list A) (a d : A) :
  List.last (a :: l) d = List.last l a.
Proof.
  revert a d. induction l as [|b l IH]; intros a d; [reflexivity|].
  change (List.last (a :: b :: l) d) with (List.last (b :: l) d).
  rewrite IH. symmetry. apply IH.
Qed.

Lemma lastTransaction_push (Obj : Type) (l : Ledger Obj) (tx : Transaction Obj) :
  lastTransaction (getStats (push l tx)) = Some (tx_timestamp tx).
Proof.
  unfold getStats, push. cbn [lastTransaction transactions].
  destruct (transactions l ++ [tx]) as [|t rest] eqn:E.
  - destruct (transactions l); discriminate E.
  - rewrite <- (last_cons_default rest t t), <- E, last_app_one. reflexivity.
Qed.

Lemma count_push (Obj : Type) (ty : string) (l : Ledger Obj) (tx : Transaction Obj) :
  List.length (List.filter (hasType ty) (transactions (push l tx)))
  = List.length (List.filter (hasType ty) (transactions l))
    + (if String.eqb (type tx) ty then 1 else 0).
Proof.
  cbn [push transactions]. rewrite filter_snoc, length_app. unfold hasType at 2.
  now destruct (String.eqb (type tx) ty).
Qed.

(** X5.  [getStats].  The counts of collections, quality tests and
    processing steps together never exceed the total;
    [lastTransaction] is null exactly on an empty log; a successful
    [submitTransaction] raises the total by one, raises the count of
    its own type only, and makes [lastTransaction] the timestamp of its
    receipt. *)
Theorem getStats_counts `{Host} (Obj : Type) (read : Obj -> Payload) (w : World Obj) :
  (collectionEvents (getStats (memory w)) + qualityTests (getStats (memory w))
   + processingSteps (getStats (memory w)) <= totalTransactions (getStats (memory w)))
  /\ (lastTransaction (getStats (memory w)) = None
      <-> totalTransactions (getStats (memory w)) = 0)
  /\ forall ty d e c io r w',
       submitTransaction read w ty d e c io = (Js.Return r, w') ->
       totalTransactions (getStats (memory w')) = S (totalTransactions (getStats (memory w)))
       /\ lastTransaction (getStats (memory w')) = Some (r_timestamp r)
       /\ collectionEvents (getStats (memory w'))
          = collectionEvents (getStats (memory w))
            + (if String.eqb ty "collection" then 1 else 0)
       /\ qualityTests (getStats (memory w'))
          = qualityTests (getStats (memory w))
            + (if String.eqb ty "quality_test" then 1 else 0)
       /\ processingSteps (getStats (memory w'))
          = processingSteps (getStats (memory w))
            + (if String.eqb ty "processing" then 1 else 0).
Proof.
  split; [|split].
  - unfold getStats. simpl. pose proof (count_types (transactions (memory w))). lia.
  - unfold getStats. simpl. destruct (transactions (memory w)); simpl; split; congruence.
  - intros ty d e c io r w' Hs.
    destruct (submitTransaction_cases read w ty d e c io)
      as [[_ Hf]|[[_ [_ Hok]]|[_ [m' [res' [_ Hf]]]]]];
      try (rewrite Hf in Hs; discriminate Hs).
    rewrite Hok in Hs. injection Hs as <- <-.
    cbn [memory r_timestamp].
    split; [cbn; rewrite length_app; simpl; lia|].
    split; [apply lastTransaction_push|].
    unfold getStats. cbn [collectionEvents qualityTests processingSteps].
    rewrite !count_push. cbn [newTransaction type]. auto.
Qed.

(** The fresh ledger counts the genesis transaction only; after a
    collection the total is 2 and one collection is counted. *)
Lemma getStats_counts_witness :
  let w := freshWorld in
  let sub := demoSubmit w "collection" (collectionAt "BATCH_ASH_001" 26.9124 75.7873) "2000" in
  getStats (memory w)
  = {| totalTransactions := 1; collectionEvents := 0; qualityTests := 0;
       processingSteps := 0; lastTransaction := Some "2025-06-15T08:30:00.000Z" |}
  /\ totalTransactions (getStats (memory (snd sub))) = 2
  /\ collectionEvents (getStats (memory (snd sub))) = 1.
Proof.
  intros w sub. split; [vm_compute; reflexivity|].
  destruct (@getStats_counts demoHost Payload (fun p => p) w) as [_ [_ Hc]].
  destruct (Hc "collection" (collectionAt "BATCH_ASH_001" 26.9124 75.7873) []
               (demoClock "2000") Written
               {| transactionId := "tx_2000_k3x9q2m7p"; status := "COMMITTED";
                  r_hash := "sha256(BATCH_ASH_001tx_2000_k3x9q2m7p)";
                  r_timestamp := "2025-06-15T08:30:00.000Z" |} (snd sub))
    as [Ht [_ [Hcol _]]].
  - vm_compute. reflexivity.
  - split; [exact Ht|exact Hcol].
Defined.

(** ** The bundle *)

Lemma farmer_in_ledger `{Host} (Obj : Type) (read : Obj -> Payload) (l : Ledger Obj)
  (b : string) (c : Clock) (p : Provenance Obj) (a : Obj) :
  getProvenance read l b c = Some p ->
  farmer p = Some a ->
  exists tx, In tx (transactions l) /\ collects read b tx
             /\ data tx = a /\ blockchainHash p = Some (hash tx).
Proof.
  unfold getProvenance.
  destruct (List.length (List.filter (concerns read b) (transactions l)) =? 0)%nat;
    [discriminate|].
  intros Hp. injection Hp as <-. cbn. intros Ha.
  destruct (List.find (hasType "collection") _) as [tx|] eqn:F; [|discriminate Ha].
  injection Ha as <-. apply find_some in F. destruct F as [Hin Hty].
  apply filter_In in Hin. destruct Hin as [Hin Hc].
  exists tx. split; [exact Hin|]. split; [|split; reflexivity].
  apply concerns_collection. now rewrite Hc, Hty.
Qed.

(** X6.  The fields of a bundle agree.  In what [getProvenance] returns,
    [batchID] is the batch asked for, [qrCode] is the customer URL of
    [generateQRData], [isVerified] holds exactly when both [lab] and
    [processor] are present, [blockchainHash] is null exactly when
    [farmer] is, and is then the hash of the very collection
    transaction whose data [farmer] shows; [transactionCount] is at
    least 1 and at most the length of the log. *)
Theorem bundle_fields_agree `{Host} (Obj : Type) (read : Obj -> Payload) (l : Ledger Obj)
  (b : string) (c : Clock) (p : Provenance Obj) :
  getProvenance read l b c = Some p ->
  batchID p = b
  /\ qrCodeUrl p = generateQRData b
  /\ (isVerified p = true <-> lab p <> None /\ processor p <> None)
  /\ (blockchainHash p = None <-> farmer p = None)
  /\ (forall a, farmer p = Some a ->
        exists tx, In tx (transactions l) /\ collects read b tx
                   /\ data tx = a /\ blockchainHash p = Some (hash tx))
  /\ 1 <= transactionCount p <= List.length (transactions l).
Proof.
  intros Hp.
  assert (Hfar : forall a, farmer p = Some a ->
            exists tx, In tx (transactions l) /\ collects read b tx
                       /\ data tx = a /\ blockchainHash p = Some (hash tx)).
  { intros a Ha. exact (farmer_in_ledger read l b c Hp Ha). }
  revert Hp Hfar.
  unfold getProvenance.
  destruct (List.length (List.filter (concerns read b) (transactions l)) =? 0)%nat eqn:E;
    [discriminate|].
  intros Hp. injection Hp as <-. cbn. intros Hfar.
  apply Nat.eqb_neq in E.
  split; [reflexivity|]. split; [reflexivity|]. split; [|split; [|split]].
  - destruct (List.find (hasType "quality_test") _), (List.find (hasType "processing") _);
      cbn; split; try discriminate; try (intros [A B]; congruence); auto.
    split; discriminate.
  - destruct (List.find (hasType "collection") _); cbn; split; congruence.
  - exact Hfar.
  - split; [lia|]. apply filter_length_le.
Qed.

(** A batch collected and tested, not yet processed. *)
Lemma bundle_fields_agree_witness :
  let w1 := snd (demoSubmit freshWorld "collection"
                   (collectionAt "BATCH_ASH_001" 26.9124 75.7873) "2000") in
  let w2 := snd (demoSubmit w1 "quality_test"
                   (qualityTestOf "TEST_001" "BATCH_ASH_001" 0.03) "3000") in
  exists p,
    @getProvenance demoHost _ (fun p => p) (memory w2) "BATCH_ASH_001" (demoClock "4000")
    = Some p
    /\ qrCodeUrl p = "http://localhost:5000/api/customer/batch/BATCH_ASH_001"%string
    /\ isVerified p = false
    /\ blockchainHash p = Some "sha256(BATCH_ASH_001tx_2000_k3x9q2m7p)"%string
    /\ 1 <= transactionCount p <= 3.
Proof.
  intros w1 w2.
  destruct (@getProvenance demoHost _ (fun p => p) (memory w2) "BATCH_ASH_001"
              (demoClock "4000")) as [p|] eqn:Hp; [|vm_compute in Hp; discriminate Hp].
  exists p. split; [reflexivity|].
  destruct (@bundle_fields_agree demoHost _ (fun p => p) (memory w2) "BATCH_ASH_001"
              (demoClock "4000") p Hp) as [_ [Hq [_ [_ [_ Hn]]]]].
  split; [exact Hq|].
  vm_compute in Hp. injection Hp as <-.
  split; [reflexivity|]. split; [reflexivity|]. exact Hn.
Defined.

(** X7.  [getAllBatches] and [getProvenance] agree on what a batch is:
    an id is the [id] of some object [getAllBatches] lists exactly when
    [getProvenance] of that id returns a bundle with a farmer, and that
    farmer is one of the listed objects.  So the callers that take
    [getProvenance(batch.id)] for a listed batch never get null. *)
Theorem listed_batches_have_bundles `{Host} (Obj : Type) (read : Obj -> Payload)
  (l : Ledger Obj) (b : string) (c : Clock) :
  (exists a, In a (getAllBatches l) /\ data_id (read a) = Some b)
  <-> (exists p a, getProvenance read l b c = Some p
                   /\ farmer p = Some a
                   /\ In a (getAllBatches l)
                   /\ data_id (read a) = Some b).
Proof.
  split.
  - intros [a [Hin Hid]]. unfold getAllBatches in Hin.
    apply in_map_iff in Hin. destruct Hin as [tx [<- Hin]].
    apply filter_In in Hin. destruct Hin as [Hin Hty].
    assert (Hc : collects read b tx).
    { split; [now apply String.eqb_eq|exact Hid]. }
    destruct (getProvenance read l b c) as [p|] eqn:Hp.
    + destruct (farmer p) as [a|] eqn:Hf.
      * destruct (farmer_in_ledger read l b c Hp Hf) as [t [Hint [[Hty' Hid'] [<- _]]]].
        exists p, (data t). split; [reflexivity|]. split; [exact Hf|].
        split; [|exact Hid'].
        apply in_map. apply filter_In. split; [exact Hint|now apply String.eqb_eq].
      * exfalso. apply (proj1 (farmer_none read l b c Hp) Hf tx Hin Hc).
    + exfalso. rewrite getProvenance_none in Hp. specialize (Hp tx Hin).
      apply concerns_collection in Hc. rewrite Hp in Hc. discriminate Hc.
  - intros [p [a [_ [_ [Hin Hid]]]]]. exists a. split; assumption.
Qed.

(** ** Order facts on binary64 numbers *)

Lemma SFcompare_le_trans (a b c : spec_float) :
  SFleb a b = true -> SFleb b c = true -> SFleb a c = true.
Proof.
  unfold SFleb, SFcompare.
  destruct a as [sa|sa| |sa ma ea], b as [sb|sb| |sb mb eb], c as [sc|sc| |sc mc ec];
    try discriminate; try reflexivity;
    repeat match goal with s : bool |- _ => destruct s end;
    try discriminate; try reflexivity; cbn;
    destruct (Z.compare_spec ea eb), (Z.compare_spec eb ec), (Z.compare_spec ea ec);
    try discriminate; try reflexivity; try lia; subst;
    rewrite ?Pos.compare_cont_spec; cbn;
    destruct (Pos.compare_spec ma mb), (Pos.compare_spec mb mc), (Pos.compare_spec ma mc);
    cbn; try discriminate; try reflexivity; try lia.
Qed.

Lemma SFcompare_lt_le_trans (a b c : spec_float) :
  SFltb a b = true -> SFleb b c = true -> SFltb a c = true.
Proof.
  unfold SFleb, SFltb, SFcompare.
  destruct a as [sa|sa| |sa ma ea], b as [sb|sb| |sb mb eb], c as [sc|sc| |sc mc ec];
    try discriminate; try reflexivity;
    repeat match goal with s : bool |- _ => destruct s end;
    try discriminate; try reflexivity; cbn;
    destruct (Z.compare_spec ea eb), (Z.compare_spec eb ec), (Z.compare_spec ea ec);
    try discriminate; try reflexivity; try lia; subst;
    rewrite ?Pos.compare_cont_spec; cbn;
    destruct (Pos.compare_spec ma mb), (Pos.compare_spec mb mc), (Pos.compare_spec ma mc);
    cbn; try discriminate; try reflexivity; try lia.
Qed.

Lemma SFcompare_le_lt_trans (a b c : spec_float) :
  SFleb a b = true -> SFltb b c = true -> SFltb a c = true.
Proof.
  unfold SFleb, SFltb, SFcompare.
  destruct a as [sa|sa| |sa ma ea], b as [sb|sb| |sb mb eb], c as [sc|sc| |sc mc ec];
    try discriminate; try reflexivity;
    repeat match goal with s : bool |- _ => destruct s end;
    try discriminate; try reflexivity; cbn;
    destruct (Z.compare_spec ea eb), (Z.compare_spec eb ec), (Z.compare_spec ea ec);
    try discriminate; try reflexivity; try lia; subst;
    rewrite ?Pos.compare_cont_spec; cbn;
    destruct (Pos.compare_spec ma mb), (Pos.compare_spec mb mc), (Pos.compare_spec ma mc);
    cbn; try discriminate; try reflexivity; try lia.
Qed.

(** Two numbers, neither NaN, compare one way or the other. *)
Lemma SFcompare_total (a b : spec_float) :
  a <> S754_nan -> b <> S754_nan -> SFltb a b = false -> SFleb b a = true.
Proof.
  unfold SFleb, SFltb, SFcompare.
  destruct a as [sa|sa| |sa ma ea], b as [sb|sb| |sb mb eb];
    try congruence; try reflexivity;
    repeat match goal with s : bool |- _ => destruct s end;
    try discriminate; try reflexivity; cbn; intros _ _;
    destruct (Z.compare_spec ea eb), (Z.compare_spec eb ea);
    try discriminate; try reflexivity; try lia; subst;
    rewrite ?Pos.compare_cont_spec; cbn;
    destruct (Pos.compare_spec ma mb), (Pos.compare_spec mb ma);
    cbn; try discriminate; try reflexivity; try lia.
Qed.

Lemma leb_trans (a b c : float) :
  PrimFloat.leb a b = true -> PrimFloat.leb b c = true -> PrimFloat.leb a c = true.
Proof. rewrite !leb_spec. apply SFcompare_le_trans. Qed.

Lemma ltb_leb_trans (a b c : float) :
  PrimFloat.ltb a b = true -> PrimFloat.leb b c = true -> PrimFloat.ltb a c = true.
Proof. rewrite !ltb_spec, !leb_spec. apply SFcompare_lt_le_trans. Qed.

Lemma leb_ltb_trans (a b c : float) :
  PrimFloat.leb a b = true -> PrimFloat.ltb b c = true -> PrimFloat.ltb a c = true.
Proof. rewrite !ltb_spec, !leb_spec. apply SFcompare_le_lt_trans. Qed.

Lemma is_nan_spec (v : float) : PrimFloat.is_nan v = false -> Prim2SF v <> S754_nan.
Proof.
  unfold PrimFloat.is_nan. rewrite eqb_spec. intros E N. rewrite N in E. discriminate E.
Qed.

Lemma not_ltb_leb (c v : float) :
  PrimFloat.is_nan c = false -> PrimFloat.is_nan v = false ->
  PrimFloat.ltb c v = false -> PrimFloat.leb v c = true.
Proof.
  intros Nc Nv. rewrite ltb_spec, leb_spec.
  apply SFcompare_total; now apply is_nan_spec.
Qed.

Lemma leb_not_ltb (c v : float) :
  PrimFloat.leb v c = true -> PrimFloat.ltb c v = false.
Proof.
  rewrite ltb_spec, leb_spec. unfold SFleb, SFltb, SFcompare.
  destruct (Prim2SF v) as [sa|sa| |sa ma ea], (Prim2SF c) as [sb|sb| |sb mb eb];
    try discriminate; try reflexivity;
    repeat match goal with s : bool |- _ => destruct s end;
    try discriminate; try reflexivity; cbn;
    destruct (Z.compare_spec ea eb), (Z.compare_spec eb ea);
    try discriminate; try reflexivity; try lia; subst;
    rewrite ?Pos.compare_cont_spec; cbn;
    destruct (Pos.compare_spec ma mb), (Pos.compare_spec mb ma);
    cbn; try discriminate; try reflexivity; try lia.
Qed.

(** ** The lab's status function *)

Lemma far_moisture_is_off (m : option float) :
  Js.lt m 5%float || Js.gt m 25%float = true ->
  Js.lt m 8%float || Js.gt m 20%float = true.
Proof.
  destruct m as [v|]; [|discriminate]. cbn.
  intros E. apply orb_true_iff in E. apply orb_true_iff. destruct E as [E|E].
  - left. eapply ltb_leb_trans; [exact E|vm_compute; reflexivity].
  - right. eapply leb_ltb_trans; [|exact E]. vm_compute. reflexivity.
Qed.

(** X8.  [determineTestStatus], case by case.  [passed] holds exactly
    when pesticide is not above 0.1, heavy metals are not above 0.05 and
    moisture is neither below 5 nor above 25; the status is PASSED
    exactly when, besides, moisture is neither below 8 nor above 20, it
    is PASSED_WITH_WARNINGS exactly when [passed] holds and moisture is
    below 8 or above 20, and FAILED exactly when [passed] does not
    hold; there is one warning per limit exceeded. *)
Theorem determineTestStatus_characterised (t : Routes.TestData) :
  let v := Routes.determineTestStatus t in
  let overP := Js.gt (Routes.td_pesticide t) 0.1%float in
  let overH := Js.gt (Routes.td_heavyMetals t) 0.05%float in
  let offM := Js.lt (Routes.td_moisture t) 8%float || Js.gt (Routes.td_moisture t) 20%float in
  let farM := Js.lt (Routes.td_moisture t) 5%float || Js.gt (Routes.td_moisture t) 25%float in
  (Routes.passed v = true <-> overP = false /\ overH = false /\ farM = false)
  /\ (Routes.v_status v = PASSED <-> overP = false /\ overH = false /\ offM = false)
  /\ (Routes.v_status v = PASSED_WITH_WARNINGS <-> Routes.passed v = true /\ offM = true)
  /\ (Routes.v_status v = FAILED <-> Routes.passed v = false)
  /\ List.length (Routes.v_warnings v) = Nat.b2n overP + Nat.b2n overH + Nat.b2n offM.
Proof.
  intros v overP overH offM farM.
  pose proof (far_moisture_is_off (Routes.td_moisture t)) as Hfar.
  fold offM farM in Hfar.
  unfold v, Routes.determineTestStatus, Routes.pesticide_max, Routes.heavyMetals_max,
    Routes.moisture_min, Routes.moisture_max.
  fold overP overH offM farM.
  destruct overP, overH, offM, farM; cbn;
    try (specialize (Hfar eq_refl); discriminate Hfar);
    repeat split; intros; try reflexivity; try discriminate;
    repeat match goal with H : _ /\ _ |- _ => destruct H end; try discriminate.
Qed.


(** ** The lab route *)

Lemma PASSED_no_warnings (t : Routes.TestData) :
  Routes.v_status (Routes.determineTestStatus t) = PASSED ->
  Routes.v_warnings (Routes.determineTestStatus t) = [].
Proof.
  unfold Routes.determineTestStatus.
  destruct (Js.gt (Routes.td_pesticide t) Routes.pesticide_max);
    destruct (Js.gt (Routes.td_heavyMetals t) Routes.heavyMetals_max);
    destruct (Js.lt (Routes.td_moisture t) Routes.moisture_min
              || Js.gt (Routes.td_moisture t) Routes.moisture_max);
    destruct (Js.lt (Routes.td_moisture t) 5%float
              || Js.gt (Routes.td_moisture t) 25%float);
    cbn; intros E; try reflexivity; discriminate E.
Qed.

Section LabRoute.

Context `{Host}.

(** The two ways the route goes once the body is valid. *)
Lemma labUpload_run (s : Routes.State) (value : Routes.QualityTestInput)
  (report : option string) (c cs : Clock) (io : WriteOutcome) :
  Routes.labUpload s (inr value) report c cs io
  = (Routes.refuse 404 "Batch not found"
       (Some ("No collection event found for batch " ++ Routes.qi_batchID value)%string)
       None, s)
  \/ exists q,
       qt_batchID q = Routes.qi_batchID value
       /\ pesticide q = Routes.qi_pesticide value
       /\ qt_moisture q = Routes.qi_moisture value
       /\ heavyMetals q = Some (Routes.heavyMetals_or_zero (Routes.qi_heavyMetals value))
       /\ verified q
          = Routes.passed (Routes.determineTestStatus (Routes.testData_of_input value))
       /\ qt_status q
          = Some (Routes.v_status (Routes.determineTestStatus (Routes.testData_of_input value)))
       /\ warnings q
          = Routes.v_warnings (Routes.determineTestStatus (Routes.testData_of_input value))
       /\ (exists t, In t (transactions (memory (Routes.service s)))
                     /\ collects (Routes.read (Routes.heap s)) (Routes.qi_batchID value) t)
       /\ Routes.labUpload s (inr value) report c cs io
          = match submitTransaction (Routes.read (Routes.heap s ++ [Quality q]))
                    (Routes.service s) "quality_test" (List.length (Routes.heap s)) [] cs io
            with
            | (Js.Throw m, w) =>
                (Routes.refuse 500 "Failed to submit quality test" (Some m) None,
                 {| Routes.heap := Routes.heap s ++ [Quality q]; Routes.service := w |})
            | (Js.Return tx, w) =>
                (Routes.reply 201 "Quality test results recorded on blockchain"
                   {| Routes.t_testID := qt_id q;
                      Routes.t_transactionId := transactionId tx;
                      Routes.t_hash := r_hash tx;
                      Routes.t_status :=
                        Routes.v_status
                          (Routes.determineTestStatus (Routes.testData_of_input value));
                      Routes.t_passed :=
                        Routes.passed
                          (Routes.determineTestStatus (Routes.testData_of_input value));
                      Routes.t_data := List.length (Routes.heap s) |},
                 {| Routes.heap := Routes.heap s ++ [Quality q]; Routes.service := w |})
            end.
Proof.
  unfold Routes.labUpload.
  destruct (getProvenance _ _ _ c) as [p|] eqn:Hp; [|left; reflexivity].
  destruct (farmer p) as [a|] eqn:Hf; [|left; reflexivity].
  right. cbv beta zeta iota delta [Routes.alloc truthy_opt negb].
  match goal with
  | |- context [(Routes.heap s ++ [Quality ?x])%list] => exists x
  end.
  repeat (split; [reflexivity|]).
  split.
  - destruct (farmer_in_ledger _ _ _ c Hp Hf) as [t [Hin [Hc _]]]. exists t. now split.
  - destruct (submitTransaction _ _ _ _ _ cs io) as [[tx|m] w']; reflexivity.
Qed.

(** The ledger's verdict on the object the route builds is the verdict
    of the status function on the request. *)
Lemma lab_object_valid_iff (s : Routes.State) (value : Routes.QualityTestInput)
  (q : QualityTest) (cs : Clock) :
  pesticide q = Routes.qi_pesticide value ->
  qt_moisture q = Routes.qi_moisture value ->
  heavyMetals q = Some (Routes.heavyMetals_or_zero (Routes.qi_heavyMetals value)) ->
  let h1 := Routes.heap s ++ [Quality q] in
  valid (snd (validateTransaction (Routes.read h1) (memory (Routes.service s))
                (newTransaction (Routes.read h1) (memory (Routes.service s))
                   "quality_test" (List.length (Routes.heap s)) [] cs))) = true
  <-> Routes.v_status (Routes.determineTestStatus (Routes.testData_of_input value)) = PASSED.
Proof.
  intros Hp Hm Hh h1.
  rewrite validateTransaction_quality_test by reflexivity.
  rewrite validateQualityTest_verdict, validateQualityTest_PASSED.
  cbn [newTransaction data]. unfold h1. rewrite read_new.
  destruct (labUpload_status value q Hp Hm Hh) as [-> _]. reflexivity.
Qed.

End LabRoute.

(** X9.  POST /api/lab/upload records clean passes only.  A request
    that is answered with success has status PASSED and no warning: the
    answer is 201, it reports PASSED and passed, one quality_test
    transaction is appended, which holds the new object, verified, of
    the requested batch, and the batch has a collection in the ledger.
    A request whose status is PASSED_WITH_WARNINGS or FAILED is answered
    404 or 500 and leaves the ledger as it was. *)
Theorem lab_records_only_clean_passes `{Host} (s : Routes.State)
  (value : Routes.QualityTestInput) (report : option string) (c cs : Clock)
  (io : WriteOutcome) :
  let v := Routes.determineTestStatus (Routes.testData_of_input value) in
  let out := Routes.labUpload s (inr value) report c cs io in
  (Routes.success (fst out) = true ->
   Routes.v_status v = PASSED
   /\ Routes.v_warnings v = []
   /\ exists bdy q tx,
        Routes.body (fst out) = Some bdy
        /\ Routes.statusCode (fst out) = 201
        /\ Routes.t_status bdy = PASSED
        /\ Routes.t_passed bdy = true
        /\ transactions (memory (Routes.service (snd out)))
           = transactions (memory (Routes.service s)) ++ [tx]
        /\ type tx = "quality_test"%string
        /\ data tx = Routes.t_data bdy
        /\ Routes.read (Routes.heap (snd out)) (Routes.t_data bdy) = Quality q
        /\ qt_batchID q = Routes.qi_batchID value
        /\ verified q = true
        /\ qt_status q = Some PASSED
        /\ warnings q = []
        /\ exists t, In t (transactions (memory (Routes.service s)))
                     /\ collects (Routes.read (Routes.heap s)) (Routes.qi_batchID value) t)
  /\ (Routes.v_status v <> PASSED ->
      (Routes.statusCode (fst out) = 404 \/ Routes.statusCode (fst out) = 500)
      /\ Routes.success (fst out) = false
      /\ Routes.service (snd out) = Routes.service s).
Proof.
  intros v out.
  destruct (labUpload_run s value report c cs io)
    as [E|[q [Hb [Hp [Hm [Hh [Hver [Hst [Hw [Hcol E]]]]]]]]]]; unfold out; rewrite E.
  - split; [discriminate|]. intros _. cbn. auto.
  - pose proof (lab_object_valid_iff s value q cs Hp Hm Hh) as Hiff. cbv zeta in Hiff.
    destruct (submitTransaction_cases (Routes.read (Routes.heap s ++ [Quality q]))
                (Routes.service s) "quality_test" (List.length (Routes.heap s)) [] cs io)
      as [[Hv Hs]|[[Hv [_ Hs]]|[Hv [m [residue [_ Hs]]]]]]; rewrite Hs; cbn.
    + split; [discriminate|]. intros _. auto.
    + apply Hiff in Hv. fold v in Hv, Hver, Hst, Hw. split; [|congruence].
      intros _. split; [exact Hv|]. split; [now apply PASSED_no_warnings|].
      eexists. exists q. eexists.
      split; [reflexivity|]. split; [reflexivity|]. cbn.
      split; [exact Hv|]. split; [now apply PASSED_passed|].
      split; [reflexivity|]. split; [reflexivity|]. split; [reflexivity|].
      split; [apply read_new|]. split; [exact Hb|].
      split; [rewrite Hver; now apply PASSED_passed|].
      split; [now rewrite Hst, Hv|].
      split; [rewrite Hw; now apply PASSED_no_warnings|exact Hcol].
    + apply Hiff in Hv. fold v in Hv. split; [discriminate|]. congruence.
Qed.

(** On a collected batch, a test with moisture 22 (PASSED_WITH_WARNINGS)
    is answered without success and not recorded; a clean test is
    accepted. *)
Lemma lab_records_only_clean_passes_witness :
  let s1 := snd (demoFarmerUpload (Routes.boot freshWorld) 26.9124 75.7873 "2000") in
  let damp := {| Routes.qi_batchID := "BATCH_ASH_2000";
                 Routes.qi_dna := "ATCGATCGATCGATCG...";
                 Routes.qi_pesticide := 0.03;
                 Routes.qi_moisture := 22;
                 Routes.qi_heavyMetals := Some 0.01%float;
                 Routes.qi_labName := "Ayurveda Quality Labs Pvt Ltd";
                 Routes.qi_labId := "LAB_AQL_001";
                 Routes.qi_testDate := None;
                 Routes.qi_notes := None |} in
  let out := @Routes.labUpload demoHost s1 (inr damp) None (demoClock "3000")
               (demoClock "3000") Written in
  Routes.v_status (Routes.determineTestStatus (Routes.testData_of_input damp))
  = PASSED_WITH_WARNINGS
  /\ (Routes.statusCode (fst out) = 404 \/ Routes.statusCode (fst out) = 500)
  /\ Routes.success (fst out) = false
  /\ Routes.service (snd out) = Routes.service s1
  /\ Routes.success (fst (demoLabUpload s1 "BATCH_ASH_2000" 0.03 "3000")) = true.
Proof.
  intros s1 damp out.
  split; [vm_compute; reflexivity|].
  destruct (@lab_records_only_clean_passes demoHost s1 damp None (demoClock "3000")
              (demoClock "3000") Written) as [_ Hno].
  destruct Hno as [H1 [H2 H3]]; [vm_compute; discriminate|].
  split; [exact H1|]. split; [exact H2|]. split; [exact H3|].
  vm_compute. reflexivity.
Defined.

(** ** The processor's utilities *)

(** X10.  [isProcessingComplete] and [getNextProcessingStep] agree:
    processing is complete exactly when the next step is 'complete';
    without a processing record the next step is drying; and a stage
    named as next is not completed while every stage before it is. *)
Theorem next_step_and_completion (processing : option Payload) :
  (Routes.isProcessingComplete processing = true
   <-> Routes.getNextProcessingStep processing = Routes.complete)
  /\ (processing = None -> Routes.getNextProcessingStep processing = Routes.next drying)
  /\ forall st d,
       processing = Some d ->
       Routes.getNextProcessingStep processing = Routes.next st ->
       is_completed (data_stage d st) = false
       /\ forall prev,
            Routes.previousStep st = Some prev ->
            is_completed (data_stage d prev) = true
            /\ forall prev',
                 Routes.previousStep prev = Some prev' ->
                 is_completed (data_stage d prev') = true.
Proof.
  split; [|split].
  - destruct processing as [d|]; cbn; [|split; discriminate].
    destruct (is_completed (data_stage d drying)),
             (is_completed (data_stage d grinding)),
             (is_completed (data_stage d packaging)); cbn; split; congruence.
  - intros ->. reflexivity.
  - intros st d -> . cbn.
    destruct (is_completed (data_stage d drying)) eqn:E1;
      destruct (is_completed (data_stage d grinding)) eqn:E2;
      destruct (is_completed (data_stage d packaging)) eqn:E3;
      cbn; intros E; try discriminate E; injection E as <-;
      (split; [assumption|]);
      intros prev Hprev; try discriminate Hprev; injection Hprev as <-;
      (split; [assumption|]);
      intros prev' Hprev'; try discriminate Hprev'; injection Hprev' as <-; assumption.
Qed.

(** ** QR codes: issue and verification *)


Lemma idWord_no_slash (s : string) : Routes.idWord s = true -> hasSlash s = false.
Proof.
  induction s as [|ch t IH]; [discriminate|].
  cbn [Routes.idWord hasSlash]. destruct t as [|ch' t'].
  - intros E. destruct (Ascii.eqb_spec ch "/") as [->|_]; [discriminate E|reflexivity].
  - intros E. apply andb_true_iff in E. destruct E as [E1 E2].
    rewrite (IH E2), orb_false_r.
    destruct (Ascii.eqb_spec ch "/") as [->|_]; [discriminate E1|reflexivity].
Qed.

Lemma afterPrefix_drop (lit s w : string) :
  Routes.afterPrefix lit s = Some w -> w = drop (String.length lit) s.
Proof.
  revert s. induction lit as [|a lit IH]; intros s; cbn.
  - intros E. now injection E as <-.
  - destruct s as [|b s]; [discriminate|].
    destruct (Ascii.eqb a b); [apply IH|discriminate].
Qed.

Lemma hasSlash_drop (b : string) (n : nat) (pre : string) :
  n <= String.length pre + 6 ->
  hasSlash (drop n (pre ++ "/batch/" ++ b)) = true.
Proof.
  revert n. induction pre as [|ch pre IH]; intros n Hn.
  - cbn in Hn. do 7 (destruct n as [|n]; [reflexivity|]). lia.
  - destruct n as [|n].
    + pose proof (IH 0 ltac:(lia)) as H0. cbn [drop] in H0.
      change (Ascii.eqb ch "/" || hasSlash (pre ++ "/batch/" ++ b) = true).
      rewrite H0. apply orb_true_r.
    + change (hasSlash (drop n (pre ++ "/batch/" ++ b)) = true).
      apply IH. cbn in Hn. lia.
Qed.

(** The pattern finds the batch in a URL that ends in [/batch/<id>],
    whatever comes before. *)
Lemma matchBatchUrl_suffix (b pre : string) :
  Routes.idWord b = true ->
  Routes.matchBatchUrl (pre ++ "/batch/" ++ b) = Some b.
Proof.
  intros Hb. induction pre as [|ch pre IH].
  - change ("" ++ "/batch/" ++ b)%string with ("/batch/" ++ b)%string.
    destruct b as [|x b]; [discriminate Hb|].
    change ("/batch/" ++ String x b)%string
      with (String "/" (String "b" (String "a" (String "t" (String "c" (String "h"
              (String "/" (String x b)))))))).
    cbn [Routes.matchBatchUrl Routes.afterPrefix Ascii.eqb Bool.eqb].
    rewrite Hb. reflexivity.
  - change ((String ch pre) ++ "/batch/" ++ b)%string
      with (String ch (pre ++ "/batch/" ++ b)).
    cbn [Routes.matchBatchUrl]. rewrite IH.
    destruct (Routes.afterPrefix "/batch/" (String ch (pre ++ "/batch/" ++ b)))
      as [w|] eqn:E; [|reflexivity].
    apply afterPrefix_drop in E.
    assert (Hs : hasSlash w = true).
    { rewrite E. change (String.length "/batch/") with 7.
      change (drop 7 (String ch (pre ++ "/batch/" ++ b)))
        with (drop 6 (pre ++ "/batch/" ++ b)).
      apply hasSlash_drop. lia. }
    destruct (Routes.idWord w) eqn:W; [|reflexivity].
    apply idWord_no_slash in W. congruence.
Qed.

Lemma afterPrefix_sound (lit s w : string) :
  Routes.afterPrefix lit s = Some w -> s = (lit ++ w)%string.
Proof.
  revert s. induction lit as [|a lit IH]; intros s; cbn.
  - intros E. now injection E as <-.
  - destruct s as [|b s]; [discriminate|].
    destruct (Ascii.eqb_spec a b) as [<-|_]; [|discriminate].
    intros E. now rewrite (IH _ E).
Qed.



Lemma matchBatchUrl_sound (s b : string) :
  Routes.matchBatchUrl s = Some b ->
  Routes.idWord b = true /\ exists pre, s = (pre ++ "/batch/" ++ b)%string.
Proof.
  induction s as [|ch t IH].
  - cbn. discriminate.
  - cbn [Routes.matchBatchUrl].
    destruct (Routes.afterPrefix "/batch/" (String ch t)) as [w|] eqn:E.
    + destruct (Routes.idWord w) eqn:W.
      * intros Eb. injection Eb as <-. split; [exact W|].
        exists ""%string. exact (afterPrefix_sound _ _ E).
      * intros Eb. destruct (IH Eb) as [Hb [pre Ht]].
        split; [exact Hb|]. exists (String ch pre). rewrite Ht. reflexivity.
    + intros Eb. destruct (IH Eb) as [Hb [pre Ht]].
      split; [exact Hb|]. exists (String ch pre). rewrite Ht. reflexivity.
Qed.


Section QRRoute.

Context `{Host}.

Lemma generateQR_run (s : Routes.State) (value : Routes.QRInput)
  (files : Js.Completion unit) (c cs : Clock) (io : WriteOutcome) :
  (Routes.success (fst (Routes.generateQR s (inr value) files c cs io)) = false
   /\ Routes.body (fst (Routes.generateQR s (inr value) files c cs io)) = None
   /\ snd (Routes.generateQR s (inr value) files c cs io) = s)
  \/ exists p old,
       getProvenance (Routes.read (Routes.heap s)) (memory (Routes.service s))
                     (Routes.q_batchID value) c = Some p
       /\ processor p = Some old
       /\ Routes.isProcessingComplete (Some (Routes.read (Routes.heap s) old)) = true
       /\ Routes.generateQR s (inr value) files c cs io
          = let url := generateQRData (Routes.q_batchID value) in
            let code := ("/uploads/qr-codes/" ++ "qr_" ++ Routes.q_batchID value ++ "_"
                           ++ nowMs c ++ ".png")%string in
            let h1 := Routes.heap s
                        ++ [Routes.withQR (Routes.read (Routes.heap s) old) code (nowIso c) url] in
            match submitTransaction (Routes.read h1) (Routes.service s) "processing"
                    (List.length (Routes.heap s)) [] cs io with
            | (Js.Throw m, w) =>
                (Routes.refuse 500 "Failed to generate QR code" (Some m) None,
                 {| Routes.heap := h1; Routes.service := w |})
            | (Js.Return tx, w) =>
                (Routes.reply 200 "QR code generated successfully"
                   {| Routes.qr_batchID := Routes.q_batchID value;
                      Routes.qr_qrCode := code;
                      Routes.qr_verificationUrl := url;
                      Routes.qr_transactionId := transactionId tx;
                      Routes.qr_hash := r_hash tx |},
                 {| Routes.heap := h1; Routes.service := w |})
            end.
Proof.
  unfold Routes.generateQR.
  destruct (getProvenance _ _ _ c) as [p|] eqn:Hp; [|left; auto].
  destruct (processor p) as [old|] eqn:Ho; [|left; auto].
  destruct (Routes.isProcessingComplete (Some (Routes.read (Routes.heap s) old))) eqn:Hc;
    cbn [negb]; [|left; auto].
  destruct files as [[]|m]; [|left; auto].
  right. exists p, old. split; [reflexivity|]. split; [exact Ho|]. split; [exact Hc|].
  reflexivity.
Qed.

End QRRoute.

Lemma completed_stages (d : Payload) :
  Routes.isProcessingComplete (Some d) = true ->
  exists pr, d = Processing pr
             /\ ps_drying pr = completed /\ ps_grinding pr = completed
             /\ ps_packaging pr = completed.
Proof.
  destruct d as [ce|q|pr|g]; cbn; try discriminate.
  destruct (ps_drying pr) eqn:E1, (ps_grinding pr) eqn:E2, (ps_packaging pr) eqn:E3;
    cbn; try discriminate.
  intros _. exists pr. auto.
Qed.

(** X11.  POST /api/processor/generate-qr.  A request answered with
    success found a processing record of the batch whose three stages
    read completed; the verification URL it returns is the bundle's
    [qrCode] URL; one processing transaction is appended, and it holds
    a new object, the record with the QR fields set.  When the record
    the bundle shows is missing or incomplete, the answer is 400 and
    nothing changes. *)
Theorem qr_only_for_completed_processing `{Host} (s : Routes.State) (value : Routes.QRInput)
  (files : Js.Completion unit) (c cs : Clock) (io : WriteOutcome) :
  let out := Routes.generateQR s (inr value) files c cs io in
  (Routes.success (fst out) = true ->
   exists p old pr issued tx,
     getProvenance (Routes.read (Routes.heap s)) (memory (Routes.service s))
                   (Routes.q_batchID value) c = Some p
     /\ processor p = Some old
     /\ Routes.read (Routes.heap s) old = Processing pr
     /\ ps_drying pr = completed /\ ps_grinding pr = completed
     /\ ps_packaging pr = completed
     /\ Routes.body (fst out) = Some issued
     /\ Routes.qr_verificationUrl issued = qrCodeUrl p
     /\ transactions (memory (Routes.service (snd out)))
        = transactions (memory (Routes.service s)) ++ [tx]
     /\ type tx = "processing"%string
     /\ data tx = List.length (Routes.heap s)
     /\ Routes.read (Routes.heap (snd out)) (data tx)
        = Routes.withQR (Processing pr) (Routes.qr_qrCode issued) (nowIso c)
            (Routes.qr_verificationUrl issued))
  /\ (forall p,
        getProvenance (Routes.read (Routes.heap s)) (memory (Routes.service s))
                      (Routes.q_batchID value) c = Some p ->
        Routes.isProcessingComplete (option_map (Routes.read (Routes.heap s)) (processor p))
        = false ->
        out = (Routes.refuse 400 "Cannot generate QR code for incomplete processing" None None,
               s)).
Proof.
  intros out. split.
  - intros Hok.
    destruct (generateQR_run s value files c cs io)
      as [[Hno _]|[p [old [Hp [Ho [Hc E]]]]]]; [unfold out in Hok; congruence|].
    destruct (completed_stages _ Hc) as [pr [Hpr [H1 [H2 H3]]]].
    unfold out in *. rewrite E in *. cbv zeta in *.
    destruct (submitTransaction_cases
                (Routes.read (Routes.heap s ++ [Routes.withQR (Routes.read (Routes.heap s) old)
                   ("/uploads/qr-codes/" ++ "qr_" ++ Routes.q_batchID value ++ "_"
                      ++ nowMs c ++ ".png")%string (nowIso c)
                   (generateQRData (Routes.q_batchID value))]))
                (Routes.service s) "processing" (List.length (Routes.heap s)) [] cs io)
      as [[_ Hs]|[[_ [_ Hs]]|[_ [m [residue [_ Hs]]]]]]; rewrite Hs in *;
      try (cbn in Hok; discriminate Hok).
    exists p, old, pr. eexists. eexists.
    split; [exact Hp|]. split; [exact Ho|]. split; [exact Hpr|].
    split; [exact H1|]. split; [exact H2|]. split; [exact H3|].
    split; [reflexivity|].
    cbn [fst snd Routes.heap Routes.service memory push transactions Routes.body
         Routes.reply Routes.qr_verificationUrl Routes.qr_qrCode newTransaction data type].
    split.
    { revert Hp. unfold getProvenance.
      destruct (_ =? 0)%nat; [discriminate|]. intros Hp. now injection Hp as <-. }
    split; [reflexivity|]. split; [reflexivity|]. split; [reflexivity|].
    rewrite read_new, Hpr. reflexivity.
  - intros p Hp Hc. unfold out, Routes.generateQR. rewrite Hp.
    destruct (processor p) as [old|]; [|reflexivity].
    cbn [option_map] in Hc. rewrite Hc. reflexivity.
Qed.


(** With grinding done and packaging open the request is refused; once
    packaging is completed the record the route finds is complete. *)
Lemma qr_only_for_completed_processing_witness :
  let s1 := snd (demoUpdateStatus testedState "BATCH_ASH_2000" drying Routes.to_completed "4000") in
  let s2 := snd (demoUpdateStatus s1 "BATCH_ASH_2000" grinding Routes.to_completed "5000") in
  let s3 := snd (demoUpdateStatus s2 "BATCH_ASH_2000" packaging Routes.to_completed "6000") in
  let value := {| Routes.q_batchID := "BATCH_ASH_2000";
                  Routes.q_processorId := "PROC_HWC_001" |} in
  @Routes.generateQR demoHost s2 (inr value) (Js.Return tt) (demoClock "7000")
    (demoClock "7000") Written
  = (Routes.refuse 400 "Cannot generate QR code for incomplete processing" None None, s2)
  /\ exists p old pr,
       @getProvenance demoHost _ (Routes.read (Routes.heap s3)) (memory (Routes.service s3))
         "BATCH_ASH_2000" (demoClock "7000") = Some p
       /\ processor p = Some old
       /\ Routes.read (Routes.heap s3) old = Processing pr
       /\ ps_drying pr = completed /\ ps_grinding pr = completed
       /\ ps_packaging pr = completed.
Proof.
  intros s1 s2 s3 value. split.
  - destruct (@getProvenance demoHost _ (Routes.read (Routes.heap s2))
                (memory (Routes.service s2)) "BATCH_ASH_2000" (demoClock "7000"))
      as [p|] eqn:Hp; [|vm_compute in Hp; discriminate Hp].
    apply (proj2 (@qr_only_for_completed_processing demoHost s2 value (Js.Return tt)
                    (demoClock "7000") (demoClock "7000") Written) p Hp).
    vm_compute in Hp. injection Hp as <-. vm_compute. reflexivity.
  - destruct (proj1 (@qr_only_for_completed_processing demoHost s3 value (Js.Return tt)
                       (demoClock "7000") (demoClock "7000") Written))
      as [p [old [pr [issued [tx [H1 [H2 [H3 [H4 [H5 [H6 _]]]]]]]]]]].
    + vm_compute. reflexivity.
    + exists p, old, pr. auto 10.
Defined.


(** X13.  What POST /api/customer/verify accepts.  The pattern
    [/\/batch\/([A-Z0-9_]+)$/] yields a batch ID [b] exactly when the
    text ends in [/batch/b] with [b] a nonempty run of capitals, digits
    and underscores.  Without such an ending the answer is 400; with
    one it is 404 when the ledger has no transaction of [b], and
    success, naming [b], otherwise. *)
Theorem verify_reads_batch_from_url `{Host} (s : Routes.State) (value : Routes.VerifyInput)
  (c : Clock) :
  (forall b,
      Routes.matchBatchUrl (Routes.vi_qrData value) = Some b
      <-> Routes.idWord b = true
          /\ exists pre, Routes.vi_qrData value = (pre ++ "/batch/" ++ b)%string)
  /\ (Routes.matchBatchUrl (Routes.vi_qrData value) = None ->
      Routes.verifyQR s (inr value) c
      = Routes.refuse 400 "Invalid QR code format"
          (Some "QR code does not contain valid batch verification URL") None)
  /\ (forall b pre,
        Routes.idWord b = true ->
        Routes.vi_qrData value = (pre ++ "/batch/" ++ b)%string ->
        Routes.verifyQR s (inr value) c
        = match getProvenance (Routes.read (Routes.heap s)) (memory (Routes.service s)) b c with
          | None =>
              Routes.refuse 404 "Invalid QR code" (Some "Batch not found in blockchain ledger")
                None
          | Some _ =>
              Routes.reply 200 "QR code verified successfully"
                {| Routes.vr_batchID := b;
                   Routes.vr_verified := true;
                   Routes.vr_redirectUrl := ("/api/customer/batch/" ++ b)%string |}
          end).
Proof.
  split; [|split].
  - intros b. split.
    + apply matchBatchUrl_sound.
    + intros [Hb [pre ->]]. now apply matchBatchUrl_suffix.
  - intros E. unfold Routes.verifyQR. now rewrite E.
  - intros b pre Hb E. unfold Routes.verifyQR.
    rewrite E, (@matchBatchUrl_suffix b pre Hb). reflexivity.
Qed.

(** A known batch, an unknown one, a lower-case id and a trailing
    slash. *)
Lemma verify_reads_batch_from_url_witness :
  let ask url := @Routes.verifyQR demoHost testedState
                   (inr {| Routes.vi_qrData := url; Routes.vi_customerLocation := None |})
                   (demoClock "9000") in
  Routes.statusCode (ask "https://herbs.example/api/customer/batch/BATCH_ASH_2000") = 200
  /\ Routes.statusCode (ask "https://herbs.example/api/customer/batch/BATCH_ASH_7") = 404
  /\ Routes.statusCode (ask "https://herbs.example/api/customer/batch/batch_ash_2000") = 400
  /\ Routes.statusCode (ask "https://herbs.example/api/customer/batch/BATCH_ASH_2000/") = 400.
Proof.
  intros ask.
  pose proof (fun url => @verify_reads_batch_from_url demoHost testedState
                           {| Routes.vi_qrData := url; Routes.vi_customerLocation := None |}
                           (demoClock "9000")) as V.
  split; [|split; [|split]].
  - unfold ask.
    rewrite (proj2 (proj2 (V "https://herbs.example/api/customer/batch/BATCH_ASH_2000"%string))
               "BATCH_ASH_2000"%string "https://herbs.example/api/customer"%string);
      vm_compute; reflexivity.
  - unfold ask.
    rewrite (proj2 (proj2 (V "https://herbs.example/api/customer/batch/BATCH_ASH_7"%string))
               "BATCH_ASH_7"%string "https://herbs.example/api/customer"%string);
      vm_compute; reflexivity.
  - unfold ask.
    rewrite (proj1 (proj2 (V "https://herbs.example/api/customer/batch/batch_ash_2000"%string)));
      vm_compute; reflexivity.
  - unfold ask.
    rewrite (proj1 (proj2 (V "https://herbs.example/api/customer/batch/BATCH_ASH_2000/"%string)));
      vm_compute; reflexivity.
Defined.

(** ** What the routes leave in the log *)

Lemma sameRecord_refl (d : Payload) : sameRecord d d.
Proof. destruct d; cbn; auto. Qed.

Lemma sameRecord_trans (d1 d2 d3 : Payload) :
  sameRecord d1 d2 -> sameRecord d2 d3 -> sameRecord d1 d3.
Proof.
  destruct d1, d2, d3; cbn; try congruence;
    try (intros [A [B C]] [A' [B' C']]; repeat split; congruence);
    try (intros E; injection E as <-; auto);
    try (intros [A [B C]] E; injection E as <-; auto).
Qed.

Lemma sameRecord_recordStep (d : Payload) (st : Stage) (n : Routes.NewStatus)
  (now : string) (notes : option string) :
  sameRecord d (Routes.recordStep d st n now notes).
Proof. destruct d; cbn; auto. Qed.

Lemma sameRecord_facts (d d' : Payload) :
  sameRecord d d' ->
  data_id d' = data_id d /\ data_batchID d' = data_batchID d
  /\ data_qrCode d' = data_qrCode d /\ data_verified d' = data_verified d
  /\ (forall g, d = Genesis g -> d' = Genesis g)
  /\ (forall ce, d = Collection ce -> d' = Collection ce)
  /\ (forall q, d = Quality q -> d' = Quality q)
  /\ (forall p, d = Processing p ->
        exists p', d' = Processing p' /\ ps_batchID p' = ps_batchID p
                   /\ qrCode p' = qrCode p).
Proof.
  destruct d, d'; cbn; try discriminate;
    try (intros E; injection E as <-);
    try (intros [A [B C]]);
    repeat split; try congruence; try discriminate;
    try (intros ? E'; injection E' as <-; eauto).
Qed.

Lemma preserves_refl (h : list Payload) : preserves h h.
Proof. split; [lia|]. intros x _. apply sameRecord_refl. Qed.

Lemma preserves_alloc (h : list Payload) (p : Payload) : preserves h (h ++ [p]).
Proof.
  split.
  - rewrite length_app. simpl. lia.
  - intros x Hx. rewrite read_old by exact Hx. apply sameRecord_refl.
Qed.

Lemma preserves_recordStep (h : list Payload) (a : Routes.address) (st : Stage)
  (n : Routes.NewStatus) (now : string) (notes : option string) :
  preserves h (Routes.store h a (Routes.recordStep (Routes.read h a) st n now notes)).
Proof.
  split.
  - now rewrite store_length.
  - intros x Hx. destruct (Nat.eq_dec x a) as [->|Hne].
    + rewrite read_store_same by exact Hx. apply sameRecord_recordStep.
    + rewrite read_store_other by exact Hne. apply sameRecord_refl.
Qed.

Lemma preserves_trans (h1 h2 h3 : list Payload) :
  preserves h1 h2 -> preserves h2 h3 -> preserves h1 h3.
Proof.
  intros [L12 K12] [L23 K23]. split; [lia|].
  intros x Hx. eapply sameRecord_trans; [apply K12; exact Hx|apply K23; lia].
Qed.

Lemma preserves_keeps (h h' : list Payload) : preserves h h' -> keeps h h'.
Proof.
  intros [L K]. split; [exact L|]. intros x q Hx Hq.
  destruct (sameRecord_facts _ _ (K x Hx)) as [_ [_ [_ [_ [_ [_ [HQ _]]]]]]]. now apply HQ.
Qed.

Lemma preserves_batchID (h h' : list Payload) (x : Routes.address) :
  preserves h h' -> x < List.length h ->
  data_batchID (Routes.read h' x) = data_batchID (Routes.read h x).
Proof.
  intros [_ K] Hx. now destruct (sameRecord_facts _ _ (K x Hx)) as [_ [E _]].
Qed.

Lemma entry_ok_preserved (h h' : list Payload)
  (before : list (Transaction Routes.address)) (tx : Transaction Routes.address) :
  preserves h h' ->
  data tx < List.length h ->
  (forall t, In t before -> data t < List.length h) ->
  entry_ok h before tx -> entry_ok h' before tx.
Proof.
  intros [L K] Htx Hbefore Hok.
  assert (Hid : forall t b, In t before ->
            (data_id (Routes.read h (data t)) = Some b ->
             data_id (Routes.read h' (data t)) = Some b)
            /\ (data_batchID (Routes.read h (data t)) = Some b ->
                data_batchID (Routes.read h' (data t)) = Some b)).
  { intros t b Hin.
    destruct (sameRecord_facts _ _ (K _ (Hbefore t Hin))) as [E1 [E2 _]].
    rewrite E1, E2. auto. }
  destruct (sameRecord_facts _ _ (K _ Htx)) as [_ [_ [_ [_ [HG [HC [HQ HP]]]]]]].
  destruct Hok as [[Hty [Hb [g Hg]]]|[[Hty [ce Hce]]|[[Hty [q [Hq [t [Hin [Ht1 Ht2]]]]]]
                  |[Hty [p [Hp [[t [Hin [Ht1 Ht2]]] Hqr]]]]]]].
  - left. split; [exact Hty|]. split; [exact Hb|]. exists g. now apply HG.
  - right. left. split; [exact Hty|]. exists ce. now apply HC.
  - right. right. left. split; [exact Hty|]. exists q. split; [now apply HQ|].
    exists t. split; [exact Hin|]. split; [exact Ht1|]. now apply (Hid t).
  - right. right. right. split; [exact Hty|].
    destruct (HP p Hp) as [p' [Hp' [Eb Eq]]].
    exists p'. split; [exact Hp'|]. rewrite Eb, Eq. split.
    + exists t. split; [exact Hin|]. split; [exact Ht1|]. now apply (Hid t).
    + intros Hn. destruct (Hqr Hn) as [t' [Hin' [Ht1' Ht2']]].
      exists t'. split; [exact Hin'|]. split; [exact Ht1'|]. now apply (Hid t').
Qed.

Lemma entry_ok_more (h : list Payload)
  (before extra : list (Transaction Routes.address)) (tx : Transaction Routes.address) :
  entry_ok h before tx -> before <> [] -> entry_ok h (before ++ extra) tx.
Proof.
  intros Hok Hne.
  destruct Hok as [[Hty [Hb _]]|[[Hty [ce Hce]]|[[Hty [q [Hq [t [Hin Ht]]]]]
                  |[Hty [p [Hp [[t [Hin Ht]] Hqr]]]]]]].
  - contradiction.
  - right. left. eauto.
  - right. right. left. split; [exact Hty|]. exists q. split; [exact Hq|].
    exists t. split; [apply in_or_app; now left|exact Ht].
  - right. right. right. split; [exact Hty|]. exists p. split; [exact Hp|]. split.
    + exists t. split; [apply in_or_app; now left|exact Ht].
    + intros Hn. destruct (Hqr Hn) as [t' [Hin' Ht']].
      exists t'. split; [apply in_or_app; now left|exact Ht'].
Qed.

Lemma snoc_split (A : Type) (l before after : list A) (x tx : A) :
  l ++ [x] = before ++ tx :: after ->
  (after = [] /\ before = l /\ tx = x)
  \/ exists after', after = after' ++ [x] /\ l = before ++ tx :: after'.
Proof.
  revert l. induction before as [|b before IH]; intros l E.
  - destruct l as [|y l]; cbn in E.
    + injection E as <- <-. left. auto.
    + injection E as <- <-. right. exists l. auto.
  - destruct l as [|y l]; cbn in E.
    + injection E as _ E. destruct before; discriminate E.
    + injection E as <- E. destruct (IH l E) as [[-> [-> ->]]|[after' [-> ->]]].
      * left. auto.
      * right. exists after'. auto.
Qed.

Section Orderly.

Context `{Host}.

Lemma allocated_split (s : Routes.State) (before after : list (Transaction Routes.address))
  (tx : Transaction Routes.address) :
  allocated s ->
  transactions (memory (Routes.service s)) = before ++ tx :: after ->
  data tx < List.length (Routes.heap s)
  /\ forall t, In t before -> data t < List.length (Routes.heap s).
Proof.
  intros Hwf E. split.
  - apply Hwf. rewrite E. apply in_or_app. right. now left.
  - intros t Hin. apply Hwf. rewrite E. apply in_or_app. now left.
Qed.

Lemma orderly_heap (s : Routes.State) (h' : list Payload) :
  allocated s -> orderly s -> preserves (Routes.heap s) h' ->
  orderly {| Routes.heap := h'; Routes.service := Routes.service s |}.
Proof.
  intros Hwf Ho Hk before tx after E. cbn in E |- *.
  destruct (@allocated_split s before after tx Hwf E) as [Htx Hb].
  eapply entry_ok_preserved; eauto.
Qed.

Lemma orderly_submit (s : Routes.State) (h' : list Payload) (ty : string)
  (a : Routes.address) (e : list string) (c : Clock) (io : WriteOutcome) :
  allocated s -> orderly s -> preserves (Routes.heap s) h' ->
  entry_ok h' (transactions (memory (Routes.service s)))
    (newTransaction (Routes.read h') (memory (Routes.service s)) ty a e c) ->
  orderly {| Routes.heap := h';
             Routes.service :=
               snd (submitTransaction (Routes.read h') (Routes.service s) ty a e c io) |}.
Proof.
  intros Hwf Ho Hk Hnew.
  pose proof (@orderly_heap s h' Hwf Ho Hk) as Ho'.
  destruct (valid (snd (validateTransaction (Routes.read h') (memory (Routes.service s))
                          (newTransaction (Routes.read h') (memory (Routes.service s))
                             ty a e c)))) eqn:Hv.
  - pose proof (submitTransaction_valid (Routes.read h') (Routes.service s) ty a e c io Hv)
      as Hm.
    intros before tx after E. cbn in E |- *. rewrite Hm in E. cbn in E.
    destruct (@snoc_split _ _ _ _ _ _ E) as [[-> [-> ->]]|[after' [-> E']]].
    + exact Hnew.
    + exact (Ho' before tx after' E').
  - rewrite (submitTransaction_invalid (Routes.read h') (Routes.service s) ty a e c io Hv).
    exact Ho'.
Qed.

(** The log of a server starts with the genesis transaction. *)
Lemma served_head (s : Routes.State) :
  served s ->
  exists g rest, transactions (memory (Routes.service s)) = g :: rest
                 /\ type g = "genesis"%string.
Proof.
  intros Hs.
  induction Hs as [c io|s v photoFile c cs io Hs [g [rest [E Hg]]]
                  |s v report c cs io Hs [g [rest [E Hg]]]
                  |s v c cs io Hs [g [rest [E Hg]]]
                  |s v files c cs io Hs [g [rest [E Hg]]]].
  - destruct io; cbn; eauto.
  - destruct v as [det|value]; [eauto|].
    destruct (farmerUpload_state s value photoFile c cs io) as [ce ->]. cbn.
    match goal with
    | |- context [submitTransaction ?rd ?w ?ty ?d ?e ?c0 ?io0] =>
        destruct (@submitTransaction_head _ _ rd w ty d e c0 io0 g rest E) as [rest' E']
    end.
    rewrite E'. eauto.
  - destruct v as [det|value]; [eauto|].
    destruct (labUpload_state s value report c cs io) as [->|[q [_ [_ [_ [_ [_ ->]]]]]]];
      [eauto|]. cbn.
    match goal with
    | |- context [submitTransaction ?rd ?w ?ty ?d ?e ?c0 ?io0] =>
        destruct (@submitTransaction_head _ _ rd w ty d e c0 io0 g rest E) as [rest' E']
    end.
    rewrite E'. eauto.
  - destruct v as [det|value]; [eauto|].
    destruct (served_invariant Hs) as [Hwf _].
    destruct (updateStatus_state value c cs io Hwf) as [h' [_ [->|[a [_ ->]]]]];
      [cbn; eauto|]. cbn.
    match goal with
    | |- context [submitTransaction ?rd ?w ?ty ?d ?e ?c0 ?io0] =>
        destruct (@submitTransaction_head _ _ rd w ty d e c0 io0 g rest E) as [rest' E']
    end.
    rewrite E'. eauto.
  - destruct v as [det|value]; [eauto|].
    destruct (generateQR_state s value files c cs io) as [->|[d ->]]; [eauto|]. cbn.
    match goal with
    | |- context [submitTransaction ?rd ?w ?ty ?d ?e ?c0 ?io0] =>
        destruct (@submitTransaction_head _ _ rd w ty d e c0 io0 g rest E) as [rest' E']
    end.
    rewrite E'. eauto.
Qed.

End Orderly.

Section OrderlyRoutes.

Context `{Host}.

Lemma orderly_in (s : Routes.State) (t : Transaction Routes.address) :
  orderly s ->
  In t (transactions (memory (Routes.service s))) ->
  exists before,
    (forall x, In x before -> In x (transactions (memory (Routes.service s))))
    /\ entry_ok (Routes.heap s) before t.
Proof.
  intros Ho Hin. apply in_split in Hin. destruct Hin as [before [after E]].
  exists before. split.
  - intros x Hx. rewrite E. apply in_or_app. now left.
  - exact (Ho before t after E).
Qed.

Lemma typed_collection (s : Routes.State) (t : Transaction Routes.address) :
  orderly s ->
  In t (transactions (memory (Routes.service s))) ->
  type t = "collection"%string ->
  exists ce, Routes.read (Routes.heap s) (data t) = Collection ce.
Proof.
  intros Ho Hin Hty. destruct (orderly_in t Ho Hin) as [before [_ Hok]].
  destruct Hok as [[Hty' _]|[[_ Hce]|[[Hty' _]|[Hty' _]]]];
    try (rewrite Hty in Hty'; discriminate Hty').
  exact Hce.
Qed.

Lemma typed_quality (s : Routes.State) (t : Transaction Routes.address) :
  orderly s ->
  In t (transactions (memory (Routes.service s))) ->
  type t = "quality_test"%string ->
  exists q, Routes.read (Routes.heap s) (data t) = Quality q
            /\ exists t', In t' (transactions (memory (Routes.service s)))
                          /\ collects (Routes.read (Routes.heap s)) (qt_batchID q) t'.
Proof.
  intros Ho Hin Hty. destruct (orderly_in t Ho Hin) as [before [Hsub Hok]].
  destruct Hok as [[Hty' _]|[[Hty' _]|[[_ [q [Hq [t' [Hin' Hc]]]]]|[Hty' _]]]];
    try (rewrite Hty in Hty'; discriminate Hty').
  exists q. split; [exact Hq|]. exists t'. split; [now apply Hsub|exact Hc].
Qed.

Lemma typed_processing (s : Routes.State) (t : Transaction Routes.address) :
  orderly s ->
  In t (transactions (memory (Routes.service s))) ->
  type t = "processing"%string ->
  exists p, Routes.read (Routes.heap s) (data t) = Processing p
            /\ exists t', In t' (transactions (memory (Routes.service s)))
                          /\ tests (Routes.read (Routes.heap s)) (ps_batchID p) t'.
Proof.
  intros Ho Hin Hty. destruct (orderly_in t Ho Hin) as [before [Hsub Hok]].
  destruct Hok as [[Hty' _]|[[Hty' _]|[[Hty' _]|[_ [p [Hp [[t' [Hin' Hc]] _]]]]]]];
    try (rewrite Hty in Hty'; discriminate Hty').
  exists p. split; [exact Hp|]. exists t'. split; [now apply Hsub|exact Hc].
Qed.

Lemma updateStatus_run (s : Routes.State) (value : Routes.UpdateInput)
  (c cs : Clock) (io : WriteOutcome) :
  allocated s -> orderly s ->
  exists h',
    preserves (Routes.heap s) h'
    /\ (snd (Routes.updateStatus s (inr value) c cs io)
        = {| Routes.heap := h'; Routes.service := Routes.service s |}
        \/ exists a,
             entry_ok h' (transactions (memory (Routes.service s)))
               (newTransaction (Routes.read h') (memory (Routes.service s))
                  "processing" a [] cs)
             /\ snd (Routes.updateStatus s (inr value) c cs io)
                = {| Routes.heap := h';
                     Routes.service :=
                       snd (submitTransaction (Routes.read h') (Routes.service s)
                              "processing" a [] cs io) |}).
Proof.
  intros Hwf Ho. unfold Routes.updateStatus.
  destruct (getProvenance _ _ _ c) as [p|] eqn:Hp;
    [|exists (Routes.heap s); split; [apply preserves_refl|left; now destruct s]].
  destruct (Routes.labVerified (Routes.heap s) p) eqn:Hl; cbn [negb];
    [|exists (Routes.heap s); split; [apply preserves_refl|left; now destruct s]].
  assert (Htest : exists q, In q (transactions (memory (Routes.service s)))
                            /\ tests (Routes.read (Routes.heap s)) (Routes.u_batchID value) q).
  { unfold Routes.labVerified in Hl. destruct (lab p) as [la|] eqn:El; [|discriminate Hl].
    destruct (lab_in_ledger _ _ _ c Hp El) as [q [Hin [Hty [_ Hb]]]].
    exists q. split; [exact Hin|]. split; assumption. }
  destruct Htest as [q [Hqin [Hqty Hqb]]].
  destruct (processor p) as [a|] eqn:Ea.
  - destruct (processor_in_ledger _ _ _ c Hp Ea) as [t [Hin [Hty [Hd Hb]]]].
    assert (Ha : a < List.length (Routes.heap s)) by (rewrite <- Hd; now apply Hwf).
    destruct (typed_processing t Ho Hin Hty) as [p0 [Hp0 _]]. rewrite Hd in Hp0, Hb.
    cbv beta iota zeta.
    destruct (match Routes.previousStep (Routes.u_step value) with
              | Some prev => _
              | None => false
              end).
    + exists (Routes.heap s). split; [apply preserves_refl|left; reflexivity].
    + match goal with
      | |- context [Routes.store (Routes.heap s) a ?d] =>
          set (h2 := Routes.store (Routes.heap s) a d)
      end.
      assert (Hk : preserves (Routes.heap s) h2) by apply preserves_recordStep.
      assert (Hr2 : exists p2, Routes.read h2 a = Processing p2
                               /\ ps_batchID p2 = Routes.u_batchID value).
      { unfold h2. rewrite read_store_same by exact Ha. rewrite Hp0.
        eexists. split; [reflexivity|]. cbn. rewrite Hp0 in Hb. cbn in Hb. congruence. }
      destruct Hr2 as [p2 [Hr2 Hb2]].
      exists h2. split; [exact Hk|]. right. exists a. split.
      * right. right. right. split; [reflexivity|].
        cbn [newTransaction data]. exists p2. split; [exact Hr2|]. rewrite Hb2. split.
        -- exists q. split; [exact Hqin|]. split; [exact Hqty|].
           rewrite (preserves_batchID Hk) by now apply Hwf. exact Hqb.
        -- intros _. exists t. split; [exact Hin|]. split; [exact Hty|].
           rewrite (preserves_batchID Hk) by now apply Hwf. now rewrite Hd.
      * destruct (submitTransaction _ _ _ _ _ cs io) as [[tx|m] w']; reflexivity.
  - cbv beta iota zeta delta [Routes.alloc].
    set (fresh := Processing _).
    assert (Hfresh : exists pr, fresh = Processing pr
                                /\ ps_batchID pr = Routes.u_batchID value
                                /\ qrCode pr = None).
    { eexists. split; [reflexivity|]. split; reflexivity. }
    clearbody fresh. destruct Hfresh as [pr [-> [Hprb Hprq]]].
    set (a := List.length (Routes.heap s)).
    set (h1 := Routes.heap s ++ [Processing pr]).
    assert (Ha : a < List.length h1) by (unfold a, h1; rewrite length_app; simpl; lia).
    assert (Hra : Routes.read h1 a = Processing pr) by apply read_new.
    destruct (match Routes.previousStep (Routes.u_step value) with
              | Some prev => _
              | None => false
              end).
    + exists h1. split; [apply preserves_alloc|left; reflexivity].
    + match goal with
      | |- context [Routes.store h1 a ?d] => set (h2 := Routes.store h1 a d)
      end.
      assert (Hk : preserves (Routes.heap s) h2).
      { eapply preserves_trans; [apply preserves_alloc|apply preserves_recordStep]. }
      assert (Hr2 : exists p2, Routes.read h2 a = Processing p2
                               /\ ps_batchID p2 = Routes.u_batchID value
                               /\ qrCode p2 = None).
      { unfold h2. rewrite read_store_same by exact Ha. rewrite Hra.
        eexists. split; [reflexivity|]. cbn. auto. }
      destruct Hr2 as [p2 [Hr2 [Hb2 Hq2]]].
      exists h2. split; [exact Hk|]. right. exists a. split.
      * right. right. right. split; [reflexivity|].
        cbn [newTransaction data]. exists p2. split; [exact Hr2|]. rewrite Hb2. split.
        -- exists q. split; [exact Hqin|]. split; [exact Hqty|].
           rewrite (preserves_batchID Hk) by now apply Hwf. exact Hqb.
        -- intros Hn. now contradiction Hn.
      * destruct (submitTransaction _ _ _ _ _ cs io) as [[tx|m] w']; reflexivity.
Qed.

End OrderlyRoutes.

(** In every server state the log is orderly. *)
Lemma served_orderly `{Host} (s : Routes.State) : served s -> orderly s.
Proof.
  intros Hs.
  induction Hs as [c io|s v photoFile c cs io Hs Ho
                  |s v report c cs io Hs Ho
                  |s v c cs io Hs Ho
                  |s v files c cs io Hs Ho].
  - intros before tx after E.
    assert (E' : [{| id := "tx_genesis_000"; type := "genesis"; data := 0;
                     tx_timestamp := nowIso c;
                     hash := calculateHash "genesis_block_sih25027";
                     previousHash := ZERO_HASH; endorsements := None |}]
                 = before ++ tx :: after).
    { rewrite <- E. destruct io; reflexivity. }
    destruct before as [|b before].
    + injection E' as <- _. left. split; [reflexivity|]. split; [reflexivity|].
      destruct io; cbn; eauto.
    + injection E' as _ E'. destruct before; discriminate E'.
  - destruct v as [det|value]; [exact Ho|].
    destruct (served_invariant Hs) as [Hwf _].
    destruct (farmerUpload_state s value photoFile c cs io) as [ce ->].
    apply orderly_submit; auto using preserves_alloc.
    right. left. split; [reflexivity|]. exists ce. cbn [newTransaction data].
    apply read_new.
  - destruct v as [det|value]; [exact Ho|].
    destruct (served_invariant Hs) as [Hwf _].
    destruct (labUpload_run s value report c cs io)
      as [E|[q [Hb [_ [_ [_ [_ [_ [_ [[t [Hin [Hty Hid]]] E]]]]]]]]]]; rewrite E.
    + exact Ho.
    + assert (Est : snd (match submitTransaction
                                 (Routes.read (Routes.heap s ++ [Quality q]))
                                 (Routes.service s) "quality_test"
                                 (List.length (Routes.heap s)) [] cs io with
                         | (Js.Throw m, w) =>
                             (Routes.refuse 500 "Failed to submit quality test" (Some m) None,
                              {| Routes.heap := Routes.heap s ++ [Quality q];
                                 Routes.service := w |})
                         | (Js.Return tx, w) =>
                             (Routes.reply 201 "Quality test results recorded on blockchain"
                                {| Routes.t_testID := qt_id q;
                                   Routes.t_transactionId := transactionId tx;
                                   Routes.t_hash := r_hash tx;
                                   Routes.t_status :=
                                     Routes.v_status
                                       (Routes.determineTestStatus
                                          (Routes.testData_of_input value));
                                   Routes.t_passed :=
                                     Routes.passed
                                       (Routes.determineTestStatus
                                          (Routes.testData_of_input value));
                                   Routes.t_data := List.length (Routes.heap s) |},
                              {| Routes.heap := Routes.heap s ++ [Quality q];
                                 Routes.service := w |})
                         end)
                    = {| Routes.heap := Routes.heap s ++ [Quality q];
                         Routes.service :=
                           snd (submitTransaction
                                  (Routes.read (Routes.heap s ++ [Quality q]))
                                  (Routes.service s) "quality_test"
                                  (List.length (Routes.heap s)) [] cs io) |}).
      { destruct (submitTransaction _ _ _ _ _ cs io) as [[tx|m] w']; reflexivity. }
      rewrite Est. apply orderly_submit; auto using preserves_alloc.
      right. right. left. split; [reflexivity|]. exists q. cbn [newTransaction data].
      split; [apply read_new|]. exists t. split; [exact Hin|]. split; [exact Hty|].
      rewrite read_old by now apply Hwf. now rewrite Hb.
  - destruct v as [det|value]; [exact Ho|].
    destruct (served_invariant Hs) as [Hwf _].
    destruct (updateStatus_run value c cs io Hwf Ho) as [h' [Hk [->|[a [Hok ->]]]]].
    + now apply orderly_heap.
    + now apply orderly_submit.
  - destruct v as [det|value]; [exact Ho|].
    destruct (served_invariant Hs) as [Hwf _].
    destruct (generateQR_run s value files c cs io)
      as [[_ [_ ->]]|[p [old [Hp [Hold [_ E]]]]]]; [exact Ho|].
    rewrite E. cbv zeta.
    destruct (processor_in_ledger _ _ _ c Hp Hold) as [t [Hin [Hty [Hd Hb]]]].
    destruct (typed_processing t Ho Hin Hty) as [p0 [Hp0 [t' [Hin' [Hty' Hb']]]]].
    rewrite Hd in Hp0.
    set (d := Routes.withQR _ _ _ _).
    assert (Est : snd (match submitTransaction (Routes.read (Routes.heap s ++ [d]))
                                 (Routes.service s) "processing"
                                 (List.length (Routes.heap s)) [] cs io with
                       | (Js.Throw m, w) =>
                           (Routes.refuse 500 "Failed to generate QR code" (Some m) None,
                            {| Routes.heap := Routes.heap s ++ [d]; Routes.service := w |})
                       | (Js.Return tx, w) =>
                           (Routes.reply 200 "QR code generated successfully"
                              {| Routes.qr_batchID := Routes.q_batchID value;
                                 Routes.qr_qrCode :=
                                   ("/uploads/qr-codes/" ++ "qr_" ++ Routes.q_batchID value
                                      ++ "_" ++ nowMs c ++ ".png")%string;
                                 Routes.qr_verificationUrl :=
                                   generateQRData (Routes.q_batchID value);
                                 Routes.qr_transactionId := transactionId tx;
                                 Routes.qr_hash := r_hash tx |},
                            {| Routes.heap := Routes.heap s ++ [d]; Routes.service := w |})
                       end)
                  = {| Routes.heap := Routes.heap s ++ [d];
                       Routes.service :=
                         snd (submitTransaction (Routes.read (Routes.heap s ++ [d]))
                                (Routes.service s) "processing"
                                (List.length (Routes.heap s)) [] cs io) |}).
    { destruct (submitTransaction _ _ _ _ _ cs io) as [[tx|m] w']; reflexivity. }
    rewrite Est. apply orderly_submit; auto using preserves_alloc.
    right. right. right. split; [reflexivity|]. cbn [newTransaction data].
    rewrite read_new. unfold d. rewrite Hp0. cbn [Routes.withQR].
    eexists. split; [reflexivity|]. cbn [ps_batchID qrCode]. split.
    + exists t'. split; [exact Hin'|]. split; [exact Hty'|].
      rewrite read_old by now apply Hwf. exact Hb'.
    + intros _. exists t. split; [exact Hin|]. split; [exact Hty|].
      rewrite read_old by now apply Hwf. rewrite Hd, Hp0. reflexivity.
Qed.

(** ** Bundles of a server *)

Lemma bundle_has_transaction `{Host} (Obj : Type) (read : Obj -> Payload) (l : Ledger Obj)
  (b : string) (c : Clock) (p : Provenance Obj) :
  getProvenance read l b c = Some p ->
  exists tx, In tx (transactions l) /\ concerns read b tx = true.
Proof.
  unfold getProvenance.
  destruct (List.filter (concerns read b) (transactions l)) as [|tx rest] eqn:F;
    [discriminate|].
  intros _. exists tx. apply filter_In. rewrite F. now left.
Qed.

Lemma isVerified_spec `{Host} (Obj : Type) (read : Obj -> Payload) (l : Ledger Obj)
  (b : string) (c : Clock) (p : Provenance Obj) :
  getProvenance read l b c = Some p ->
  isVerified p = truthy_opt (lab p) && truthy_opt (processor p).
Proof.
  unfold getProvenance. destruct (_ =? 0)%nat; [discriminate|].
  intros E. injection E as <-. cbn.
  now destruct (List.find (hasType "quality_test") _), (List.find (hasType "processing") _).
Qed.

Lemma concerns_other `{Host} (Obj : Type) (read : Obj -> Payload) (b : string)
  (tx : Transaction Obj) :
  type tx <> "collection"%string ->
  (concerns read b tx = true <-> data_batchID (read (data tx)) = Some b).
Proof.
  intros Hty. unfold concerns.
  destruct (String.eqb_spec (type tx) "collection"); [contradiction|].
  apply strict_eq_true.
Qed.

Section ServedBundles.

Context `{Host}.

(** Whatever a transaction of a server's log concerns has been collected. *)
Lemma served_concerned_collected (s : Routes.State) (b : string)
  (tx : Transaction Routes.address) :
  orderly s ->
  In tx (transactions (memory (Routes.service s))) ->
  concerns (Routes.read (Routes.heap s)) b tx = true ->
  exists t, In t (transactions (memory (Routes.service s)))
            /\ collects (Routes.read (Routes.heap s)) b t.
Proof.
  intros Ho Hin Hc.
  destruct (orderly_in tx Ho Hin) as [before [Hsub Hok]].
  destruct Hok as [[Hty [_ [g Hg]]]|[[Hty [ce Hce]]|[[Hty [q [Hq [t [Hint Ht]]]]]
                  |[Hty [p [Hp [[t [Hint [Hty' Hb']]] _]]]]]]].
  - apply concerns_other in Hc; [|congruence].
    rewrite Hg in Hc. discriminate Hc.
  - exists tx. split; [exact Hin|]. apply concerns_collection.
    rewrite Hc. unfold hasType. now rewrite Hty.
  - apply concerns_other in Hc; [|congruence].
    rewrite Hq in Hc. cbn in Hc. injection Hc as <-.
    exists t. split; [now apply Hsub|exact Ht].
  - apply concerns_other in Hc; [|congruence].
    rewrite Hp in Hc. cbn in Hc. injection Hc as <-.
    destruct (typed_quality t Ho (Hsub t Hint) Hty') as [q [Hq [t' [Hin' Hc']]]].
    rewrite Hq in Hb'. cbn in Hb'. injection Hb' as Hb'. rewrite Hb' in Hc'.
    exists t'. split; assumption.
Qed.

Lemma bundle_farmer_served (s : Routes.State) (b : string) (c : Clock)
  (p : Provenance Routes.address) :
  served s ->
  getProvenance (Routes.read (Routes.heap s)) (memory (Routes.service s)) b c = Some p ->
  exists a ce, farmer p = Some a
               /\ Routes.read (Routes.heap s) a = Collection ce
               /\ ce_id ce = b.
Proof.
  intros Hs Hp. pose proof (served_orderly Hs) as Ho.
  destruct (bundle_has_transaction _ _ _ _ Hp) as [tx [Hin Hc]].
  destruct (served_concerned_collected b tx Ho Hin Hc) as [t [Hint Hcol]].
  destruct (farmer p) as [a|] eqn:Hf.
  - destruct (farmer_in_ledger _ _ _ c Hp Hf) as [t0 [Hin0 [[Hty0 Hid0] [Hd0 _]]]].
    destruct (typed_collection t0 Ho Hin0 Hty0) as [ce Hce].
    exists a, ce. split; [reflexivity|]. rewrite <- Hd0. split; [exact Hce|].
    rewrite Hce in Hid0. cbn in Hid0. now injection Hid0.
  - exfalso. exact (proj1 (farmer_none _ _ _ c Hp) Hf t Hint Hcol).
Qed.

Lemma bundle_lab_served (s : Routes.State) (b : string) (c : Clock)
  (p : Provenance Routes.address) (la : Routes.address) :
  served s ->
  getProvenance (Routes.read (Routes.heap s)) (memory (Routes.service s)) b c = Some p ->
  lab p = Some la ->
  Routes.labVerified (Routes.heap s) p = true
  /\ exists q, Routes.read (Routes.heap s) la = Quality q
               /\ qt_batchID q = b
               /\ verified q = true
               /\ qt_status q = Some PASSED
               /\ snd (validateQualityTest (Quality q)) = Js.Return accept.
Proof.
  intros Hs Hp Hl. destruct (served_invariant Hs) as [_ Htp].
  destruct (lab_in_ledger _ _ _ c Hp Hl) as [t [Hin [Hty [Hd Hb]]]].
  destruct (Htp t Hin Hty) as [q [Hq [Hver [Hst Hrule]]]].
  rewrite Hd in Hq. split.
  - unfold Routes.labVerified. rewrite Hl, Hq. exact Hver.
  - exists q. split; [exact Hq|]. rewrite Hd, Hq in Hb. cbn in Hb. injection Hb as Hb.
    auto.
Qed.

Lemma bundle_processor_served (s : Routes.State) (b : string) (c : Clock)
  (p : Provenance Routes.address) (a : Routes.address) :
  served s ->
  getProvenance (Routes.read (Routes.heap s)) (memory (Routes.service s)) b c = Some p ->
  processor p = Some a ->
  (exists la, lab p = Some la)
  /\ exists pr, Routes.read (Routes.heap s) a = Processing pr
                /\ ps_batchID pr = b
                /\ qrCode pr = None.
Proof.
  intros Hs Hp Ha. pose proof (served_orderly Hs) as Ho.
  destruct (getProvenance_some _ _ _ c Hp) as [_ [Hlab [Hproc _]]].
  rewrite Ha in Hproc.
  destruct (List.find (fun tx => concerns (Routes.read (Routes.heap s)) b tx
                                 && hasType "processing" tx)
              (transactions (memory (Routes.service s)))) as [t|] eqn:F;
    [|discriminate Hproc].
  cbn in Hproc. injection Hproc as Hd.
  destruct (find_first_split _ _ F) as [pre [post [E [Ht Hpre]]]].
  apply andb_true_iff in Ht. destruct Ht as [Hc Hty]. apply String.eqb_eq in Hty.
  apply concerns_other in Hc; [|congruence].
  pose proof (Ho pre t post E) as Hok.
  destruct Hok as [[Hty' _]|[[Hty' _]|[[Hty' _]|[_ [pr [Hpr [[t' [Hin' [Hty' Hb']]] Hqr]]]]]]];
    try (rewrite Hty in Hty'; discriminate Hty').
  rewrite Hpr in Hc. cbn in Hc. injection Hc as Hb. rewrite Hb in *. split.
  - destruct (lab p) as [la|] eqn:El; [eauto|]. exfalso.
    symmetry in Hlab.
    destruct (List.find (fun tx => concerns (Routes.read (Routes.heap s)) b tx
                                   && hasType "quality_test" tx)
                (transactions (memory (Routes.service s)))) as [x|] eqn:Fq;
      [discriminate Hlab|].
    rewrite find_none_iff in Fq.
    assert (Hint : In t' (transactions (memory (Routes.service s)))).
    { rewrite E. apply in_or_app. now left. }
    specialize (Fq t' Hint). apply andb_false_iff in Fq. destruct Fq as [Fq|Fq].
    + assert (Hc' : concerns (Routes.read (Routes.heap s)) b t' = true).
      { apply concerns_other; [congruence|exact Hb']. }
      congruence.
    + unfold hasType in Fq. rewrite Hty' in Fq. discriminate Fq.
  - exists pr. rewrite Hd. split; [exact Hpr|]. split; [exact Hb|].
    destruct (qrCode pr) as [code|] eqn:Eq; [|reflexivity]. exfalso.
    destruct Hqr as [t'' [Hin'' [Hty'' Hb'']]]; [discriminate|].
    specialize (Hpre t'' Hin''). apply andb_false_iff in Hpre. destruct Hpre as [Fq|Fq].
    + assert (Hc' : concerns (Routes.read (Routes.heap s)) b t'' = true).
      { apply concerns_other; [congruence|exact Hb'']. }
      congruence.
    + unfold hasType in Fq. rewrite Hty'' in Fq. discriminate Fq.
Qed.

End ServedBundles.

(** X14.  On a server, a bundle means a collected batch.  In every state
    reached through the routes from a start without ledger file,
    [getProvenance] of a batch ID is null exactly when no collection
    has that ID: a bundle always has its farmer, a collection event of
    that ID.  So GET /api/farmer/batch/:id answers 404 exactly when
    [getProvenance] is null, and otherwise returns the collection with
    [isComplete] equal to [hasProcessing]: the flag is set as soon as
    one stage update is recorded. *)
Theorem served_batch_means_collected `{Host} (s : Routes.State) (b : string) (c : Clock) :
  served s ->
  (getProvenance (Routes.read (Routes.heap s)) (memory (Routes.service s)) b c = None
   <-> forall tx, In tx (transactions (memory (Routes.service s))) ->
                  ~ collects (Routes.read (Routes.heap s)) b tx)
  /\ (Routes.farmerBatch s b c = Routes.refuse 404 "Batch not found" None None
      <-> getProvenance (Routes.read (Routes.heap s)) (memory (Routes.service s)) b c = None)
  /\ forall p,
       getProvenance (Routes.read (Routes.heap s)) (memory (Routes.service s)) b c = Some p ->
       exists a ce,
         farmer p = Some a
         /\ Routes.read (Routes.heap s) a = Collection ce
         /\ ce_id ce = b
         /\ Routes.farmerBatch s b c
            = Routes.answer {| Routes.bd_batch := a;
                               Routes.bd_hasQualityTest := truthy_opt (lab p);
                               Routes.bd_hasProcessing := truthy_opt (processor p);
                               Routes.bd_isComplete := truthy_opt (processor p) |}.
Proof.
  intros Hs.
  assert (Hsome : forall p,
             getProvenance (Routes.read (Routes.heap s)) (memory (Routes.service s)) b c
             = Some p ->
             exists a ce,
               farmer p = Some a
               /\ Routes.read (Routes.heap s) a = Collection ce
               /\ ce_id ce = b
               /\ Routes.farmerBatch s b c
                  = Routes.answer {| Routes.bd_batch := a;
                                     Routes.bd_hasQualityTest := truthy_opt (lab p);
                                     Routes.bd_hasProcessing := truthy_opt (processor p);
                                     Routes.bd_isComplete := truthy_opt (processor p) |}).
  { intros p Hp. destruct (@bundle_farmer_served _ s b c p Hs Hp) as [a [ce [Hf [Hce Hid]]]].
    exists a, ce. split; [exact Hf|]. split; [exact Hce|]. split; [exact Hid|].
    unfold Routes.farmerBatch. rewrite Hp, Hf. f_equal. f_equal.
    rewrite (isVerified_spec _ _ _ _ Hp).
    destruct (processor p) as [x|] eqn:Ex; [|apply andb_false_r].
    destruct (@bundle_processor_served _ s b c p x Hs Hp Ex) as [[la ->] _]. reflexivity. }
  split; [|split; [|exact Hsome]].
  - split.
    + intros Hn tx Hin Hc. rewrite getProvenance_none in Hn.
      apply concerns_collection in Hc. rewrite (Hn tx Hin) in Hc. discriminate Hc.
    + intros Hn.
      destruct (getProvenance _ _ b c) as [p|] eqn:Hp; [|reflexivity]. exfalso.
      destruct (Hsome p eq_refl) as [a [ce [Hf _]]].
      destruct (farmer_in_ledger _ _ _ c Hp Hf) as [t [Hin [Hc _]]].
      exact (Hn t Hin Hc).
  - split.
    + destruct (getProvenance _ _ b c) as [p|] eqn:Hp; [|reflexivity].
      destruct (Hsome p eq_refl) as [a [ce [_ [_ [_ ->]]]]]. discriminate.
    + intros Hn. unfold Routes.farmerBatch. now rewrite Hn.
Qed.

(** X15.  On a server, a processing record presupposes a passed test.
    When the bundle of a batch shows a processing record, it shows a
    quality test of the same batch too, verified and of status PASSED,
    as stored and as derived from the stored measurements; the bundle's
    [isVerified] holds. *)
Theorem served_processing_has_passed_test `{Host} (s : Routes.State) (b : string)
  (c : Clock) (p : Provenance Routes.address) (a : Routes.address) :
  served s ->
  getProvenance (Routes.read (Routes.heap s)) (memory (Routes.service s)) b c = Some p ->
  processor p = Some a ->
  isVerified p = true
  /\ Routes.labVerified (Routes.heap s) p = true
  /\ exists la q pr,
       lab p = Some la
       /\ Routes.read (Routes.heap s) la = Quality q
       /\ qt_batchID q = b
       /\ verified q = true
       /\ qt_status q = Some PASSED
       /\ Routes.v_status (Routes.determineTestStatus (Routes.testData_of_payload (Quality q)))
          = PASSED
       /\ Routes.read (Routes.heap s) a = Processing pr
       /\ ps_batchID pr = b.
Proof.
  intros Hs Hp Ha.
  destruct (@bundle_processor_served _ s b c p a Hs Hp Ha) as [[la Hl] [pr [Hpr [Hb _]]]].
  destruct (@bundle_lab_served _ s b c p la Hs Hp Hl) as [Hlv [q [Hq [Hqb [Hver [Hst Hrule]]]]]].
  split; [rewrite (isVerified_spec _ _ _ _ Hp), Hl, Ha; reflexivity|].
  split; [exact Hlv|].
  exists la, q, pr. repeat (split; [assumption|]).
  split; [now apply validateQualityTest_PASSED|]. split; assumption.
Qed.

(** X16.  On a server, the bundle never shows a QR reference.  In every
    state reached through the routes, the processing record that
    [getProvenance] returns has no [qrCode], also after generate-qr has
    succeeded: the flag [qrGenerated] of GET
    /api/processor/batch/:id/status is false in every answer. *)
Theorem served_bundle_never_shows_qr `{Host} (s : Routes.State) (b : string) (c : Clock)
  (p : Provenance Routes.address) :
  served s ->
  getProvenance (Routes.read (Routes.heap s)) (memory (Routes.service s)) b c = Some p ->
  Routes.qrGenerated (Routes.heap s) p = false
  /\ (forall a, processor p = Some a -> data_qrCode (Routes.read (Routes.heap s) a) = None)
  /\ exists st,
       Routes.batchStatus s b c = Routes.answer st
       /\ Routes.st_qrGenerated st = false
       /\ Routes.st_processing st = processor p
       /\ Routes.st_isQualityVerified st = truthy_opt (lab p).
Proof.
  intros Hs Hp.
  assert (Hq : forall a, processor p = Some a ->
                         data_qrCode (Routes.read (Routes.heap s) a) = None).
  { intros a Ha. destruct (@bundle_processor_served _ s b c p a Hs Hp Ha) as [_ [pr [-> [_ Hn]]]]. exact Hn. }
  assert (Hg : Routes.qrGenerated (Routes.heap s) p = false).
  { unfold Routes.qrGenerated. destruct (processor p) as [a|]; [|reflexivity].
    now rewrite (Hq a eq_refl). }
  split; [exact Hg|]. split; [exact Hq|].
  unfold Routes.batchStatus. rewrite Hp. eexists. split; [reflexivity|]. cbn.
  split; [exact Hg|]. split; [reflexivity|].
  destruct (lab p) as [la|] eqn:Hl.
  - now destruct (@bundle_lab_served _ s b c p la Hs Hp Hl) as [-> _].
  - unfold Routes.labVerified. now rewrite Hl.
Qed.

(** ** Statistics of a server *)

Lemma served_one_genesis `{Host} (s : Routes.State) :
  served s ->
  List.length
    (List.filter (fun tx => negb (hasType "collection" tx)
                            && negb (hasType "quality_test" tx)
                            && negb (hasType "processing" tx))
                 (transactions (memory (Routes.service s)))) = 1.
Proof.
  intros Hs. pose proof (served_orderly Hs) as Ho.
  destruct (served_head Hs) as [g [rest [E Hg]]].
  rewrite E, filter_step. unfold hasType at 1 2 3. rewrite Hg. cbn [String.eqb Ascii.eqb
    Bool.eqb negb andb].
  replace (List.filter _ rest) with (@nil (Transaction Routes.address)); [reflexivity|].
  symmetry. apply filter_nil. intros t Hin.
  apply in_split in Hin. destruct Hin as [r1 [r2 Er]].
  assert (E' : transactions (memory (Routes.service s)) = (g :: r1) ++ t :: r2).
  { rewrite E, Er. reflexivity. }
  pose proof (Ho _ _ _ E') as Hok. unfold hasType.
  destruct Hok as [[_ [Hb _]]|[[Hty _]|[[Hty _]|[Hty _]]]]; [discriminate Hb| | |];
    rewrite Hty; reflexivity.
Qed.

(** X17.  On a server, [getStats] accounts for every transaction: the
    total is one (the genesis transaction) more than the collections,
    quality tests and processing steps together, and [lastTransaction]
    is never null. *)
Theorem served_stats_account `{Host} (s : Routes.State) :
  served s ->
  let st := getStats (memory (Routes.service s)) in
  totalTransactions st = 1 + collectionEvents st + qualityTests st + processingSteps st
  /\ exists ts, lastTransaction st = Some ts.
Proof.
  intros Hs st. split.
  - pose proof (count_types (transactions (memory (Routes.service s)))) as Hc.
    rewrite (served_one_genesis Hs) in Hc. unfold st, getStats. cbn. lia.
  - destruct (served_head Hs) as [g [rest [E _]]]. unfold st, getStats. cbn.
    rewrite E. eauto.
Qed.

(** ** The verification score *)

Lemma score_sum (h : list Payload) (p : Provenance Routes.address) :
  Routes.score (Routes.calculateVerificationScore h p)
  = (if truthy_opt (farmer p) then 25 else 0)
    + (if Routes.labVerified h p then 35 else 0)
    + (if Routes.isProcessingComplete (option_map (Routes.read h) (processor p))
       then 25 else 0)
    + (if Routes.qrGenerated h p then 15 else 0).
Proof.
  unfold Routes.calculateVerificationScore, Routes.isProcessingComplete.
  destruct (truthy_opt (farmer p)), (Routes.labVerified h p), (Routes.qrGenerated h p),
    (processor p) as [a|]; cbn [option_map];
    try destruct (is_completed (data_stage (Routes.read h a) drying)
                  && is_completed (data_stage (Routes.read h a) grinding)
                  && is_completed (data_stage (Routes.read h a) packaging));
    reflexivity.
Qed.

Lemma status_of_score (h : list Payload) (p : Provenance Routes.address) :
  Routes.vs_status (Routes.calculateVerificationScore h p)
  = let n := Routes.score (Routes.calculateVerificationScore h p) in
    if (90 <=? n)%nat then "Fully Verified"%string
    else if (70 <=? n)%nat then "Well Verified"%string
    else if (50 <=? n)%nat then "Partially Verified"%string
    else if (25 <=? n)%nat then "Basic Verification"%string
    else "Unverified"%string.
Proof.
  unfold Routes.calculateVerificationScore.
  destruct (truthy_opt (farmer p)), (Routes.labVerified h p), (Routes.qrGenerated h p),
    (processor p) as [a|];
    try destruct (is_completed (data_stage (Routes.read h a) drying)
                  && is_completed (data_stage (Routes.read h a) grinding)
                  && is_completed (data_stage (Routes.read h a) packaging));
    reflexivity.
Qed.

(** X18.  [calculateVerificationScore].  The status is 'Fully Verified'
    exactly when the bundle has a farmer, a verified test, a completed
    processing record and a QR reference, that is, when the score is
    100.  On a server the score of a bundle is 25 (collected only), 60
    (tested, processing not complete) or 85 (processing complete), with
    the status 'Basic Verification', 'Partially Verified' or 'Well
    Verified': no batch reaches 'Fully Verified'. *)
Theorem verification_score_levels `{Host} (s : Routes.State) (b : string) (c : Clock)
  (p : Provenance Routes.address) :
  let v := Routes.calculateVerificationScore (Routes.heap s) p in
  let complete :=
    Routes.isProcessingComplete (option_map (Routes.read (Routes.heap s)) (processor p)) in
  (Routes.vs_status v = "Fully Verified"%string
   <-> truthy_opt (farmer p) = true /\ Routes.labVerified (Routes.heap s) p = true
       /\ complete = true /\ Routes.qrGenerated (Routes.heap s) p = true)
  /\ (Routes.vs_status v = "Fully Verified"%string <-> Routes.score v = 100)
  /\ (served s ->
      getProvenance (Routes.read (Routes.heap s)) (memory (Routes.service s)) b c = Some p ->
      (Routes.score v = 25 /\ Routes.vs_status v = "Basic Verification"%string
       /\ lab p = None /\ processor p = None)
      \/ (Routes.score v = 60 /\ Routes.vs_status v = "Partially Verified"%string
          /\ lab p <> None /\ complete = false)
      \/ (Routes.score v = 85 /\ Routes.vs_status v = "Well Verified"%string
          /\ lab p <> None /\ complete = true)).
Proof.
  intros v complete.
  pose proof (score_sum (Routes.heap s) p) as Hsum.
  pose proof (status_of_score (Routes.heap s) p) as Hst.
  fold v in Hsum, Hst. fold complete in Hsum. cbv zeta in Hst.
  split; [|split].
  - rewrite Hst, Hsum.
    destruct (truthy_opt (farmer p)), (Routes.labVerified (Routes.heap s) p), complete,
      (Routes.qrGenerated (Routes.heap s) p); cbn; split;
      try discriminate; try (intros [A [B [C D]]]; discriminate); auto.
  - rewrite Hst, Hsum.
    destruct (truthy_opt (farmer p)), (Routes.labVerified (Routes.heap s) p), complete,
      (Routes.qrGenerated (Routes.heap s) p); cbn; split; try discriminate; auto.
  - intros Hs Hp.
    destruct (@bundle_farmer_served _ s b c p Hs Hp) as [a [ce [Hf _]]].
    assert (Hq : Routes.qrGenerated (Routes.heap s) p = false).
    { unfold Routes.qrGenerated. destruct (processor p) as [x|] eqn:Ex; [|reflexivity].
      destruct (@bundle_processor_served _ s b c p x Hs Hp Ex) as [_ [pr [-> [_ Hn]]]].
      cbn. now rewrite Hn. }
    rewrite Hst, Hsum, Hf, Hq. cbn [truthy_opt].
    destruct (lab p) as [la|] eqn:Hl.
    + destruct (@bundle_lab_served _ s b c p la Hs Hp Hl) as [-> _].
      destruct complete; [right; right|right; left]; cbn; repeat split; congruence.
    + left. assert (Hv : Routes.labVerified (Routes.heap s) p = false).
      { unfold Routes.labVerified. now rewrite Hl. }
      assert (Hn : processor p = None).
      { destruct (processor p) as [x|] eqn:Ex; [|reflexivity].
        destruct (@bundle_processor_served _ s b c p x Hs Hp Ex) as [[la Hla] _]. congruence. }
      rewrite Hv. unfold complete. rewrite Hn. cbn. auto.
Qed.

(** ** The customer's view *)

(** X19.  GET /api/customer/batch/:id on a server.  The answer is 404
    when [getProvenance] is null; otherwise it is a success, never the
    500 of a farmer without [gps]: the view has the farm, read off the
    collection event and with the region name of its position, the
    score of the bundle, a quality part and a processing part exactly
    when the bundle has them, no QR reference in the processing part,
    and [isComplete] set exactly when a processing record exists. *)
Theorem customer_view_of_a_served_batch `{Host} (s : Routes.State) (b : string)
  (c cq : Clock) :
  served s ->
  (getProvenance (Routes.read (Routes.heap s)) (memory (Routes.service s)) b c = None ->
   Routes.customerBatch s b c cq
   = Routes.refuse 404 "Batch not found"
       (Some ("No provenance data found for batch " ++ b)%string) None)
  /\ forall p,
       getProvenance (Routes.read (Routes.heap s)) (memory (Routes.service s)) b c = Some p ->
       exists view a ce,
         Routes.customerBatch s b c cq = Routes.answer view
         /\ farmer p = Some a
         /\ Routes.read (Routes.heap s) a = Collection ce
         /\ Routes.cp_batchID view = b
         /\ Routes.cp_farm view
            = Some {| Routes.fv_farmerName := Some (farmerName ce);
                      Routes.fv_coordinates := gps ce;
                      Routes.fv_region := Routes.getRegionName (gps ce);
                      Routes.fv_harvestDate := Some (timestamp ce);
                      Routes.fv_species := Some (species ce);
                      Routes.fv_moisture := Some (ce_moisture ce);
                      Routes.fv_photo := photo ce |}
         /\ Routes.cp_verification view
            = Routes.calculateVerificationScore (Routes.heap s) p
         /\ (Routes.cp_quality view = None <-> lab p = None)
         /\ (Routes.cp_processing view = None <-> processor p = None)
         /\ (forall pv, Routes.cp_processing view = Some pv -> Routes.pv_qrCode pv = None)
         /\ Routes.mv_isComplete (Routes.cp_metadata view) = truthy_opt (processor p)
         /\ Routes.mv_qrVerificationUrl (Routes.cp_metadata view) = generateQRData b
         /\ Routes.cv_hash (Routes.cp_blockchain view) = blockchainHash p.
Proof.
  intros Hs. split.
  - intros Hn. unfold Routes.customerBatch. now rewrite Hn.
  - intros p Hp.
    destruct (@bundle_farmer_served _ s b c p Hs Hp) as [a [ce [Hf [Hce _]]]].
    unfold Routes.customerBatch. rewrite Hp, Hf. cbv zeta. rewrite Hce. cbn [data_gps].
    match goal with
    | |- exists view _ _, Routes.answer ?v = Routes.answer view /\ _ => exists v
    end.
    exists a, ce. split; [reflexivity|]. split; [reflexivity|]. split; [exact Hce|].
    cbn [Routes.cp_batchID Routes.cp_farm Routes.cp_verification Routes.cp_quality
         Routes.cp_processing Routes.cp_metadata Routes.cp_blockchain
         Routes.mv_isComplete Routes.mv_qrVerificationUrl Routes.cv_hash].
    split; [reflexivity|]. split; [reflexivity|]. split; [reflexivity|].
    split; [destruct (lab p); cbn; split; congruence|].
    split; [destruct (processor p); cbn; split; congruence|].
    split.
    { intros pv. destruct (processor p) as [x|] eqn:Ex; [|discriminate].
      cbn [option_map]. intros E. injection E as <-. cbn [Routes.processingView Routes.pv_qrCode].
      destruct (@bundle_processor_served _ s b c p x Hs Hp Ex) as [_ [pr [-> [_ Hn]]]].
      exact Hn. }
    split.
    { rewrite (isVerified_spec _ _ _ _ Hp).
      destruct (processor p) as [x|] eqn:Ex; [|apply andb_false_r].
      destruct (@bundle_processor_served _ s b c p x Hs Hp Ex) as [[la ->] _]. reflexivity. }
    split; [|reflexivity].
    revert Hp. unfold getProvenance. destruct (_ =? 0)%nat; [discriminate|].
    intros E. now injection E as <-.
Qed.

Lemma accepted_limits (d : Payload) :
  snd (validateQualityTest d) = Js.Return accept ->
  Js.gt (data_pesticide d) 0.1%float = false
  /\ Js.truthy (data_heavyMetals d) && Js.gt (data_heavyMetals d) 0.05%float = false
  /\ Js.lt (data_moisture d) 8%float = false
  /\ Js.gt (data_moisture d) 20%float = false.
Proof.
  unfold validateQualityTest.
  destruct (Js.gt (data_pesticide d) 0.1%float); [discriminate|].
  destruct (Js.truthy (data_heavyMetals d) && Js.gt (data_heavyMetals d) 0.05%float);
    [discriminate|].
  destruct (Js.lt (data_moisture d) 8%float); [discriminate|].
  destruct (Js.gt (data_moisture d) 20%float); [discriminate|]. auto.
Qed.

Lemma truthy_not_nan (v : float) : Js.truthy (Some v) = true -> PrimFloat.is_nan v = false.
Proof.
  unfold Js.truthy. intros E. apply andb_true_iff in E. destruct E as [_ E].
  now apply negb_true_iff in E.
Qed.

(** X20.  What the customer reads about a recorded test.  For the test
    in a bundle of a server, the view says verified, heavy metals
    'Safe', and, when the stored pesticide and moisture are numbers,
    pesticide 'Safe' and moisture 'Optimal': the readings 'Warning' and
    'Acceptable' do not occur for recorded tests. *)
Theorem served_quality_readings `{Host} (s : Routes.State) (b : string) (c : Clock)
  (p : Provenance Routes.address) (la : Routes.address) :
  served s ->
  getProvenance (Routes.read (Routes.heap s)) (memory (Routes.service s)) b c = Some p ->
  lab p = Some la ->
  exists q,
    Routes.read (Routes.heap s) la = Quality q
    /\ Routes.qv_verified (Routes.qualityView (Quality q)) = Some true
    /\ Routes.rd_status (Routes.qv_heavyMetals (Routes.qualityView (Quality q)))
       = "Safe"%string
    /\ (PrimFloat.is_nan (pesticide q) = false ->
        Routes.rd_status (Routes.qv_pesticideLevel (Routes.qualityView (Quality q)))
        = "Safe"%string)
    /\ (PrimFloat.is_nan (qt_moisture q) = false ->
        Routes.rd_status (Routes.qv_moisture (Routes.qualityView (Quality q)))
        = "Optimal"%string).
Proof.
  intros Hs Hp Hl.
  destruct (@bundle_lab_served _ s b c p la Hs Hp Hl) as [_ [q [Hq [_ [Hver [_ Hrule]]]]]].
  exists q. split; [exact Hq|].
  destruct (accepted_limits _ Hrule) as [Hpe [Hhm [Hlo Hhi]]]. cbn in Hpe, Hhm, Hlo, Hhi.
  unfold Routes.qualityView.
  cbn [Routes.qv_verified Routes.qv_heavyMetals Routes.qv_pesticideLevel Routes.qv_moisture
       Routes.rd_status data_verified data_heavyMetals data_pesticide data_moisture
       Js.le Js.ge].
  split; [now rewrite Hver|]. split; [|split].
  - destruct (heavyMetals q) as [v|]; [|vm_compute; reflexivity].
    unfold Routes.heavyMetals_or_zero.
    destruct (Js.truthy (Some v)) eqn:T; [|vm_compute; reflexivity].
    cbn in Hhm. rewrite (@not_ltb_leb 0.05%float v); auto using truthy_not_nan.
  - intros Hn. rewrite (@not_ltb_leb 0.1%float (pesticide q)); auto.
  - intros Hn. rewrite (@not_ltb_leb (qt_moisture q) 8%float); auto.
    rewrite (@not_ltb_leb 20%float (qt_moisture q)); auto.
Qed.

(** The sample server states are server states. *)
Lemma served_labelledState : @served demoHost labelledState.
Proof.
  unfold labelledState, processedState, demoUpdateStatus, testedState, demoLabUpload,
    demoFarmerUpload, freshWorld.
  apply (@served_qr demoHost). do 3 apply (@served_update demoHost).
  apply (@served_lab demoHost). apply (@served_farmer demoHost).
  apply (@served_boot demoHost).
Qed.

(** The processed batch is found, an unknown one is not. *)
Lemma served_batch_means_collected_witness :
  @Routes.farmerBatch demoHost labelledState "BATCH_ASH_2000" (demoClock "9000")
  = Routes.answer {| Routes.bd_batch := 1;
                     Routes.bd_hasQualityTest := true;
                     Routes.bd_hasProcessing := true;
                     Routes.bd_isComplete := true |}
  /\ @Routes.farmerBatch demoHost labelledState "BATCH_ASH_1" (demoClock "9000")
     = Routes.refuse 404 "Batch not found" None None.
Proof.
  destruct (@served_batch_means_collected demoHost labelledState "BATCH_ASH_2000"
              (demoClock "9000") served_labelledState) as [_ [_ Hsome]].
  destruct (@served_batch_means_collected demoHost labelledState "BATCH_ASH_1"
              (demoClock "9000") served_labelledState) as [_ [Hnone _]].
  split.
  - destruct (@getProvenance demoHost _ (Routes.read (Routes.heap labelledState))
                (memory (Routes.service labelledState)) "BATCH_ASH_2000" (demoClock "9000"))
      as [p|] eqn:Hp; [|vm_compute in Hp; discriminate Hp].
    destruct (Hsome p eq_refl) as [a [ce [Hf [_ [_ E]]]]]. rewrite E.
    vm_compute in Hp. injection Hp as <-. cbn in Hf. injection Hf as <-. reflexivity.
  - apply Hnone. vm_compute. reflexivity.
Defined.

(** The processed batch: its bundle is verified and shows the test. *)
Lemma served_processing_has_passed_test_witness :
  exists p la q,
    @getProvenance demoHost _ (Routes.read (Routes.heap processedState))
      (memory (Routes.service processedState)) "BATCH_ASH_2000" (demoClock "9000") = Some p
    /\ processor p = Some 3
    /\ isVerified p = true
    /\ lab p = Some la
    /\ Routes.read (Routes.heap processedState) la = Quality q
    /\ verified q = true.
Proof.
  assert (Hs : @served demoHost processedState).
  { unfold processedState, demoUpdateStatus, testedState, demoLabUpload,
      demoFarmerUpload, freshWorld.
    do 3 apply (@served_update demoHost).
    apply (@served_lab demoHost). apply (@served_farmer demoHost).
    apply (@served_boot demoHost). }
  destruct (@getProvenance demoHost _ (Routes.read (Routes.heap processedState))
              (memory (Routes.service processedState)) "BATCH_ASH_2000" (demoClock "9000"))
    as [p|] eqn:Hp; [|vm_compute in Hp; discriminate Hp].
  assert (Ha : processor p = Some 3).
  { vm_compute in Hp. injection Hp as <-. reflexivity. }
  destruct (@served_processing_has_passed_test demoHost processedState "BATCH_ASH_2000"
              (demoClock "9000") p 3 Hs Hp Ha)
    as [Hv [_ [la [q [pr [Hl [Hq [_ [Hver _]]]]]]]]].
  exists p, la, q. auto 10.
Defined.

(** After generate-qr the last transaction carries the QR reference; the
    bundle and the status route do not show it. *)
Lemma served_bundle_never_shows_qr_witness :
  List.map (fun tx => data_qrCode (Routes.read (Routes.heap labelledState) (data tx)))
           (transactions (memory (Routes.service labelledState)))
  = [None; None; None; None; None; None;
     Some "/uploads/qr-codes/qr_BATCH_ASH_2000_7000.png"%string]
  /\ exists p st,
       @getProvenance demoHost _ (Routes.read (Routes.heap labelledState))
         (memory (Routes.service labelledState)) "BATCH_ASH_2000" (demoClock "9000") = Some p
       /\ Routes.qrGenerated (Routes.heap labelledState) p = false
       /\ @Routes.batchStatus demoHost labelledState "BATCH_ASH_2000" (demoClock "9000")
          = Routes.answer st
       /\ Routes.st_qrGenerated st = false.
Proof.
  split; [vm_compute; reflexivity|].
  destruct (@getProvenance demoHost _ (Routes.read (Routes.heap labelledState))
              (memory (Routes.service labelledState)) "BATCH_ASH_2000" (demoClock "9000"))
    as [p|] eqn:Hp; [|vm_compute in Hp; discriminate Hp].
  destruct (@served_bundle_never_shows_qr demoHost labelledState "BATCH_ASH_2000"
              (demoClock "9000") p served_labelledState Hp) as [Hg [_ [st [E [Hq _]]]]].
  exists p, st. auto.
Defined.

(** Seven transactions: genesis, one collection, one test, four
    processing transactions. *)
Lemma served_stats_account_witness :
  getStats (memory (Routes.service labelledState))
  = {| totalTransactions := 7; collectionEvents := 1; qualityTests := 1;
       processingSteps := 4; lastTransaction := Some "2025-06-15T08:30:00.000Z" |}
  /\ totalTransactions (getStats (memory (Routes.service labelledState)))
     = 1 + collectionEvents (getStats (memory (Routes.service labelledState)))
       + qualityTests (getStats (memory (Routes.service labelledState)))
       + processingSteps (getStats (memory (Routes.service labelledState))).
Proof.
  split; [vm_compute; reflexivity|].
  exact (proj1 (@served_stats_account demoHost labelledState served_labelledState)).
Defined.

(** The fully processed batch with its QR code issued scores 85. *)
Lemma verification_score_levels_witness :
  exists p,
    @getProvenance demoHost _ (Routes.read (Routes.heap labelledState))
      (memory (Routes.service labelledState)) "BATCH_ASH_2000" (demoClock "9000") = Some p
    /\ Routes.score (Routes.calculateVerificationScore (Routes.heap labelledState) p) = 85
    /\ Routes.vs_status (Routes.calculateVerificationScore (Routes.heap labelledState) p)
       = "Well Verified"%string.
Proof.
  destruct (@getProvenance demoHost _ (Routes.read (Routes.heap labelledState))
              (memory (Routes.service labelledState)) "BATCH_ASH_2000" (demoClock "9000"))
    as [p|] eqn:Hp; [|vm_compute in Hp; discriminate Hp].
  exists p. split; [reflexivity|].
  destruct (proj2 (proj2 (@verification_score_levels demoHost labelledState "BATCH_ASH_2000"
                            (demoClock "9000") p)) served_labelledState Hp)
    as [[_ [_ [Hl _]]]|[[_ [_ [_ Hc]]]|[H85 [Hst _]]]].
  - exfalso. vm_compute in Hp. injection Hp as <-. discriminate Hl.
  - exfalso. vm_compute in Hp. injection Hp as <-. vm_compute in Hc. discriminate Hc.
  - split; assumption.
Defined.

(** The customer's view of the fully processed batch. *)
Lemma customer_view_of_a_served_batch_witness :
  exists view,
    @Routes.customerBatch demoHost labelledState "BATCH_ASH_2000" (demoClock "9000")
      (demoClock "9001") = Routes.answer view
    /\ option_map Routes.fv_region (Routes.cp_farm view) = Some "Rajasthan, India"%string
    /\ Routes.score (Routes.cp_verification view) = 85
    /\ option_map Routes.pv_qrCode (Routes.cp_processing view) = Some None
    /\ Routes.mv_isComplete (Routes.cp_metadata view) = true.
Proof.
  destruct (@getProvenance demoHost _ (Routes.read (Routes.heap labelledState))
              (memory (Routes.service labelledState)) "BATCH_ASH_2000" (demoClock "9000"))
    as [p|] eqn:Hp; [|vm_compute in Hp; discriminate Hp].
  destruct (proj2 (@customer_view_of_a_served_batch demoHost labelledState "BATCH_ASH_2000"
                     (demoClock "9000") (demoClock "9001") served_labelledState) p Hp)
    as [view [a [ce [E _]]]].
  exists view. split; [exact E|].
  vm_compute in E. injection E as <-. vm_compute. auto.
Defined.

(** The recorded test of the sample batch. *)
Lemma served_quality_readings_witness :
  exists q,
    Routes.read (Routes.heap labelledState) 2 = Quality q
    /\ Routes.rd_status (Routes.qv_heavyMetals (Routes.qualityView (Quality q)))
       = "Safe"%string
    /\ Routes.rd_status (Routes.qv_pesticideLevel (Routes.qualityView (Quality q)))
       = "Safe"%string
    /\ Routes.rd_status (Routes.qv_moisture (Routes.qualityView (Quality q)))
       = "Optimal"%string.
Proof.
  destruct (@getProvenance demoHost _ (Routes.read (Routes.heap labelledState))
              (memory (Routes.service labelledState)) "BATCH_ASH_2000" (demoClock "9000"))
    as [p|] eqn:Hp; [|vm_compute in Hp; discriminate Hp].
  assert (Hl : lab p = Some 2).
  { vm_compute in Hp. injection Hp as <-. reflexivity. }
  destruct (@served_quality_readings demoHost labelledState "BATCH_ASH_2000"
              (demoClock "9000") p 2 served_labelledState Hp Hl)
    as [q [Hq [_ [Hh [Hpe Hmo]]]]].
  exists q. split; [exact Hq|]. split; [exact Hh|].
  assert (Hq' := Hq). vm_compute in Hq'. injection Hq' as <-.
  split; [apply Hpe|apply Hmo]; vm_compute; reflexivity.
Defined.

(** ** Region names *)

Lemma box_test (a b c d x y : float) :
  PrimFloat.leb a x && PrimFloat.leb x b && PrimFloat.leb c y && PrimFloat.leb y d = true
  <-> PrimFloat.leb a x = true /\ PrimFloat.leb x b = true
      /\ PrimFloat.leb c y = true /\ PrimFloat.leb y d = true.
Proof.
  rewrite !andb_true_iff. tauto.
Qed.

Lemma box_inside (a b c d a' b' c' d' x y : float) :
  PrimFloat.leb a' a = true -> PrimFloat.leb b b' = true ->
  PrimFloat.leb c' c = true -> PrimFloat.leb d d' = true ->
  PrimFloat.leb a x && PrimFloat.leb x b && PrimFloat.leb c y && PrimFloat.leb y d = true ->
  PrimFloat.leb a' x && PrimFloat.leb x b' && PrimFloat.leb c' y && PrimFloat.leb y d' = true.
Proof.
  intros Ha Hb Hc Hd. rewrite !box_test. intros [H1 [H2 [H3 H4]]].
  repeat split; eapply leb_trans; eauto.
Qed.

Lemma box_apart (a b c d a' b' c' d' x y : float) :
  PrimFloat.leb a b' = false ->
  PrimFloat.leb a' x && PrimFloat.leb x b' && PrimFloat.leb c' y && PrimFloat.leb y d' = true ->
  PrimFloat.leb a x && PrimFloat.leb x b && PrimFloat.leb c y && PrimFloat.leb y d = false.
Proof.
  intros Hn. rewrite box_test. intros [_ [H2 _]].
  destruct (PrimFloat.leb a x && PrimFloat.leb x b && PrimFloat.leb c y && PrimFloat.leb y d)
    eqn:E; [|reflexivity].
  apply box_test in E. destruct E as [E1 _].
  rewrite (leb_trans E1 H2) in Hn. discriminate Hn.
Qed.

(** X21.  [getRegionName] names a region by the first box that holds the
    point: "Rajasthan, India" exactly on the Ashwagandha geo-fence of
    the ledger, "Tamil Nadu, India" exactly on the Tamil Nadu box,
    "Karnataka, India" on the Karnataka box except where the Tamil Nadu
    box has already answered, and "Unknown Region" exactly outside the
    India box (a NaN coordinate included). *)
Theorem getRegionName_regions (g : GPSCoordinates) :
  (Routes.getRegionName g = "Rajasthan, India"%string <-> isValidLocation g = true)
  /\ (Routes.getRegionName g = "Tamil Nadu, India"%string
      <-> PrimFloat.leb 8.0%float (lat g) && PrimFloat.leb (lat g) 13.5%float
          && PrimFloat.leb 76.0%float (lng g) && PrimFloat.leb (lng g) 80.5%float = true)
  /\ (Routes.getRegionName g = "Karnataka, India"%string
      <-> PrimFloat.leb 11.5%float (lat g) && PrimFloat.leb (lat g) 18.5%float
          && PrimFloat.leb 74.0%float (lng g) && PrimFloat.leb (lng g) 78.5%float = true
          /\ Routes.getRegionName g <> "Tamil Nadu, India"%string)
  /\ (Routes.getRegionName g = "Unknown Region"%string <-> ~ inIndiaBox g).
Proof.
  unfold Routes.getRegionName, isValidLocation, inIndiaBox.
  rewrite <- box_test.
  set (R := PrimFloat.leb 24.0%float (lat g) && PrimFloat.leb (lat g) 30.0%float
            && PrimFloat.leb 69.0%float (lng g) && PrimFloat.leb (lng g) 78.0%float).
  set (T := PrimFloat.leb 8.0%float (lat g) && PrimFloat.leb (lat g) 13.5%float
            && PrimFloat.leb 76.0%float (lng g) && PrimFloat.leb (lng g) 80.5%float).
  set (K := PrimFloat.leb 11.5%float (lat g) && PrimFloat.leb (lat g) 18.5%float
            && PrimFloat.leb 74.0%float (lng g) && PrimFloat.leb (lng g) 78.5%float).
  set (I := PrimFloat.leb 6.0%float (lat g) && PrimFloat.leb (lat g) 37.0%float
            && PrimFloat.leb 68.0%float (lng g) && PrimFloat.leb (lng g) 97.0%float).
  assert (HRI : R = true -> I = true).
  { apply box_inside; vm_compute; reflexivity. }
  assert (HTI : T = true -> I = true).
  { apply box_inside; vm_compute; reflexivity. }
  assert (HKI : K = true -> I = true).
  { apply box_inside; vm_compute; reflexivity. }
  assert (HTR : T = true -> R = false).
  { apply box_apart. vm_compute. reflexivity. }
  assert (HKR : K = true -> R = false).
  { apply box_apart. vm_compute. reflexivity. }
  destruct R, T, K, I;
    try (specialize (HRI eq_refl)); try (specialize (HTI eq_refl));
    try (specialize (HKI eq_refl)); try (specialize (HTR eq_refl));
    try (specialize (HKR eq_refl)); try discriminate;
    repeat split; try discriminate; try reflexivity; try congruence;
    try (intros [_ E]; congruence); try (intros E; contradiction E; reflexivity);
    try (intros [E _]; discriminate E).
Qed.

(** ** Recorded collections respect the geo-fence *)

Lemma sameRecord_collection (d d' : Payload) (ce : CollectionEvent) :
  sameRecord d d' -> d' = Collection ce -> d = Collection ce.
Proof.
  destruct d, d'; cbn; try congruence; intros [_ _]; discriminate.
Qed.

Section Fenced.

Context `{Host}.

Lemma fenced_heap (s : Routes.State) (h' : list Payload) :
  allocated s -> fenced s -> preserves (Routes.heap s) h' ->
  fenced {| Routes.heap := h'; Routes.service := Routes.service s |}.
Proof.
  intros Hwf Hf [_ K] tx ce Hin Hty Hce. cbn [Routes.heap Routes.service] in *.
  apply (Hf tx ce Hin Hty).
  exact (@sameRecord_collection _ _ ce (K _ (Hwf tx Hin)) Hce).
Qed.

Lemma fenced_submit (s : Routes.State) (h' : list Payload) (ty : string)
  (a : Routes.address) (e : list string) (c : Clock) (io : WriteOutcome) :
  allocated s -> fenced s -> preserves (Routes.heap s) h' ->
  fenced {| Routes.heap := h';
            Routes.service :=
              snd (submitTransaction (Routes.read h') (Routes.service s) ty a e c io) |}.
Proof.
  intros Hwf Hf Hk.
  pose proof (@fenced_heap s h' Hwf Hf Hk) as Hf'.
  destruct (valid (snd (validateTransaction (Routes.read h') (memory (Routes.service s))
                          (newTransaction (Routes.read h') (memory (Routes.service s))
                             ty a e c)))) eqn:Hv.
  - pose proof (submitTransaction_valid (Routes.read h') (Routes.service s) ty a e c io Hv)
      as Hm.
    intros tx ce Hin Hty Hce Hash. cbn [Routes.heap Routes.service] in Hin, Hce.
    rewrite Hm in Hin. cbn [push transactions] in Hin.
    apply in_app_or in Hin. destruct Hin as [Hin|[<-|[]]].
    + exact (Hf' tx ce Hin Hty Hce Hash).
    + rewrite (validateTransaction_ashwagandha (Routes.read h') (memory (Routes.service s))
                 _ Hty Hce Hash) in Hv.
      destruct (isValidLocation (gps ce)); [reflexivity|discriminate Hv].
  - rewrite (submitTransaction_invalid (Routes.read h') (Routes.service s) ty a e c io Hv).
    exact Hf'.
Qed.

Lemma served_fenced (s : Routes.State) : served s -> fenced s.
Proof.
  intros Hs.
  induction Hs as [c io|s v photoFile c cs io Hs Hf
                  |s v report c cs io Hs Hf
                  |s v c cs io Hs Hf
                  |s v files c cs io Hs Hf].
  - intros tx ce Hin Hty. destruct io; cbn in Hin; destruct Hin as [<-|[]];
      discriminate Hty.
  - destruct v as [det|value]; [exact Hf|].
    destruct (served_invariant Hs) as [Hwf _].
    destruct (farmerUpload_state s value photoFile c cs io) as [ce ->].
    apply fenced_submit; auto using preserves_alloc.
  - destruct v as [det|value]; [exact Hf|].
    destruct (served_invariant Hs) as [Hwf _].
    destruct (labUpload_state s value report c cs io) as [->|[q [_ [_ [_ [_ [_ ->]]]]]]];
      [exact Hf|].
    apply fenced_submit; auto using preserves_alloc.
  - destruct v as [det|value]; [exact Hf|].
    destruct (served_invariant Hs) as [Hwf _].
    destruct (updateStatus_run value c cs io Hwf (served_orderly Hs))
      as [h' [Hk [->|[a [_ ->]]]]].
    + now apply fenced_heap.
    + now apply fenced_submit.
  - destruct v as [det|value]; [exact Hf|].
    destruct (served_invariant Hs) as [Hwf _].
    destruct (generateQR_state s value files c cs io) as [->|[d ->]]; [exact Hf|].
    apply fenced_submit; auto using preserves_alloc.
Qed.

End Fenced.

(** X22.  On a server state, an Ashwagandha collection shown by a bundle
    lies inside the cultivation box, so [getRegionName] calls it
    "Rajasthan, India" and the customer's view of the batch carries that
    region. *)
Theorem served_ashwagandha_is_from_rajasthan `{Host} (s : Routes.State) (b : string)
  (c cq : Clock) (p : Provenance Routes.address) (a : Routes.address)
  (ce : CollectionEvent) :
  served s ->
  getProvenance (Routes.read (Routes.heap s)) (memory (Routes.service s)) b c = Some p ->
  farmer p = Some a ->
  Routes.read (Routes.heap s) a = Collection ce ->
  is_ashwagandha (species ce) = true ->
  inRajasthanBox (gps ce)
  /\ Routes.getRegionName (gps ce) = "Rajasthan, India"%string
  /\ exists view farm,
       Routes.customerBatch s b c cq = Routes.answer view
       /\ Routes.cp_farm view = Some farm
       /\ Routes.fv_region farm = "Rajasthan, India"%string.
Proof.
  intros Hs Hp Hf Hce Hash.
  destruct (farmer_in_ledger _ _ _ c Hp Hf) as [tx [Hin [[Hty _] [Hd _]]]].
  rewrite <- Hd in Hce.
  pose proof (served_fenced Hs tx Hin Hty Hce Hash) as Hloc.
  assert (Hreg : Routes.getRegionName (gps ce) = "Rajasthan, India"%string).
  { unfold Routes.getRegionName. unfold isValidLocation in Hloc. now rewrite Hloc. }
  split; [now apply isValidLocation_box|]. split; [exact Hreg|].
  unfold Routes.customerBatch. rewrite Hp, Hf. cbv zeta. rewrite <- Hd, Hce. cbn [data_gps].
  eexists. eexists. split; [reflexivity|]. cbn. split; [reflexivity|exact Hreg].
Qed.

Lemma served_ashwagandha_is_from_rajasthan_witness :
  exists view,
    @Routes.customerBatch demoHost labelledState "BATCH_ASH_2000" (demoClock "9000")
      (demoClock "9001") = Routes.answer view
    /\ option_map Routes.fv_species (Routes.cp_farm view) = Some (Some "Ashwagandha"%string)
    /\ option_map Routes.fv_region (Routes.cp_farm view) = Some "Rajasthan, India"%string.
Proof.
  destruct (@getProvenance demoHost _ (Routes.read (Routes.heap labelledState))
              (memory (Routes.service labelledState)) "BATCH_ASH_2000" (demoClock "9000"))
    as [p|] eqn:Hp; [|vm_compute in Hp; discriminate Hp].
  assert (Hf : farmer p = Some 1).
  { vm_compute in Hp. injection Hp as <-. reflexivity. }
  destruct (Routes.read (Routes.heap labelledState) 1) as [ce| | |] eqn:Hce;
    try (vm_compute in Hce; discriminate Hce).
  destruct (@served_ashwagandha_is_from_rajasthan demoHost labelledState "BATCH_ASH_2000"
              (demoClock "9000") (demoClock "9001") p 1 ce served_labelledState Hp Hf Hce)
    as [_ [_ [view [farm [E [Efarm Ereg]]]]]].
  - vm_compute in Hce. injection Hce as <-. vm_compute. reflexivity.
  - exists view. split; [exact E|]. rewrite Efarm. cbn. rewrite Ereg. split; [|reflexivity].
    vm_compute in E. injection E as <-. cbn in Efarm. injection Efarm as <-. reflexivity.
Defined.

(** ** The farmer routes *)

Section FarmerRoute.

Context `{Host}.




End FarmerRoute.







(** X25.  GET /api/farmer/batches on a server state: without a farmerId
    the answer is 400; with one, the listing counts its entries, has no
    more of them than the ledger has collections, and every entry is a
    collection transaction of that farmer, with its hash and time, whose
    batch GET /api/farmer/batch/:id finds. *)
Theorem farmer_batches_listing `{Host} (s : Routes.State) (f : option string) (c : Clock) :
  served s ->
  (Js.truthy_string f = false ->
   Routes.farmerBatches s f
   = Routes.refuse 400 "farmerId query parameter required" None None)
  /\ (Js.truthy_string f = true ->
      exists l,
        Routes.farmerBatches s f = Routes.answer l
        /\ Routes.ls_count l = List.length (Routes.ls_batches l)
        /\ Routes.ls_count l <= collectionEvents (getStats (memory (Routes.service s)))
        /\ forall e,
             In e (Routes.ls_batches l) ->
             exists tx ce details,
               In tx (transactions (memory (Routes.service s)))
               /\ type tx = "collection"%string
               /\ Routes.read (Routes.heap s) (data tx) = Collection ce
               /\ Routes.li_data e = Collection ce
               /\ Some (farmerId ce) = f
               /\ Routes.li_transactionHash e = hash tx
               /\ Routes.li_submittedAt e = tx_timestamp tx
               /\ Routes.farmerBatch s (ce_id ce) c = Routes.answer details).
Proof.
  intros Hs. pose proof (served_orderly Hs) as Ho. unfold Routes.farmerBatches. split.
  - intros ->. reflexivity.
  - intros ->. cbn [negb]. eexists. split; [reflexivity|].
    cbn [Routes.ls_count Routes.ls_batches]. split; [reflexivity|]. split.
    + rewrite length_map. unfold getStats, getTransactionsByType. cbn [collectionEvents].
      apply filter_length_le.
    + intros e He. apply in_map_iff in He. destruct He as [tx [<- Hin]].
      apply filter_In in Hin. destruct Hin as [Hin Hfid].
      unfold getTransactionsByType in Hin. apply filter_In in Hin.
      destruct Hin as [Hin Hty]. apply String.eqb_eq in Hty.
      destruct (typed_collection tx Ho Hin Hty) as [ce Hce].
      assert (Hcol : collects (Routes.read (Routes.heap s)) (ce_id ce) tx).
      { split; [exact Hty|]. now rewrite Hce. }
      destruct (getProvenance (Routes.read (Routes.heap s)) (memory (Routes.service s))
                  (ce_id ce) c) as [p|] eqn:Hp.
      * destruct (@bundle_farmer_served _ s (ce_id ce) c p Hs Hp) as [a [ce' [Hf _]]].
        exists tx, ce. eexists.
        split; [exact Hin|]. split; [exact Hty|]. split; [exact Hce|].
        cbn [Routes.li_data Routes.li_transactionHash Routes.li_submittedAt].
        split; [exact Hce|]. split.
        { rewrite Hce in Hfid. cbn in Hfid. destruct f as [y|]; [|discriminate Hfid].
          apply String.eqb_eq in Hfid. now rewrite Hfid. }
        split; [reflexivity|]. split; [reflexivity|].
        unfold Routes.farmerBatch. rewrite Hp, Hf. reflexivity.
      * exfalso. rewrite getProvenance_none in Hp.
        apply concerns_collection in Hcol. rewrite (Hp tx Hin) in Hcol. discriminate Hcol.
Qed.

Lemma farmer_batches_listing_witness :
  Routes.farmerBatches labelledState None
  = Routes.refuse 400 "farmerId query parameter required" None None
  /\ exists l,
       Routes.farmerBatches labelledState (Some "FARMER_001"%string) = Routes.answer l
       /\ Routes.ls_count l = 1
       /\ List.map Routes.li_submittedAt (Routes.ls_batches l)
          = ["2025-06-15T08:30:00.000Z"%string].
Proof.
  destruct (@farmer_batches_listing demoHost labelledState None (demoClock "9000")
              served_labelledState) as [Hno _].
  destruct (@farmer_batches_listing demoHost labelledState (Some "FARMER_001"%string)
              (demoClock "9000") served_labelledState) as [_ Hyes].
  split; [apply Hno; reflexivity|].
  destruct (Hyes eq_refl) as [l [E _]].
  exists l. split; [exact E|].
  vm_compute in E. injection E as <-. split; reflexivity.
Defined.

(** ** The frontend's hash *)

Lemma toInt32_range (z : Z) :
  (-2147483648 <= Frontend.toInt32 z < 2147483648)%Z.
Proof.
  unfold Frontend.toInt32.
  pose proof (Z.mod_pos_bound (z + 2147483648) 4294967296 eq_refl). lia.
Qed.

Lemma hashLoop_range (s : string) (h : Z) :
  (-2147483648 <= h < 2147483648)%Z ->
  (-2147483648 <= Frontend.hashLoop s h < 2147483648)%Z.
Proof.
  revert h. induction s as [|ch t IH]; intros h Hh; cbn [Frontend.hashLoop].
  - exact Hh.
  - apply IH. apply toInt32_range.
Qed.

Lemma hexDigit_value (d : Z) :
  (0 <= d < 16)%Z ->
  isHexDigit (Frontend.hexDigit d) = true /\ hexDigitValue (Frontend.hexDigit d) = d.
Proof.
  intros Hd.
  assert (Hc : (d = 0 \/ d = 1 \/ d = 2 \/ d = 3 \/ d = 4 \/ d = 5 \/ d = 6 \/ d = 7 \/ d = 8
                \/ d = 9 \/ d = 10 \/ d = 11 \/ d = 12 \/ d = 13 \/ d = 14 \/ d = 15)%Z) by lia.
  repeat (destruct Hc as [-> | Hc]; [split; reflexivity|]).
  subst d. split; reflexivity.
Qed.

Lemma toString16_value (f : nat) :
  forall (n : Z) (acc : string),
    (0 <= n < 16 ^ Z.of_nat f)%Z -> 1 <= f ->
    hexValue (Frontend.toString16 f n acc) 0 = hexValue acc n.
Proof.
  induction f as [|f IH]; intros n acc Hn Hf; [lia|].
  cbn [Frontend.toString16]. destruct (n <? 16)%Z eqn:E.
  - apply Z.ltb_lt in E. cbn [hexValue].
    destruct (@hexDigit_value n) as [_ ->]; [lia|]. f_equal.
  - apply Z.ltb_ge in E.
    assert (Hf' : 1 <= f).
    { destruct f; [|lia]. cbn in Hn. lia. }
    rewrite IH; [|split|exact Hf'].
    + cbn [hexValue].
      destruct (@hexDigit_value (n mod 16)) as [_ ->];
        [apply Z.mod_pos_bound; lia|].
      f_equal. pose proof (Z.div_mod n 16). lia.
    + apply Z.div_pos; lia.
    + apply Z.div_lt_upper_bound; [lia|].
      rewrite Nat2Z.inj_succ, Z.pow_succ_r in Hn by lia. lia.
Qed.

Lemma toString16_hex (f : nat) :
  forall (n : Z) (acc : string),
    (0 <= n)%Z -> allHex acc = true -> allHex (Frontend.toString16 f n acc) = true.
Proof.
  induction f as [|f IH]; intros n acc Hn Ha; cbn [Frontend.toString16]; [exact Ha|].
  destruct (n <? 16)%Z eqn:E.
  - apply Z.ltb_lt in E. cbn [allHex].
    destruct (@hexDigit_value n) as [-> _]; [lia|]. exact Ha.
  - apply IH; [apply Z.div_pos; lia|]. cbn [allHex].
    destruct (@hexDigit_value (n mod 16)) as [-> _]; [apply Z.mod_pos_bound; lia|]. exact Ha.
Qed.

Lemma toString16_length (f : nat) :
  forall (k : nat) (n : Z) (acc : string),
    (0 <= n < 16 ^ Z.of_nat k)%Z -> 1 <= k -> k <= f ->
    S (String.length acc) <= String.length (Frontend.toString16 f n acc)
    /\ String.length (Frontend.toString16 f n acc) <= k + String.length acc.
Proof.
  induction f as [|f IH]; intros k n acc Hn Hk Hkf; [lia|].
  cbn [Frontend.toString16]. destruct (n <? 16)%Z eqn:E.
  - cbn [String.length]. lia.
  - apply Z.ltb_ge in E.
    destruct k as [|k]; [lia|].
    assert (Hk' : 1 <= k).
    { destruct k; [|lia]. cbn in Hn. lia. }
    destruct (IH k (n / 16)%Z (String (Frontend.hexDigit (n mod 16)) acc)) as [H1 H2];
      [split| |lia|].
    + apply Z.div_pos; lia.
    + apply Z.div_lt_upper_bound; [lia|].
      rewrite Nat2Z.inj_succ, Z.pow_succ_r in Hn by lia. lia.
    + exact Hk'.
    + cbn [String.length] in H1, H2. lia.
Qed.

(** X26.  [generateHash] of the frontend: the loop stays in the 32-bit
    range, and the result is the lower-case hexadecimal numeral of the
    absolute value of the loop's result, one to eight digits long.  Two
    texts get the same hash exactly when the loop gives them the same
    number or opposite numbers. *)
Theorem generateHash_is_the_hex_numeral (s : string) :
  (-2147483648 <= Frontend.hashLoop s 0 < 2147483648)%Z
  /\ allHex (Frontend.generateHash s) = true
  /\ hexValue (Frontend.generateHash s) 0 = Z.abs (Frontend.hashLoop s 0)
  /\ 1 <= String.length (Frontend.generateHash s) <= 8
  /\ forall s',
       Frontend.generateHash s = Frontend.generateHash s'
       <-> (Frontend.hashLoop s 0 = Frontend.hashLoop s' 0
            \/ Frontend.hashLoop s 0 = (- Frontend.hashLoop s' 0)%Z).
Proof.
  assert (Hr : forall t, (-2147483648 <= Frontend.hashLoop t 0 < 2147483648)%Z).
  { intros t. apply hashLoop_range. lia. }
  assert (Hv : forall t, hexValue (Frontend.generateHash t) 0 = Z.abs (Frontend.hashLoop t 0)).
  { intros t. unfold Frontend.generateHash. rewrite toString16_value.
    - reflexivity.
    - pose proof (Hr t). change (16 ^ Z.of_nat 9)%Z with 68719476736%Z. lia.
    - lia. }
  split; [apply Hr|]. split.
  { unfold Frontend.generateHash. apply toString16_hex; [lia|reflexivity]. }
  split; [apply Hv|]. split.
  { unfold Frontend.generateHash.
    destruct (@toString16_length 9 8 (Z.abs (Frontend.hashLoop s 0)) "") as [H1 H2].
    - pose proof (Hr s). change (16 ^ Z.of_nat 8)%Z with 4294967296%Z. lia.
    - lia.
    - lia.
    - cbn [String.length] in H1, H2. lia. }
  intros s'. split.
  - intros E. pose proof (Hv s) as H1. pose proof (Hv s') as H2.
    rewrite E in H1. lia.
  - intros E. unfold Frontend.generateHash. f_equal. lia.
Qed.

(** ** The frontend's log *)

Lemma last_snoc_default (A : Type) (l : list A) (x d : A) : List.last (l ++ [x]) d = x.
Proof.
  induction l as [|a l IH]; [reflexivity|].
  cbn [app]. destruct (l ++ [x]) eqn:E.
  - destruct l; discriminate E.
  - cbn [List.last]. cbn [List.last] in IH. exact IH.
Qed.

Lemma frontend_last_hash_snoc (st : Frontend.BlockchainState)
  (l : list Frontend.BlockchainTransaction) (t : Frontend.BlockchainTransaction) :
  Frontend.transactions st = l ++ [t] ->
  Frontend.getLastTransactionHash st = Frontend.hash t.
Proof.
  intros E. unfold Frontend.getLastTransactionHash. rewrite E.
  destruct l as [|a l]; [reflexivity|].
  cbn [app]. f_equal.
  destruct l as [|b l]; [reflexivity|].
  change (List.last ((b :: l) ++ [t]) a = t). apply last_snoc_default.
Qed.

Lemma linked_snoc (l : list Frontend.BlockchainTransaction)
  (t : Frontend.BlockchainTransaction) :
  linked l ->
  (forall l' u, l = l' ++ [u] -> Frontend.previousHash t = Frontend.hash u) ->
  linked (l ++ [t]).
Proof.
  intros Hl Ht i a b Ha Hb.
  destruct (Nat.lt_ge_cases (S i) (List.length l)) as [Hlt|Hge].
  - rewrite nth_error_app1 in Ha by lia. rewrite nth_error_app1 in Hb by lia.
    exact (Hl i a b Ha Hb).
  - assert (Hi : S i = List.length l).
    { assert (S i < List.length (l ++ [t])).
      { apply nth_error_Some. rewrite Hb. discriminate. }
      rewrite length_app in H. cbn in H. lia. }
    rewrite nth_error_app2 in Hb by lia.
    replace (S i - List.length l) with 0 in Hb by lia. cbn in Hb. injection Hb as <-.
    rewrite nth_error_app1 in Ha by lia.
    destruct (@exists_last _ l) as [l' [u E]].
    { intros ->. cbn in Hi. lia. }
    rewrite (Ht l' u E). f_equal.
    rewrite E in Ha. rewrite E, length_app in Hi. cbn in Hi.
    rewrite nth_error_app2 in Ha by lia.
    replace (i - List.length l') with 0 in Ha by lia. cbn in Ha. congruence.
Qed.

(** X27.  The frontend's log, after the constructor and any sequence of
    submissions: each transaction names the hash of the one before it,
    the first one names "0x000", the log holds at least three
    transactions, and each hash is [generateHash] of the payload's text
    alone. *)
Theorem frontend_log_is_linked `{Host} (st : Frontend.BlockchainState) :
  simulated st ->
  linked (Frontend.transactions st)
  /\ (exists t rest,
        Frontend.transactions st = t :: rest
        /\ Frontend.previousHash t = "0x000"%string
        /\ 2 <= List.length rest)
  /\ forall tx,
       In tx (Frontend.transactions st) ->
       Frontend.hash tx = Frontend.generateHash (JSON_stringify (Frontend.data tx)).
Proof.
  intros Hs. induction Hs as [c1 c2 c3|st ty d c Hs [IH1 [[t [rest [IH2 [IH3 IH4]]]] IH5]]].
  - split; [|split].
    + intros i a b Ha Hb.
      destruct i as [|[|i]]; cbn in Ha, Hb.
      * injection Ha as <-. injection Hb as <-. reflexivity.
      * injection Ha as <-. injection Hb as <-. reflexivity.
      * destruct i; discriminate Hb.
    + eexists. eexists. split; [reflexivity|]. split; [reflexivity|]. cbn. lia.
    + intros tx Hin. cbn in Hin.
      destruct Hin as [<-|[<-|[<-|[]]]]; reflexivity.
  - cbn [Frontend.submitTransaction snd Frontend.transactions]. split; [|split].
    + apply linked_snoc; [exact IH1|].
      intros l' u E. cbn [Frontend.previousHash].
      apply (@frontend_last_hash_snoc st l' u E).
    + exists t, (rest ++ [{| Frontend.id := ("tx_" ++ nowMs c ++ "_" ++ random36 c)%string;
                             Frontend.type := ty;
                             Frontend.data := d;
                             Frontend.timestamp := nowIso c;
                             Frontend.hash := Frontend.generateHash (JSON_stringify d);
                             Frontend.previousHash := Frontend.getLastTransactionHash st |}]).
      rewrite IH2. split; [reflexivity|]. split; [exact IH3|].
      rewrite length_app. lia.
    + intros tx Hin. apply in_app_or in Hin. destruct Hin as [Hin|[<-|[]]].
      * apply IH5, Hin.
      * reflexivity.
Qed.

Lemma frontend_log_is_linked_witness :
  let st := snd (@Frontend.submitTransaction demoHost
                   (@Frontend.initializeSampleData demoHost
                      (demoClock "1") (demoClock "2") (demoClock "3"))
                   Frontend.collection (collectionAt "BATCH_ASH_002" 10.0 10.0)
                   (demoClock "4")) in
  linked (Frontend.transactions st)
  /\ List.length (Frontend.transactions st) = 4.
Proof.
  cbv zeta. split.
  - apply (@frontend_log_is_linked demoHost). apply sim_submit. apply sim_init.
  - reflexivity.
Defined.

(** ** The frontend's bundle *)

(** X28.  The frontend's [getProvenance] takes the first transaction of
    each kind: once a batch has a bundle, a later submission changes
    neither its farmer record nor a quality test or processing record
    it already shows, and a verified bundle stays verified. *)
Theorem frontend_bundle_keeps_first_records `{Host} (st : Frontend.BlockchainState)
  (b : string) (c : Clock) (p : Frontend.ProvenanceBundle)
  (ty : Frontend.TxType) (d : Payload) (c' c'' : Clock) :
  Frontend.getProvenance st b c = Some p ->
  exists p',
    Frontend.getProvenance (snd (Frontend.submitTransaction st ty d c')) b c'' = Some p'
    /\ Frontend.farmer p' = Frontend.farmer p
    /\ (Frontend.lab p <> None -> Frontend.lab p' = Frontend.lab p)
    /\ (Frontend.processor p <> None -> Frontend.processor p' = Frontend.processor p)
    /\ (Frontend.isVerified p = true -> Frontend.isVerified p' = true).
Proof.
  unfold Frontend.getProvenance.
  cbn [Frontend.submitTransaction snd Frontend.transactions].
  destruct (List.find (Frontend.isCollectionOf b) (Frontend.transactions st)) as [ctx|] eqn:Ec;
    [|discriminate].
  intros Hp. injection Hp as <-.
  rewrite (find_app_some _ _ _ Ec).
  eexists. split; [reflexivity|].
  cbn [Frontend.farmer Frontend.lab Frontend.processor Frontend.isVerified].
  split; [reflexivity|].
  destruct (List.find (Frontend.isQualityTestOf b) (Frontend.transactions st)) as [q|] eqn:Eq;
    destruct (List.find (Frontend.isProcessingOf b) (Frontend.transactions st)) as [r|] eqn:Er;
    try rewrite (find_app_some _ _ _ Eq); try rewrite (find_app_some _ _ _ Er);
    cbn [option_map truthy_opt andb];
    (split; [intros N; try reflexivity; now contradiction N|]);
    (split; [intros N; try reflexivity; now contradiction N|]);
    intros N; try reflexivity; discriminate N.
Qed.

Lemma frontend_bundle_keeps_first_records_witness :
  let st := @Frontend.initializeSampleData demoHost
              (demoClock "1") (demoClock "2") (demoClock "3") in
  let update :=
    Processing {| ps_id := "PROC_001";
                  ps_batchID := "BATCH_ASH_001";
                  ps_drying := completed;
                  ps_grinding := completed;
                  ps_packaging := completed;
                  processorName := "Himalaya Wellness Company";
                  processorId := "PROC_HWC_001";
                  processDate := "2025-01-18T10:00:00Z";
                  qrCode := None;
                  qrGeneratedAt := None;
                  verificationUrl := None;
                  lastUpdated := None;
                  history := [] |} in
  exists p',
    Frontend.getProvenance
      (snd (@Frontend.submitTransaction demoHost st Frontend.processing update (demoClock "5")))
      "BATCH_ASH_001" (demoClock "6") = Some p'
    /\ Frontend.processor p' = Some sampleProcessing.
Proof.
  cbv zeta.
  destruct (@frontend_bundle_keeps_first_records demoHost
              (@Frontend.initializeSampleData demoHost
                 (demoClock "1") (demoClock "2") (demoClock "3"))
              "BATCH_ASH_001" (demoClock "4") _ Frontend.processing
              (Processing {| ps_id := "PROC_001";
                  ps_batchID := "BATCH_ASH_001";
                  ps_drying := completed;
                  ps_grinding := completed;
                  ps_packaging := completed;
                  processorName := "Himalaya Wellness Company";
                  processorId := "PROC_HWC_001";
                  processDate := "2025-01-18T10:00:00Z";
                  qrCode := None;
                  qrGeneratedAt := None;
                  verificationUrl := None;
                  lastUpdated := None;
                  history := [] |})
              (demoClock "5") (demoClock "6") eq_refl) as [p' [E [_ [_ [Hproc _]]]]].
  exists p'. split; [exact E|]. rewrite Hproc; [reflexivity|discriminate].
Defined.

(** ** The frontend's rules and the ledger's *)



(** X30.  Every batch that the frontend's [getBatches] lists has a
    bundle under its id: the bundle's farmer record is a listed
    collection with that id, [isVerified] says that a quality test and
    a processing record are both present, and the QR text is
    HERB_TRACE_<batch>_<ms>. *)
Theorem frontend_listed_batches_have_bundles (st : Frontend.BlockchainState)
  (d : Payload) (b : string) (c : Clock) :
  In d (Frontend.getBatches st) ->
  data_id d = Some b ->
  exists p,
    Frontend.getProvenance st b c = Some p
    /\ Frontend.batchID p = b
    /\ In (Frontend.farmer p) (Frontend.getBatches st)
    /\ data_id (Frontend.farmer p) = Some b
    /\ Frontend.isVerified p
       = truthy_opt (Frontend.lab p) && truthy_opt (Frontend.processor p)
    /\ Frontend.qrCode p = ("HERB_TRACE_" ++ b ++ "_" ++ nowMs c)%string.
Proof.
  intros Hin Hid. unfold Frontend.getBatches in Hin.
  apply in_map_iff in Hin. destruct Hin as [tx [<- Hin]].
  apply filter_In in Hin. destruct Hin as [Hin Hty].
  unfold Frontend.getProvenance.
  destruct (List.find (Frontend.isCollectionOf b) (Frontend.transactions st)) as [ctx|] eqn:Ec.
  - eexists. split; [reflexivity|].
    cbn [Frontend.batchID Frontend.farmer Frontend.lab Frontend.processor Frontend.isVerified
         Frontend.qrCode].
    apply find_some in Ec. destruct Ec as [Hc Hb].
    unfold Frontend.isCollectionOf in Hb. apply andb_prop in Hb. destruct Hb as [Hb1 Hb2].
    split; [reflexivity|]. split.
    { unfold Frontend.getBatches. apply in_map. apply filter_In. split; assumption. }
    split.
    { destruct (data_id (Frontend.data ctx)) as [y|]; [|discriminate Hb2].
      cbn in Hb2. apply String.eqb_eq in Hb2. now rewrite Hb2. }
    split; [|reflexivity].
    destruct (List.find (Frontend.isQualityTestOf b) (Frontend.transactions st));
      destruct (List.find (Frontend.isProcessingOf b) (Frontend.transactions st)); reflexivity.
  - exfalso. pose proof (find_none _ _ Ec tx Hin) as N.
    unfold Frontend.isCollectionOf in N. rewrite Hty, Hid in N. cbn in N.
    rewrite String.eqb_refl in N. discriminate N.
Qed.

Lemma frontend_listed_batches_have_bundles_witness :
  let st := @Frontend.initializeSampleData demoHost
              (demoClock "1") (demoClock "2") (demoClock "3") in
  Frontend.getBatches st = [sampleCollection]
  /\ exists p,
       Frontend.getProvenance st "BATCH_ASH_001" (demoClock "4") = Some p
       /\ Frontend.farmer p = sampleCollection
       /\ Frontend.qrCode p = "HERB_TRACE_BATCH_ASH_001_4"%string.
Proof.
  cbv zeta. split; [reflexivity|].
  destruct (@frontend_listed_batches_have_bundles
              (@Frontend.initializeSampleData demoHost
                 (demoClock "1") (demoClock "2") (demoClock "3"))
              sampleCollection "BATCH_ASH_001" (demoClock "4")
              (or_introl eq_refl) eq_refl) as [p [E [_ [_ [_ [_ Hq]]]]]].
  exists p. split; [exact E|]. split; [|exact Hq].
  vm_compute in E. injection E as <-. reflexivity.
Defined.
